(** * Modulux bulb: provisioning control core (src/main.cpp)

    A shallow embedding of the ESP32 sketch: the sketch's globals and the
    board peripherals it talks to form one [Device] record, every sketch
    function is a computation in a small state monad over that record, and
    the calls into the Arduino libraries (WiFi, WebServer, DNSServer,
    Preferences, GPIO, millis/delay) are primitives that update the record
    and append to a trace of calls. Time passes in [delay] only; what the
    sketch cannot decide (the answers of the radio, the button, the
    requests of HTTP clients) is input. *)

From Stdlib Require Import ZArith String Ascii List Lia Bool DecimalString.
From stdpp Require Import base option strings gmap list.

Local Open Scope string_scope.
Local Open Scope list_scope.
Local Open Scope Z_scope.

(** ** Constants of the sketch *)

Definition DUMMY_SSID : string := "DummY".
Definition DUMMY_PASS : string := "dummy001".
Definition MAX_RETRIES : Z := 5.
Definition CONNECT_TIMEOUT_MS : Z := 10000.
Definition AP_PASS : string := "modulux-setup".
Definition AP_IDLE_TIMEOUT_MS : Z := 10601000.

(** [unsigned long] and [uint32_t] are 32 bits wide on the ESP32. *)
Definition wrap32 (x : Z) : Z := x mod 2 ^ 32.

(** ** Data model *)

Inductive RunState := CONNECTING | AP_SETUP | CONNECTED.

Inductive SetupPhase := IDLE | BLINK1_ON | BLINK1_OFF | BLINK2_ON | BLINK2_OFF | PAUSE.

Inductive Level := LOW | HIGH.

Inductive OutPin := LED_01 | LED_02.

Inductive WifiMode := WIFI_OFF | WIFI_STA | WIFI_AP | WIFI_AP_STA.

Inductive HttpMethod := HTTP_GET | HTTP_POST | HTTP_OTHER.

(** A value stored under a key of the Preferences namespace. *)
Inductive NvsValue := NvsUChar (v : Z) | NvsString (v : string).

(** One entry of a network scan. *)
Record Network := mkNetwork { net_ssid : string; net_rssi : Z; net_open : bool }.

(** An HTTP request as the WebServer hands it to the sketch. *)
Record Request := mkRequest {
  req_method : HttpMethod;
  req_uri : string;
  req_args : list (string * string)
}.

(** Calls into the libraries that are visible outside the sketch. *)
Inductive Event :=
| EvDelay (ms : Z)
| EvWifiDisconnect
| EvWifiMode (m : WifiMode)
| EvWifiBegin (ssid pass : string)
| EvWifiStatus (connected : bool)
| EvSoftAP (ssid pass : string)
| EvDnsStart
| EvDnsStop
| EvServerBegin
| EvServerStop
| EvSend (code : Z) (ctype body : string)
| EvPutString (key value : string)
| EvPutUChar (key : string) (value : Z)
| EvPrefsClear
| EvRestart.

(** The sketch's globals followed by the state of the board. *)
Record Device := mkDevice {
  runState : RunState;
  currentSsid : string;
  currentPass : string;
  lastHttpActivityMs : Z;
  factoryBtnPressStartMs : Z;
  factoryBtnHeld : bool;
  connectBlinkLastMs : Z;
  connectLedState : bool;
  setupPhase : SetupPhase;
  setupPhaseStartMs : Z;
  apShutdownAt : Z;
  (* board *)
  uptime : Z;                      (* milliseconds since power-on, not wrapped *)
  prefs : gmap string NvsValue;    (* Preferences, namespace "wifi" *)
  led01 : Level;
  led02 : Level;
  serverUp : bool;
  dnsUp : bool;
  wifiMode : WifiMode;
  polls : nat;                     (* number of WiFi.status() calls so far *)
  trace : list Event
}.

(** What the sketch cannot decide: the answers of the radio driver. *)
Record World := mkWorld {
  wl_status : nat -> bool;   (* is the n-th WiFi.status() WL_CONNECTED *)
  local_ip : string;         (* WiFi.localIP().toString() *)
  mac_address : string;      (* WiFi.macAddress() *)
  index_page : string        (* the embedded setup page, text not modelled *)
}.

(** What one pass of [loop] reads from outside. *)
Record TickInput := mkTick {
  push01 : Level;                 (* digitalRead(PUSH_01) *)
  client : option Request;        (* the request server.handleClient() finds *)
  networks : list Network         (* what WiFi.scanNetworks() would find *)
}.

(** ** Field updates *)

Definition set_runState (v : RunState) (s : Device) : Device :=
  mkDevice v (currentSsid s) (currentPass s) (lastHttpActivityMs s) (factoryBtnPressStartMs s) (factoryBtnHeld s) (connectBlinkLastMs s) (connectLedState s) (setupPhase s) (setupPhaseStartMs s) (apShutdownAt s) (uptime s) (prefs s) (led01 s) (led02 s) (serverUp s) (dnsUp s) (wifiMode s) (polls s) (trace s).
Definition set_currentSsid (v : string) (s : Device) : Device :=
  mkDevice (runState s) v (currentPass s) (lastHttpActivityMs s) (factoryBtnPressStartMs s) (factoryBtnHeld s) (connectBlinkLastMs s) (connectLedState s) (setupPhase s) (setupPhaseStartMs s) (apShutdownAt s) (uptime s) (prefs s) (led01 s) (led02 s) (serverUp s) (dnsUp s) (wifiMode s) (polls s) (trace s).
Definition set_currentPass (v : string) (s : Device) : Device :=
  mkDevice (runState s) (currentSsid s) v (lastHttpActivityMs s) (factoryBtnPressStartMs s) (factoryBtnHeld s) (connectBlinkLastMs s) (connectLedState s) (setupPhase s) (setupPhaseStartMs s) (apShutdownAt s) (uptime s) (prefs s) (led01 s) (led02 s) (serverUp s) (dnsUp s) (wifiMode s) (polls s) (trace s).
Definition set_lastHttpActivityMs (v : Z) (s : Device) : Device :=
  mkDevice (runState s) (currentSsid s) (currentPass s) v (factoryBtnPressStartMs s) (factoryBtnHeld s) (connectBlinkLastMs s) (connectLedState s) (setupPhase s) (setupPhaseStartMs s) (apShutdownAt s) (uptime s) (prefs s) (led01 s) (led02 s) (serverUp s) (dnsUp s) (wifiMode s) (polls s) (trace s).
Definition set_factoryBtnPressStartMs (v : Z) (s : Device) : Device :=
  mkDevice (runState s) (currentSsid s) (currentPass s) (lastHttpActivityMs s) v (factoryBtnHeld s) (connectBlinkLastMs s) (connectLedState s) (setupPhase s) (setupPhaseStartMs s) (apShutdownAt s) (uptime s) (prefs s) (led01 s) (led02 s) (serverUp s) (dnsUp s) (wifiMode s) (polls s) (trace s).
Definition set_factoryBtnHeld (v : bool) (s : Device) : Device :=
  mkDevice (runState s) (currentSsid s) (currentPass s) (lastHttpActivityMs s) (factoryBtnPressStartMs s) v (connectBlinkLastMs s) (connectLedState s) (setupPhase s) (setupPhaseStartMs s) (apShutdownAt s) (uptime s) (prefs s) (led01 s) (led02 s) (serverUp s) (dnsUp s) (wifiMode s) (polls s) (trace s).
Definition set_connectBlinkLastMs (v : Z) (s : Device) : Device :=
  mkDevice (runState s) (currentSsid s) (currentPass s) (lastHttpActivityMs s) (factoryBtnPressStartMs s) (factoryBtnHeld s) v (connectLedState s) (setupPhase s) (setupPhaseStartMs s) (apShutdownAt s) (uptime s) (prefs s) (led01 s) (led02 s) (serverUp s) (dnsUp s) (wifiMode s) (polls s) (trace s).
Definition set_connectLedState (v : bool) (s : Device) : Device :=
  mkDevice (runState s) (currentSsid s) (currentPass s) (lastHttpActivityMs s) (factoryBtnPressStartMs s) (factoryBtnHeld s) (connectBlinkLastMs s) v (setupPhase s) (setupPhaseStartMs s) (apShutdownAt s) (uptime s) (prefs s) (led01 s) (led02 s) (serverUp s) (dnsUp s) (wifiMode s) (polls s) (trace s).
Definition set_setupPhase (v : SetupPhase) (s : Device) : Device :=
  mkDevice (runState s) (currentSsid s) (currentPass s) (lastHttpActivityMs s) (factoryBtnPressStartMs s) (factoryBtnHeld s) (connectBlinkLastMs s) (connectLedState s) v (setupPhaseStartMs s) (apShutdownAt s) (uptime s) (prefs s) (led01 s) (led02 s) (serverUp s) (dnsUp s) (wifiMode s) (polls s) (trace s).
Definition set_setupPhaseStartMs (v : Z) (s : Device) : Device :=
  mkDevice (runState s) (currentSsid s) (currentPass s) (lastHttpActivityMs s) (factoryBtnPressStartMs s) (factoryBtnHeld s) (connectBlinkLastMs s) (connectLedState s) (setupPhase s) v (apShutdownAt s) (uptime s) (prefs s) (led01 s) (led02 s) (serverUp s) (dnsUp s) (wifiMode s) (polls s) (trace s).
Definition set_apShutdownAt (v : Z) (s : Device) : Device :=
  mkDevice (runState s) (currentSsid s) (currentPass s) (lastHttpActivityMs s) (factoryBtnPressStartMs s) (factoryBtnHeld s) (connectBlinkLastMs s) (connectLedState s) (setupPhase s) (setupPhaseStartMs s) v (uptime s) (prefs s) (led01 s) (led02 s) (serverUp s) (dnsUp s) (wifiMode s) (polls s) (trace s).
Definition set_uptime (v : Z) (s : Device) : Device :=
  mkDevice (runState s) (currentSsid s) (currentPass s) (lastHttpActivityMs s) (factoryBtnPressStartMs s) (factoryBtnHeld s) (connectBlinkLastMs s) (connectLedState s) (setupPhase s) (setupPhaseStartMs s) (apShutdownAt s) v (prefs s) (led01 s) (led02 s) (serverUp s) (dnsUp s) (wifiMode s) (polls s) (trace s).
Definition set_prefs (v : gmap string NvsValue) (s : Device) : Device :=
  mkDevice (runState s) (currentSsid s) (currentPass s) (lastHttpActivityMs s) (factoryBtnPressStartMs s) (factoryBtnHeld s) (connectBlinkLastMs s) (connectLedState s) (setupPhase s) (setupPhaseStartMs s) (apShutdownAt s) (uptime s) v (led01 s) (led02 s) (serverUp s) (dnsUp s) (wifiMode s) (polls s) (trace s).
Definition set_led01 (v : Level) (s : Device) : Device :=
  mkDevice (runState s) (currentSsid s) (currentPass s) (lastHttpActivityMs s) (factoryBtnPressStartMs s) (factoryBtnHeld s) (connectBlinkLastMs s) (connectLedState s) (setupPhase s) (setupPhaseStartMs s) (apShutdownAt s) (uptime s) (prefs s) v (led02 s) (serverUp s) (dnsUp s) (wifiMode s) (polls s) (trace s).
Definition set_led02 (v : Level) (s : Device) : Device :=
  mkDevice (runState s) (currentSsid s) (currentPass s) (lastHttpActivityMs s) (factoryBtnPressStartMs s) (factoryBtnHeld s) (connectBlinkLastMs s) (connectLedState s) (setupPhase s) (setupPhaseStartMs s) (apShutdownAt s) (uptime s) (prefs s) (led01 s) v (serverUp s) (dnsUp s) (wifiMode s) (polls s) (trace s).
Definition set_serverUp (v : bool) (s : Device) : Device :=
  mkDevice (runState s) (currentSsid s) (currentPass s) (lastHttpActivityMs s) (factoryBtnPressStartMs s) (factoryBtnHeld s) (connectBlinkLastMs s) (connectLedState s) (setupPhase s) (setupPhaseStartMs s) (apShutdownAt s) (uptime s) (prefs s) (led01 s) (led02 s) v (dnsUp s) (wifiMode s) (polls s) (trace s).
Definition set_dnsUp (v : bool) (s : Device) : Device :=
  mkDevice (runState s) (currentSsid s) (currentPass s) (lastHttpActivityMs s) (factoryBtnPressStartMs s) (factoryBtnHeld s) (connectBlinkLastMs s) (connectLedState s) (setupPhase s) (setupPhaseStartMs s) (apShutdownAt s) (uptime s) (prefs s) (led01 s) (led02 s) (serverUp s) v (wifiMode s) (polls s) (trace s).
Definition set_wifiMode (v : WifiMode) (s : Device) : Device :=
  mkDevice (runState s) (currentSsid s) (currentPass s) (lastHttpActivityMs s) (factoryBtnPressStartMs s) (factoryBtnHeld s) (connectBlinkLastMs s) (connectLedState s) (setupPhase s) (setupPhaseStartMs s) (apShutdownAt s) (uptime s) (prefs s) (led01 s) (led02 s) (serverUp s) (dnsUp s) v (polls s) (trace s).
Definition set_polls (v : nat) (s : Device) : Device :=
  mkDevice (runState s) (currentSsid s) (currentPass s) (lastHttpActivityMs s) (factoryBtnPressStartMs s) (factoryBtnHeld s) (connectBlinkLastMs s) (connectLedState s) (setupPhase s) (setupPhaseStartMs s) (apShutdownAt s) (uptime s) (prefs s) (led01 s) (led02 s) (serverUp s) (dnsUp s) (wifiMode s) v (trace s).
Definition set_trace (v : list Event) (s : Device) : Device :=
  mkDevice (runState s) (currentSsid s) (currentPass s) (lastHttpActivityMs s) (factoryBtnPressStartMs s) (factoryBtnHeld s) (connectBlinkLastMs s) (connectLedState s) (setupPhase s) (setupPhaseStartMs s) (apShutdownAt s) (uptime s) (prefs s) (led01 s) (led02 s) (serverUp s) (dnsUp s) (wifiMode s) (polls s) v.

(** ** The monad of sketch code

    A call either returns a value and the new device state, or ends in
    [ESP.restart()] and never returns, or exhausts the fuel given to one of
    its loops. *)

Inductive Outcome (A : Type) :=
| Ret (a : A) (s : Device)
| Reboot (s : Device)
| OutOfFuel.
Arguments Ret {A} a s.
Arguments Reboot {A} s.
Arguments OutOfFuel {A}.

Definition M (A : Type) : Type := Device -> Outcome A.

Definition ret {A} (a : A) : M A := fun s => Ret a s.

Definition bind {A B} (m : M A) (f : A -> M B) : M B :=
  fun s => match m s with
           | Ret a s' => f a s'
           | Reboot s' => Reboot s'
           | OutOfFuel => OutOfFuel
           end.

Declare Scope sketch_scope.
Delimit Scope sketch_scope with sketch.
Notation "'let*' x := m 'in' k" := (bind m (fun x => k))
  (at level 10, x name, m at level 100, k at level 200) : sketch_scope.
Notation "m ;;; k" := (bind m (fun _ => k))
  (at level 100, k at level 200, right associativity) : sketch_scope.
Local Open Scope sketch_scope.

Definition gets {A} (f : Device -> A) : M A := fun s => Ret (f s) s.
Definition modify (f : Device -> Device) : M unit := fun s => Ret tt (f s).
Definition emit (e : Event) : M unit := modify (fun s => set_trace (trace s ++ [e]) s).
Definition when (b : bool) (m : M unit) : M unit := if b then m else ret tt.

(** ** Library primitives *)

(** [millis()]: the uptime as a 32-bit counter. *)
Definition millis : M Z := gets (fun s => wrap32 (uptime s)).

(** [delay(ms)] is the only way time passes in the model. *)
Definition delay (ms : Z) : M unit :=
  modify (fun s => set_trace (trace s ++ [EvDelay ms]) (set_uptime (uptime s + ms) s)).

Definition digitalWrite (pin : OutPin) (v : Level) : M unit :=
  modify (match pin with LED_01 => set_led01 v | LED_02 => set_led02 v end).

(** [Preferences::getUChar] and [getString] on the stored map: the default
    comes back when the key is absent or holds the other type. *)
Definition nvs_getUChar (p : gmap string NvsValue) (key : string) (default : Z) : Z :=
  match p !! key with Some (NvsUChar v) => v | _ => default end.

Definition nvs_getString (p : gmap string NvsValue) (key : string) (default : string) : string :=
  match p !! key with Some (NvsString v) => v | _ => default end.

Definition prefs_getUChar (key : string) (default : Z) : M Z :=
  gets (fun s => nvs_getUChar (prefs s) key default).

Definition prefs_getString (key : string) (default : string) : M string :=
  gets (fun s => nvs_getString (prefs s) key default).

Definition prefs_putString (key value : string) : M unit :=
  modify (fun s => set_trace (trace s ++ [EvPutString key value])
                     (set_prefs (<[key := NvsString value]> (prefs s)) s)).

Definition prefs_putUChar (key : string) (value : Z) : M unit :=
  modify (fun s => set_trace (trace s ++ [EvPutUChar key value])
                     (set_prefs (<[key := NvsUChar (value mod 256)]> (prefs s)) s)).

Definition prefs_clear : M unit :=
  modify (fun s => set_trace (trace s ++ [EvPrefsClear]) (set_prefs ∅ s)).

(** [WiFi.disconnect(true, true)] switches the radio off. *)
Definition WiFi_disconnect : M unit :=
  modify (fun s => set_trace (trace s ++ [EvWifiDisconnect]) (set_wifiMode WIFI_OFF s)).

Definition WiFi_mode (m : WifiMode) : M unit :=
  modify (fun s => set_trace (trace s ++ [EvWifiMode m]) (set_wifiMode m s)).

Definition WiFi_begin (ssid pass : string) : M unit := emit (EvWifiBegin ssid pass).

Definition WiFi_softAP (ssid pass : string) : M unit := emit (EvSoftAP ssid pass).

Definition dnsServer_start : M unit :=
  modify (fun s => set_trace (trace s ++ [EvDnsStart]) (set_dnsUp true s)).

Definition dnsServer_stop : M unit :=
  modify (fun s => set_trace (trace s ++ [EvDnsStop]) (set_dnsUp false s)).

(** Answers at most one pending query; nothing in the sketch depends on it. *)
Definition dnsServer_processNextRequest : M unit := ret tt.

Definition server_begin : M unit :=
  modify (fun s => set_trace (trace s ++ [EvServerBegin]) (set_serverUp true s)).

Definition server_stop : M unit :=
  modify (fun s => set_trace (trace s ++ [EvServerStop]) (set_serverUp false s)).

Definition server_send (code : Z) (ctype body : string) : M unit :=
  emit (EvSend code ctype body).

(** [ESP.restart()] does not return. *)
Definition ESP_restart : M unit :=
  fun s => Reboot (set_trace (trace s ++ [EvRestart]) s).

(** [server.arg(name)]: the first value sent under [name], else empty. *)
Fixpoint server_arg (args : list (string * string)) (name : string) : string :=
  match args with
  | [] => EmptyString
  | (k, v) :: rest => if String.eqb k name then v else server_arg rest name
  end.

Definition strlen (x : string) : Z := Z.of_nat (String.length x).

Section Sketch.

Variable w : World.

(** [WiFi.status() == WL_CONNECTED] *)
Definition WiFi_connected : M bool :=
  fun s => let c := wl_status w (polls s) in
           Ret c (set_polls (S (polls s)) (set_trace (trace s ++ [EvWifiStatus c]) s)).

(** ** Credential store *)

Definition loadCredentialsFromNVS : M unit :=
  let* prov := prefs_getUChar "prov" 0 in
  if negb (prov =? 0) then
    let* ssid := prefs_getString "ssid" EmptyString in
    modify (set_currentSsid ssid) ;;;
    let* pass := prefs_getString "pass" EmptyString in
    modify (set_currentPass pass)
  else
    modify (set_currentSsid DUMMY_SSID) ;;;
    modify (set_currentPass DUMMY_PASS).

Definition saveCredentialsToNVS (ssid pass : string) : M unit :=
  prefs_putString "ssid" ssid ;;;
  prefs_putString "pass" pass ;;;
  prefs_putUChar "prov" 1.

(** ** Connection manager *)

(** The polling loop shared by both connect functions:
    [while (millis() - start < timeoutMs) { if connected return true; delay(100); }]
    [true] stands for the [return true] inside the loop. *)
Fixpoint pollStatus (fuel : nat) (start timeoutMs : Z) : M bool :=
  match fuel with
  | O => fun _ => OutOfFuel
  | S fuel' =>
      let* now := millis in
      if wrap32 (now - start) <? timeoutMs then
        let* c := WiFi_connected in
        if c then ret true
        else delay 100 ;;; pollStatus fuel' start timeoutMs
      else ret false
  end.

(** Passes of the polling loop that a timeout of [timeoutMs] can need. *)
Definition pollFuel (timeoutMs : Z) : nat := S (Z.to_nat (timeoutMs / 100 + 1)).

(** The [for] loop of [tryConnectStation], from [attempt] on. The counter
    is a [uint8_t] below [maxRetries], itself a [uint8_t]: it cannot wrap. *)
Fixpoint stationAttempts (fuel : nat) (ssid pass : string)
    (maxRetries timeoutMs attempt : Z) : M bool :=
  match fuel with
  | O => fun _ => OutOfFuel
  | S fuel' =>
      if attempt <? maxRetries then
        WiFi_disconnect ;;;
        delay 50 ;;;
        WiFi_mode WIFI_STA ;;;
        WiFi_begin ssid pass ;;;
        let* start := millis in
        let* c := pollStatus (pollFuel timeoutMs) start timeoutMs in
        if c then ret true
        else
          let maxBackoffMs := 8000 in
          let backoff := wrap32 (Z.shiftl 1000 (Z.min attempt 3)) in
          let backoff := if backoff >? maxBackoffMs then maxBackoffMs else backoff in
          delay backoff ;;;
          stationAttempts fuel' ssid pass maxRetries timeoutMs (attempt + 1)
      else ret false
  end.

Definition tryConnectStation (ssid pass : string) (maxRetries timeoutMs : Z) : M bool :=
  stationAttempts (S (Z.to_nat maxRetries)) ssid pass maxRetries timeoutMs 0.

(** [maxRetries] is accepted and never read. *)
Definition tryConnectWhileAp (ssid pass : string) (maxRetries timeoutMs : Z) : M bool :=
  WiFi_mode WIFI_AP_STA ;;;
  WiFi_begin ssid pass ;;;
  let* start := millis in
  pollStatus (pollFuel timeoutMs) start timeoutMs.

(** ** Captive setup service *)

Fixpoint stripColons (x : string) : string :=
  match x with
  | EmptyString => EmptyString
  | String c rest =>
      if Ascii.eqb c ":"%char then stripColons rest else String c (stripColons rest)
  end.

Definition upperChar (c : ascii) : ascii :=
  let n := nat_of_ascii c in
  if ((97 <=? n) && (n <=? 122))%nat then ascii_of_nat (n - 32) else c.

Fixpoint toUpperCase (x : string) : string :=
  match x with
  | EmptyString => EmptyString
  | String c rest => String (upperChar c) (toUpperCase rest)
  end.

Definition last4MacHex : string :=
  let mac := toUpperCase (stripColons (mac_address w)) in
  let n := String.length mac in
  if (4 <=? n)%nat then substring (n - 4) 4 mac else mac.

(** Every handler of the setup page ends the same way. *)
Definition touchHttpActivity : M unit :=
  let* now := millis in modify (set_lastHttpActivityMs now).

Definition servePage : M unit :=
  server_send 200 "text/html" (index_page w) ;;;
  touchHttpActivity.

Definition handleRoot : M unit := servePage.

Definition handleNotFound : M unit := servePage.

Definition handleNcsi : M unit :=
  server_send 200 "text/plain" "Microsoft NCSI" ;;;
  touchHttpActivity.

Definition stopCaptiveAP : M unit :=
  server_stop ;;;
  dnsServer_stop.

Definition quote : string := String "034"%char EmptyString.

Definition decimal (z : Z) : string := NilZero.string_of_int (Z.to_int z).

(** The body of the [for] loop of [handleScan], entry by entry. *)
Fixpoint scanEntries (nets : list Network) : string :=
  match nets with
  | [] => EmptyString
  | n :: rest =>
      let enc := if net_open n then "OPEN" else "WPA2" in
      "{" +:+ (quote +:+ "ssid" +:+ quote +:+ ":" +:+ quote) +:+ net_ssid n +:+ quote +:+ ","
          +:+ (quote +:+ "rssi" +:+ quote +:+ ":") +:+ decimal (net_rssi n) +:+ ","
          +:+ (quote +:+ "enc" +:+ quote +:+ ":" +:+ quote) +:+ enc +:+ quote
          +:+ "}"
          +:+ (match rest with [] => EmptyString | _ => "," end)
          +:+ scanEntries rest
  end.

(** [WiFi.scanNetworks()] is synchronous: the sketch waits in it until the
    scan is over. Its result is the input [nets]; the time it takes is not
    counted by the clock of the model, where time passes in [delay] only. *)
Definition handleScan (nets : list Network) : M unit :=
  server_send 200 "application/json" ("[" +:+ scanEntries nets +:+ "]") ;;;
  touchHttpActivity.

Definition showConnected : M unit :=
  digitalWrite LED_01 HIGH ;;;
  digitalWrite LED_02 LOW.

Definition handleSave (rq : Request) : M unit :=
  let ssid := server_arg (req_args rq) "ssid" in
  let pass := server_arg (req_args rq) "pass" in
  if (strlen ssid =? 0) || (strlen pass <? 8) then
    server_send 400 "text/plain" "Invalid SSID or password (min 8 chars)" ;;;
    touchHttpActivity
  else
    saveCredentialsToNVS ssid pass ;;;
    modify (set_currentSsid ssid) ;;;
    modify (set_currentPass pass) ;;;
    let* connected := tryConnectWhileAp ssid pass MAX_RETRIES CONNECT_TIMEOUT_MS in
    if connected then
      let ip := local_ip w in
      server_send 200 "text/html" ("Connected to " +:+ ssid +:+ " IP: " +:+ ip +:+ String "010"%char EmptyString) ;;;
      touchHttpActivity ;;;
      let* now := millis in
      modify (set_apShutdownAt (wrap32 (now + 40000))) ;;;
      modify (set_runState CONNECTED) ;;;
      showConnected
    else
      server_send 500 "text/plain" "Failed to connect, please check credentials and try again." ;;;
      touchHttpActivity ;;;
      modify (set_runState AP_SETUP).

Definition handleStatus : M unit :=
  let* rs := gets runState in
  let body :=
    match rs with
    | AP_SETUP => "{" +:+ quote +:+ "state" +:+ quote +:+ ":" +:+ quote +:+ "AP_ACTIVE" +:+ quote
    | CONNECTING => "{" +:+ quote +:+ "state" +:+ quote +:+ ":" +:+ quote +:+ "CONNECTING" +:+ quote
    | CONNECTED =>
        ("{" +:+ quote +:+ "state" +:+ quote +:+ ":" +:+ quote +:+ "CONNECTED" +:+ quote)
        +:+ ("," +:+ quote +:+ "ip" +:+ quote +:+ ":" +:+ quote) +:+ local_ip w +:+ quote
    end +:+ "}" in
  server_send 200 "application/json" body ;;;
  touchHttpActivity.

(** The routes registered in [startCaptiveAP], in registration order, and
    the not-found handler for everything else. *)
Definition route (nets : list Network) (rq : Request) : M unit :=
  match req_method rq with
  | HTTP_GET =>
      if String.eqb (req_uri rq) "/" then handleRoot
      else if String.eqb (req_uri rq) "/scan" then handleScan nets
      else if String.eqb (req_uri rq) "/status" then handleStatus
      else if String.eqb (req_uri rq) "/generate_204" then servePage
      else if String.eqb (req_uri rq) "/hotspot-detect.html" then servePage
      else if String.eqb (req_uri rq) "/ncsi.txt" then handleNcsi
      else handleNotFound
  | HTTP_POST =>
      if String.eqb (req_uri rq) "/save" then handleSave rq else handleNotFound
  | HTTP_OTHER => handleNotFound
  end.

(** [server.handleClient()]: serves the pending request, if the server was
    begun and a request is there. *)
Definition server_handleClient (i : TickInput) : M unit :=
  let* up := gets serverUp in
  match client i with
  | Some rq => if up then route (networks i) rq else ret tt
  | None => ret tt
  end.

Definition startCaptiveAP : M unit :=
  let apSsid := "ModuLux-Setup-" +:+ last4MacHex in
  WiFi_mode WIFI_AP ;;;
  WiFi_softAP apSsid AP_PASS ;;;
  dnsServer_start ;;;
  server_begin ;;;
  touchHttpActivity ;;;
  modify (set_setupPhase BLINK1_ON) ;;;
  let* now := millis in
  modify (set_setupPhaseStartMs now) ;;;
  modify (set_runState AP_SETUP).

(** ** Factory reset monitor *)

Fixpoint rapidBlink (n : nat) : M unit :=
  match n with
  | O => ret tt
  | S n' =>
      digitalWrite LED_01 HIGH ;;;
      delay 100 ;;;
      digitalWrite LED_01 LOW ;;;
      delay 100 ;;;
      rapidBlink n'
  end.

Definition performFactoryReset : M unit :=
  prefs_clear ;;;
  prefs_putUChar "prov" 0 ;;;
  rapidBlink 8 ;;;
  delay 200 ;;;
  ESP_restart.

Definition factoryResetCheck (v : Level) : M unit :=
  match v with
  | LOW =>
      let* held := gets factoryBtnHeld in
      if negb held then
        modify (set_factoryBtnHeld true) ;;;
        let* now := millis in
        modify (set_factoryBtnPressStartMs now)
      else
        let* now := millis in
        let* start := gets factoryBtnPressStartMs in
        when (wrap32 (now - start) >=? 10000) performFactoryReset
  | HIGH => modify (set_factoryBtnHeld false)
  end.

(** ** LED pattern scheduler *)

Definition showConnectingPattern : M unit :=
  let* now := millis in
  let blinkInterval := 200 in
  let* last := gets connectBlinkLastMs in
  when (wrap32 (now - last) >=? blinkInterval)
    (modify (set_connectBlinkLastMs now) ;;;
     let* st := gets connectLedState in
     modify (set_connectLedState (negb st)) ;;;
     digitalWrite LED_01 (if negb st then HIGH else LOW) ;;;
     digitalWrite LED_02 LOW).

Definition showSetupPattern : M unit :=
  let* now := millis in
  let onMs := 200 in
  let offMs := 200 in
  let pauseMs := 1200 in
  let* phase := gets setupPhase in
  let* start := gets setupPhaseStartMs in
  match phase with
  | BLINK1_ON =>
      digitalWrite LED_01 HIGH ;;;
      digitalWrite LED_02 LOW ;;;
      when (wrap32 (now - start) >=? onMs)
        (modify (set_setupPhase BLINK1_OFF) ;;;
         modify (set_setupPhaseStartMs now) ;;;
         digitalWrite LED_01 LOW)
  | BLINK1_OFF =>
      when (wrap32 (now - start) >=? offMs)
        (modify (set_setupPhase BLINK2_ON) ;;;
         modify (set_setupPhaseStartMs now) ;;;
         digitalWrite LED_01 HIGH ;;;
         digitalWrite LED_02 HIGH)
  | BLINK2_ON =>
      when (wrap32 (now - start) >=? onMs)
        (modify (set_setupPhase BLINK2_OFF) ;;;
         modify (set_setupPhaseStartMs now) ;;;
         digitalWrite LED_01 LOW ;;;
         digitalWrite LED_02 LOW)
  | BLINK2_OFF =>
      when (wrap32 (now - start) >=? offMs)
        (modify (set_setupPhase PAUSE) ;;;
         modify (set_setupPhaseStartMs now))
  | PAUSE =>
      when (wrap32 (now - start) >=? pauseMs)
        (modify (set_setupPhase BLINK1_ON) ;;;
         modify (set_setupPhaseStartMs now))
  | IDLE =>
      modify (set_setupPhase PAUSE) ;;;
      modify (set_setupPhaseStartMs now)
  end.

(** ** Provisioning controller *)

(** [DEBUG] is defined in the sketch: [Serial.begin] is followed by
    [delay(10)]. Pin modes and serial output leave no trace in the model. *)
Definition setup : M unit :=
  delay 10 ;;;
  digitalWrite LED_01 LOW ;;;
  digitalWrite LED_02 LOW ;;;
  loadCredentialsFromNVS ;;;
  modify (set_runState CONNECTING) ;;;
  showConnectingPattern ;;;
  let* ssid := gets currentSsid in
  let* pass := gets currentPass in
  let* ok := tryConnectStation ssid pass MAX_RETRIES CONNECT_TIMEOUT_MS in
  if ok then
    modify (set_runState CONNECTED) ;;;
    showConnected
  else
    startCaptiveAP ;;;
    modify (set_runState AP_SETUP).

Definition showPattern : M unit :=
  let* rs := gets runState in
  match rs with
  | AP_SETUP => showSetupPattern
  | CONNECTING => showConnectingPattern
  | CONNECTED => showConnected
  end.

(** The idle check of [loop], entered after the request was served. *)
Definition idleRetry : M unit :=
  let* now := millis in
  let* last := gets lastHttpActivityMs in
  when (wrap32 (now - last) >? AP_IDLE_TIMEOUT_MS)
    (let* now := millis in
     modify (set_lastHttpActivityMs now) ;;;
     let* ssid := gets currentSsid in
     let* pass := gets currentPass in
     let* ok := tryConnectWhileAp ssid pass 1 CONNECT_TIMEOUT_MS in
     when ok
       (modify (set_runState CONNECTED) ;;;
        showConnected ;;;
        let* now := millis in
        modify (set_apShutdownAt (wrap32 (now + 40000))))).

Definition serviceAp (i : TickInput) : M unit :=
  let* rs := gets runState in
  match rs with
  | AP_SETUP =>
      dnsServer_processNextRequest ;;;
      server_handleClient i ;;;
      idleRetry
  | _ => ret tt
  end.

(** [if (runState == CONNECTED && apShutdownAt != 0 && millis() >= apShutdownAt)] *)
Definition maybeShutdown : M unit :=
  let* rs := gets runState in
  let* at_ := gets apShutdownAt in
  let* now := millis in
  match rs with
  | CONNECTED =>
      when (negb (at_ =? 0) && (now >=? at_))
        (stopCaptiveAP ;;;
         modify (set_apShutdownAt 0))
  | _ => ret tt
  end.

Definition loop (i : TickInput) : M unit :=
  showPattern ;;;
  serviceAp i ;;;
  maybeShutdown ;;;
  factoryResetCheck (push01 i) ;;;
  delay 20.

End Sketch.

(** ** The device as a transition system *)

(** The globals as their initialisers leave them, on a board whose
    Preferences hold [p]. *)
Definition powerOn (p : gmap string NvsValue) (n : nat) (tr : list Event) : Device :=
  mkDevice CONNECTING EmptyString EmptyString 0 0 false 0 false PAUSE 0 0
           0 p LOW LOW false false WIFI_OFF n tr.

(** After [ESP.restart()] only the Preferences survive. *)
Definition restart (s : Device) : Device := powerOn (prefs s) (polls s) (trace s).

(** The states the device can be in between two passes of [loop]. *)
Inductive reachable (w : World) : Device -> Prop :=
| reach_setup p s :
    setup w (powerOn p 0 []) = Ret tt s -> reachable w s
| reach_loop s i s' :
    reachable w s -> loop w i s = Ret tt s' -> reachable w s'
| reach_restart s i s0 s' :
    reachable w s -> loop w i s = Reboot s0 -> setup w (restart s0) = Ret tt s' ->
    reachable w s'.

(** A run of [loop] over the inputs of consecutive passes; it ends early at
    a restart. *)
Fixpoint run (w : World) (inputs : list TickInput) : M unit :=
  match inputs with
  | [] => ret tt
  | i :: rest => loop w i ;;; run w rest
  end.

(** * Vocabulary of the statements *)

(** [k] polls that found no connection, each followed by [delay(100)]. *)
Fixpoint pollEvents (k : nat) : list Event :=
  match k with
  | O => []
  | S k' => EvWifiStatus false :: EvDelay 100 :: pollEvents k'
  end.

(** The device after [k] such polls and, when [b], a last one that found
    the connection. *)
Definition afterPolls (k : nat) (b : bool) (s : Device) : Device :=
  set_polls (polls s + k + (if b then 1 else 0))%nat
    (set_trace (trace s ++ pollEvents k ++ (if b then [EvWifiStatus true] else []))
       (set_uptime (uptime s + 100 * Z.of_nat k) s)).

(** What a connection attempt may change: the radio mode, the poll
    counter, the clock and the trace. *)
Definition radioUpdate (m : WifiMode) (n : nat) (u : Z) (t : list Event) (s : Device) : Device :=
  set_wifiMode m (set_polls n (set_uptime u (set_trace t s))).

(** The events one call of [tryConnectStation] may add to the trace. *)
Definition stationEvent (ssid pass : string) (e : Event) : Prop :=
  match e with
  | EvWifiDisconnect | EvWifiMode WIFI_STA | EvWifiStatus _ | EvDelay _ => True
  | EvWifiBegin a b => a = ssid /\ b = pass
  | _ => False
  end.

Definition beganWhileAp (ssid pass : string) (s : Device) : Device :=
  set_trace (trace s ++ [EvWifiMode WIFI_AP_STA; EvWifiBegin ssid pass])
    (set_wifiMode WIFI_AP_STA s).

(** The backoff after attempt number [attempt] (counted from 0). *)
Definition backoffMs (attempt : Z) : Z :=
  let backoff := wrap32 (Z.shiftl 1000 (Z.min attempt 3)) in
  if backoff >? 8000 then 8000 else backoff.

(** [wp m Q R s]: from [s], the call [m] returns with [Q], or restarts the
    device in a state with [R]; it does not run out of fuel. *)
Definition wp {A} (m : M A) (Q : A -> Device -> Prop) (R : Device -> Prop) (s : Device) : Prop :=
  match m s with
  | Ret a s' => Q a s'
  | Reboot s' => R s'
  | OutOfFuel => False
  end.

(** A pending shutdown deadline belongs to the CONNECTED state. *)
Definition deadlineOwned (s : Device) : Prop :=
  apShutdownAt s <> 0 -> runState s = CONNECTED.

(** Indicator B is lit only in the second blink. *)
Definition pulseInPhase (s : Device) : Prop :=
  led02 s = HIGH -> setupPhase s = BLINK2_ON.

(** Events other than those of a factory reset. *)
Definition notWipe (e : Event) : Prop :=
  match e with
  | EvPrefsClear | EvRestart => False
  | _ => True
  end.

(** What the part of [loop] before the button check may do in at most [d]
    milliseconds: it leaves the button state alone, wipes nothing and keeps
    the invariants. *)
Definition preFrame (d : Z) (s s' : Device) : Prop :=
  factoryBtnHeld s' = factoryBtnHeld s /\
  factoryBtnPressStartMs s' = factoryBtnPressStartMs s /\
  uptime s <= uptime s' <= uptime s + d /\
  (exists evs, trace s' = trace s ++ evs /\ Forall notWipe evs) /\
  (deadlineOwned s -> deadlineOwned s') /\
  (pulseInPhase s -> pulseInPhase s').

(** The part of [loop] that runs before the button is sampled. *)
Definition beforeButton (w : World) (i : TickInput) : M unit :=
  showPattern ;;; serviceAp w i ;;; maybeShutdown.

(** What [performFactoryReset] adds to the trace: the wipe, sixteen
    100 ms half-blinks, the final pause and the restart. *)
Definition resetEvents : list Event :=
  [EvPrefsClear; EvPutUChar "prov" 0] ++ repeat (EvDelay 100) 16 ++ [EvDelay 200; EvRestart].

Definition afterFactoryReset (s : Device) : Device :=
  set_trace (trace s ++ resetEvents)
    (set_uptime (uptime s + 1800)
       (set_led01 LOW (set_prefs {[ "prov" := NvsUChar 0 ]} s))).

(** The button has been read LOW since uptime [T], the last time less than
    ten seconds after. A pass ends 20 ms after it sampled the button. *)
Definition heldSince (T : Z) (s : Device) : Prop :=
  factoryBtnHeld s = true /\
  factoryBtnPressStartMs s = wrap32 T /\
  0 <= uptime s - 20 - T < 10000.

(** The device at [ESP.restart()] after a hold that began at uptime [T]:
    the button was sampled (1800 ms of blinking earlier) ten seconds or
    more after [T], the Preferences were cleared and then hold [prov = 0]
    only, all before the restart. *)
Definition wipedAfter (T : Z) (s0 : Device) : Prop :=
  10000 <= uptime s0 - 1800 - T /\
  prefs s0 = {[ "prov" := NvsUChar 0 ]} /\
  exists pre, trace s0 = pre ++ resetEvents.

(** Nothing was wiped between two states. *)
Definition noWipeBetween (s s' : Device) : Prop :=
  exists evs, trace s' = trace s ++ evs /\ Forall notWipe evs.

(** The credentials [loadCredentialsFromNVS] reads out of a store. *)
Definition bootSsid (p : gmap string NvsValue) : string :=
  if nvs_getUChar p "prov" 0 =? 0 then DUMMY_SSID else nvs_getString p "ssid" EmptyString.

Definition bootPass (p : gmap string NvsValue) : string :=
  if nvs_getUChar p "prov" 0 =? 0 then DUMMY_PASS else nvs_getString p "pass" EmptyString.

(** The events [setup] may add to the trace when it connects with
    [ssid] and [pass]. *)
Definition bootEvent (ssid pass : string) (e : Event) : Prop :=
  match e with
  | EvWifiBegin a b => a = ssid /\ b = pass
  | EvWifiDisconnect | EvWifiMode _ | EvWifiStatus _ | EvDelay _
  | EvSoftAP _ _ | EvDnsStart | EvServerBegin => True
  | _ => False
  end.

(** The setup service as [startCaptiveAP] leaves it. *)
Definition apStarted (s : Device) : Prop :=
  runState s = AP_SETUP /\
  setupPhase s = BLINK1_ON /\
  setupPhaseStartMs s = wrap32 (uptime s) /\
  lastHttpActivityMs s = wrap32 (uptime s) /\
  serverUp s = true /\ dnsUp s = true.

(** The device when a connected pass reaches the button check. *)
Definition connectedPass (s : Device) : Device :=
  let s1 := set_led02 LOW (set_led01 HIGH s) in
  if negb (apShutdownAt s =? 0) && (wrap32 (uptime s) >=? apShutdownAt s)
  then set_apShutdownAt 0
         (set_trace (trace s ++ [EvServerStop; EvDnsStop]) (set_dnsUp false (set_serverUp false s1)))
  else s1.

(** Every connection the events [evs] begin is to [ssid] with [pass]. *)
Definition beginsOnlyWith (ssid pass : string) (evs : list Event) : Prop :=
  forall a b, In (EvWifiBegin a b) evs -> a = ssid /\ b = pass.

(** Worlds and inputs for the examples. *)
Definition neverConnects : World :=
  mkWorld (fun _ => false) "192.168.1.23" "24:6F:28:AA:BB:CC" "<html>".

(** The radio finds no network during [setup] (500 polls) and accepts the
    first connection begun after that. *)
Definition connectsAfterSetup : World :=
  mkWorld (fun n => (500 <=? n)%nat) "192.168.1.23" "24:6F:28:AA:BB:CC" "<html>".

Definition quietTick : TickInput := mkTick HIGH None [].

Definition pressedTick : TickInput := mkTick LOW None [].

Definition saveRequest (ssid pass : string) : Request :=
  mkRequest HTTP_POST "/save" [("ssid", ssid); ("pass", pass)].

Definition saveTick (ssid pass : string) : TickInput :=
  mkTick HIGH (Some (saveRequest ssid pass)) [].

(** A store that holds credentials but no provisioned flag. *)
Definition staleStore : gmap string NvsValue :=
  <["ssid" := NvsString "OldNet"]> (<["pass" := NvsString "oldsecret"]> ∅).

Definition provisionedStore : gmap string NvsValue :=
  <["prov" := NvsUChar 1]> staleStore.

(** The final state of a call, for the examples; the default is never used. *)
Definition stateOf {A} (o : Outcome A) : Device :=
  match o with
  | Ret _ s => s
  | Reboot s => s
  | OutOfFuel => powerOn ∅ 0 []
  end.

(** The device in setup mode after a startup without network. *)
Definition apDevice : Device := stateOf (setup neverConnects (powerOn ∅ 0 [])).

(** The device after a startup without network and a successful save. *)
Definition savedDevice : Device :=
  stateOf (loop connectsAfterSetup (saveTick "HomeNet" "12345678")
             (stateOf (setup connectsAfterSetup (powerOn ∅ 0 [])))).

(** The device after the idle retry of [loop]: the idle timer was reset
    before the attempt; [k] polls failed, and when [b] the next one found
    the connection. *)
Definition afterIdleRetry (k : nat) (b : bool) (s : Device) : Device :=
  let s2 := afterPolls k b
              (beganWhileAp (currentSsid s) (currentPass s)
                 (set_lastHttpActivityMs (wrap32 (uptime s)) s)) in
  if b then
    set_apShutdownAt (wrap32 (wrap32 (uptime s2) + 40000))
      (set_led02 LOW (set_led01 HIGH (set_runState CONNECTED s2)))
  else s2.

(** The connections the events begin, in order. *)
Fixpoint beginsOf (evs : list Event) : list (string * string) :=
  match evs with
  | [] => []
  | EvWifiBegin a b :: rest => (a, b) :: beginsOf rest
  | _ :: rest => beginsOf rest
  end.

(** Whether the events stop the HTTP server or the DNS responder. *)
Fixpoint stopsService (evs : list Event) : bool :=
  match evs with
  | [] => false
  | EvServerStop :: _ | EvDnsStop :: _ => true
  | _ :: rest => stopsService rest
  end.

(** What a pass with an idle retry does, seen from outside: it resets the
    idle timer to the time of the check and begins exactly one connection,
    with the working credentials; and when the retry fails ([b = false]) it
    stops no service, stays in setup mode and sets no deadline. *)
Definition idleRetried (k : nat) (b : bool) (s s' : Device) : Prop :=
  lastHttpActivityMs s' = wrap32 (uptime s) /\
  polls s' = (polls s + k + (if b then 1 else 0))%nat /\
  exists evs,
    trace s' = trace s ++ evs /\
    beginsOf evs = [(currentSsid s, currentPass s)] /\
    (b = false ->
     stopsService evs = false /\
     runState s' = AP_SETUP /\ serverUp s' = serverUp s /\ dnsUp s' = dnsUp s /\
     apShutdownAt s' = apShutdownAt s).

(** The transition table [showSetupPattern] implements. *)
Definition phaseDuration (p : SetupPhase) : Z :=
  match p with
  | BLINK1_ON | BLINK1_OFF | BLINK2_ON | BLINK2_OFF => 200
  | PAUSE => 1200
  | IDLE => 0
  end.

Definition nextPhase (p : SetupPhase) : SetupPhase :=
  match p with
  | BLINK1_ON => BLINK1_OFF
  | BLINK1_OFF => BLINK2_ON
  | BLINK2_ON => BLINK2_OFF
  | BLINK2_OFF => PAUSE
  | PAUSE => BLINK1_ON
  | IDLE => PAUSE
  end.

(** Time spent in the current phase, as [showSetupPattern] measures it. *)
Definition phaseElapsed (s : Device) : Z :=
  wrap32 (wrap32 (uptime s) - setupPhaseStartMs s).

(** The phase in pass number [q] of a cycle of 100 passes, 20 ms apart,
    and the pass in which that phase began. *)
Definition phaseOfPass (q : Z) : SetupPhase :=
  if q <? 10 then BLINK1_ON
  else if q <? 20 then BLINK1_OFF
  else if q <? 30 then BLINK2_ON
  else if q <? 40 then BLINK2_OFF
  else PAUSE.

Definition phaseStartPass (q : Z) : Z :=
  if q <? 10 then 0
  else if q <? 20 then 10
  else if q <? 30 then 20
  else if q <? 40 then 30
  else 40.

(** The end of a pass of [loop] that found the button released. *)
Definition closePass (s : Device) : Device :=
  set_trace (trace s ++ [EvDelay 20]) (set_uptime (uptime s + 20) (set_factoryBtnHeld false s)).

(** The device [n] passes into a blink cycle that began at uptime [u0]
    with the idle timer at [last]. *)
Definition inCycle (u0 last : Z) (n : Z) (s : Device) : Prop :=
  runState s = AP_SETUP /\
  lastHttpActivityMs s = last /\
  uptime s = u0 + 20 * (n + 1) /\
  setupPhase s = phaseOfPass (n mod 100) /\
  phaseElapsed s = 20 * (n mod 100 - phaseStartPass (n mod 100)) + 20 /\
  led02 s = (if (20 <=? n mod 100) && (n mod 100 <? 30) then HIGH else LOW).

(** The phase and the level of indicator B that the pass at [r]
    milliseconds into a 2000 ms cycle leaves behind. *)
Definition phaseAtMs (r : Z) : SetupPhase :=
  if r <? 200 then BLINK1_ON
  else if r <? 400 then BLINK1_OFF
  else if r <? 600 then BLINK2_ON
  else if r <? 800 then BLINK2_OFF
  else PAUSE.

Definition pulseAtMs (r : Z) : Level :=
  if (400 <=? r) && (r <? 600) then HIGH else LOW.

(** The claim as the specification states it: in setup mode indicator B is
    high only in BLINK2_ON, and BLINK2_ON lasts 200 ms. *)
Definition pulseWithinWindow (w : World) : Prop :=
  forall s,
    reachable w s -> runState s = AP_SETUP -> led02 s = HIGH ->
    setupPhase s = BLINK2_ON /\ phaseElapsed s <= 200.

(** The device in setup mode, 21 passes after startup: in the second
    blink, indicator B lit. *)
Definition pulseDevice : Device :=
  stateOf (run neverConnects (repeat quietTick 21) apDevice).

(** The same device after a pass that served a save request whose
    connection attempt timed out. *)
Definition blockedDevice : Device :=
  stateOf (loop neverConnects (saveTick "HomeNet" "12345678") pulseDevice).

(** One attempt that times out: the radio is reset, the connection begun
    and the status polled a hundred times, 100 ms apart. *)
Definition attemptEvents (ssid pass : string) : list Event :=
  [EvWifiDisconnect; EvDelay 50; EvWifiMode WIFI_STA; EvWifiBegin ssid pass] ++ pollEvents 100.

(** Five attempts that time out, each followed by its backoff wait. *)
Definition failedStationTrace (ssid pass : string) : list Event :=
  concat (map (fun backoff => attemptEvents ssid pass ++ [EvDelay backoff])
              [1000; 2000; 4000; 8000; 8000]).

(** The waits of a trace that are longer than the polling interval. *)
Fixpoint backoffWaits (evs : list Event) : list Z :=
  match evs with
  | [] => []
  | EvDelay ms :: rest => if 100 <? ms then ms :: backoffWaits rest else backoffWaits rest
  | _ :: rest => backoffWaits rest
  end.

(** After the specification (section 4.2, [connectCoexisting]): the
    attempt, timeout and backoff logic of [tryConnectStation], with the
    radio kept in the mode that serves the access point and without the
    disconnect. To be compared with [tryConnectWhileAp]. *)
Fixpoint coexistingAttempts_spec (w : World) (fuel : nat) (ssid pass : string)
    (maxAttempts timeoutMs attempt : Z) : M bool :=
  match fuel with
  | O => fun _ => OutOfFuel
  | S fuel' =>
      if attempt <? maxAttempts then
        WiFi_mode WIFI_AP_STA ;;;
        WiFi_begin ssid pass ;;;
        let* start := millis in
        let* c := pollStatus w (pollFuel timeoutMs) start timeoutMs in
        if c then ret true
        else
          delay (backoffMs attempt) ;;;
          coexistingAttempts_spec w fuel' ssid pass maxAttempts timeoutMs (attempt + 1)
      else ret false
  end.

Definition connectCoexisting_spec (w : World) (ssid pass : string)
    (maxAttempts timeoutMs : Z) : M bool :=
  coexistingAttempts_spec w (S (Z.to_nat maxAttempts)) ssid pass maxAttempts timeoutMs 0.

(** The network comes into reach fifteen seconds after the call: the
    status polls from number 150 on find the connection. *)
Definition connectsLate : World :=
  mkWorld (fun n => (150 <=? n)%nat) "192.168.1.23" "24:6F:28:AA:BB:CC" "<html>".

(** The value a call returned, if it returned. *)
Definition valueOf {A} (o : Outcome A) : option A :=
  match o with
  | Ret a _ => Some a
  | _ => None
  end.

(** A pass of [loop] with the setup page's status poll pending. *)
Definition statusTick : TickInput :=
  mkTick HIGH (Some (mkRequest HTTP_GET "/status" [])) [].

(** The body of the answer to a successful save. *)
Definition connectedBody (w : World) (ssid : string) : string :=
  "Connected to " +:+ ssid +:+ " IP: " +:+ local_ip w +:+ String "010"%char EmptyString.

(** The device in setup mode after a startup without network, in a world
    where the network is there afterwards. *)
Definition setupModeDevice : Device :=
  stateOf (setup connectsAfterSetup (powerOn ∅ 0 [])).

(** The device in setup mode with the clock 10601.02 s past the last
    request. *)
Definition idleDevice : Device := set_uptime (uptime apDevice + 10601020) apDevice.

(** ** Vocabulary of the further properties *)

(** [q] attempts of [tryConnectStation] that time out, the first of them
    attempt number [attempt], each followed by its backoff wait; and the
    time those waits take. *)
Fixpoint failedAttempts (ssid pass : string) (attempt : Z) (q : nat) : list Event :=
  match q with
  | O => []
  | S q' => attemptEvents ssid pass ++ [EvDelay (backoffMs attempt)]
              ++ failedAttempts ssid pass (attempt + 1) q'
  end.

Fixpoint backoffTotal (attempt : Z) (q : nat) : Z :=
  match q with
  | O => 0
  | S q' => backoffMs attempt + backoffTotal (attempt + 1) q'
  end.

(** The attempt that connects at its poll number [r] (counted from 0). *)
Definition connectingAttempt (ssid pass : string) (r : nat) : list Event :=
  [EvWifiDisconnect; EvDelay 50; EvWifiMode WIFI_STA; EvWifiBegin ssid pass]
    ++ pollEvents r ++ [EvWifiStatus true].

(** What holds of the device between two passes of [loop].

    The setup service: the HTTP server and the DNS responder run together;
    they run throughout AP_SETUP and while a shutdown deadline is pending,
    and only with the radio in a mode that serves the access point. *)
Definition serviceReady (s : Device) : Prop :=
  serverUp s = dnsUp s /\
  (runState s = AP_SETUP -> serverUp s = true) /\
  (apShutdownAt s <> 0 -> serverUp s = true) /\
  (serverUp s = true -> wifiMode s = WIFI_AP \/ wifiMode s = WIFI_AP_STA) /\
  (serverUp s = false -> runState s = CONNECTED).

(** The indicators: solid A and dark B when connected; in setup mode A is
    lit only in the two blink phases and both are lit in the second. *)
Definition ledsShowState (s : Device) : Prop :=
  setupPhase s <> IDLE /\
  (runState s = CONNECTED -> led01 s = HIGH /\ led02 s = LOW) /\
  (runState s = AP_SETUP ->
   (led01 s = HIGH -> setupPhase s = BLINK1_ON \/ setupPhase s = BLINK2_ON) /\
   (setupPhase s = BLINK2_ON -> led01 s = HIGH /\ led02 s = HIGH)).

(** The working copy of the credentials is what a startup would load. *)
Definition credentialsMirrorStore (s : Device) : Prop :=
  currentSsid s = bootSsid (prefs s) /\ currentPass s = bootPass (prefs s).

(** The run state is never CONNECTING, and the connecting pattern has
    never toggled indicator A. *)
Definition pastConnecting (s : Device) : Prop :=
  runState s <> CONNECTING /\ connectLedState s = false /\ connectBlinkLastMs s = 0.

Definition steady (s : Device) : Prop :=
  pastConnecting s /\ serviceReady s /\ ledsShowState s /\ credentialsMirrorStore s.

(** The HTTP answers among the events: status code, content type, body. *)
Fixpoint repliesOf (evs : list Event) : list (Z * string * string) :=
  match evs with
  | [] => []
  | EvSend code ctype body :: rest => (code, ctype, body) :: repliesOf rest
  | _ :: rest => repliesOf rest
  end.

(** The four routes that do not serve the setup page. *)
Definition apiRoute (rq : Request) : bool :=
  match req_method rq with
  | HTTP_GET =>
      String.eqb (req_uri rq) "/scan" || String.eqb (req_uri rq) "/status"
      || String.eqb (req_uri rq) "/ncsi.txt"
  | HTTP_POST => String.eqb (req_uri rq) "/save"
  | HTTP_OTHER => false
  end.

(** What serving one request does, seen from outside: one answer, within
    the ten seconds a connection attempt may take, and the idle timer set
    to the time the handler returns. *)
Definition served (s s' : Device) : Prop :=
  lastHttpActivityMs s' = wrap32 (uptime s') /\
  uptime s <= uptime s' <= uptime s + 10000 /\
  exists evs, trace s' = trace s ++ evs /\ length (repliesOf evs) = 1%nat.

(** The events of a pass that only sleeps, or stops the setup service. *)
Definition sleepOrStop (e : Event) : Prop :=
  match e with
  | EvDelay ms => ms = 20
  | EvServerStop | EvDnsStop => True
  | _ => False
  end.

(** What passes of [loop] leave of a connected device [s]: it is still
    connected, the radio, the store and the credentials are untouched, and
    nothing was called but [delay(20)] and, at most, the service stops;
    without a pending deadline the services are left as they are. *)
Definition stillConnected (s s' : Device) : Prop :=
  runState s' = CONNECTED /\
  polls s' = polls s /\ wifiMode s' = wifiMode s /\ prefs s' = prefs s /\
  currentSsid s' = currentSsid s /\ currentPass s' = currentPass s /\
  led01 s' = HIGH /\ led02 s' = LOW /\
  (apShutdownAt s = 0 ->
   apShutdownAt s' = 0 /\ serverUp s' = serverUp s /\ dnsUp s' = dnsUp s) /\
  exists evs, trace s' = trace s ++ evs /\ Forall sleepOrStop evs /\
              (apShutdownAt s = 0 -> stopsService evs = false).

(** The same passes, every one with a request pending and networks in
    reach of a scan. *)
Definition withRequest (rq : Request) (nets : list Network) (i : TickInput) : TickInput :=
  mkTick (push01 i) (Some rq) nets.

(** The answers a pass of [loop] owes: one when it begins in AP_SETUP with
    the server running and a request pending, none otherwise. *)
Definition answersDue (i : TickInput) (s : Device) : nat :=
  match runState s, serverUp s, client i with
  | AP_SETUP, true, Some _ => 1
  | _, _, _ => 0
  end.

(** The answer of GET /status in setup mode. *)
Definition apActiveReply : Z * string * string :=
  (200, "application/json",
   "{" +:+ quote +:+ "state" +:+ quote +:+ ":" +:+ quote +:+ "AP_ACTIVE" +:+ quote +:+ "}").

(** One network of a scan as [handleScan] prints it. *)
Definition scanEntry (n : Network) : string :=
  "{" +:+ (quote +:+ "ssid" +:+ quote +:+ ":" +:+ quote) +:+ net_ssid n +:+ quote +:+ ","
      +:+ (quote +:+ "rssi" +:+ quote +:+ ":") +:+ decimal (net_rssi n) +:+ ","
      +:+ (quote +:+ "enc" +:+ quote +:+ ":" +:+ quote)
      +:+ (if net_open n then "OPEN" else "WPA2") +:+ quote
      +:+ "}".

(** A world whose radio reports the connection from poll [k] on. *)
Definition connectsAtPoll (k : nat) : World :=
  mkWorld (fun n => (k <=? n)%nat) "192.168.1.23" "24:6F:28:AA:BB:CC" "<html>".

(** The level of indicator A that the pass at [r] milliseconds into a
    2000 ms blink cycle leaves behind, and after pass number [n] of the
    passes since the access point was started. *)
Definition blinkAtMs (r : Z) : Level :=
  if ((20 <=? r) && (r <? 200)) || ((400 <=? r) && (r <? 600)) then HIGH else LOW.

Definition blinkAfterPass (n : Z) : Level :=
  if n =? 0 then HIGH else blinkAtMs (20 * (n mod 100)).

(** The store after [saveCredentialsToNVS]. *)
Definition savedStore (ssid pass : string) (p : gmap string NvsValue) : gmap string NvsValue :=
  <["prov" := NvsUChar 1]> (<["pass" := NvsString pass]> (<["ssid" := NvsString ssid]> p)).

(** The pending request is a POST /save with an SSID and a password of
    eight characters or more, and [p'] is the store [p] with them saved. *)
Definition savedBy (i : TickInput) (p p' : gmap string NvsValue) : Prop :=
  exists rq,
    client i = Some rq /\ req_method rq = HTTP_POST /\ req_uri rq = "/save" /\
    strlen (server_arg (req_args rq) "ssid") <> 0 /\
    8 <= strlen (server_arg (req_args rq) "pass") /\
    p' = savedStore (server_arg (req_args rq) "ssid") (server_arg (req_args rq) "pass") p.

(** The store after a run of passes of [loop], one pass for each input:
    every pass leaves it as it was or writes to it the credentials of the
    valid save request it served. *)
Fixpoint storeThrough (inputs : list TickInput) (p p' : gmap string NvsValue) : Prop :=
  match inputs with
  | [] => p' = p
  | i :: rest => exists p1, (p1 = p \/ savedBy i p p1) /\ storeThrough rest p1 p'
  end.

(** The request is routed to [handleScan]. *)
Definition scanRequest (rq : Request) : bool :=
  match req_method rq with
  | HTTP_GET => String.eqb (req_uri rq) "/scan"
  | _ => false
  end.

(** * Verification *)

(** ** Arithmetic of the 32-bit clock *)

Lemma wrap32_range x : 0 <= wrap32 x < 2 ^ 32.
Proof. unfold wrap32. apply Z.mod_pos_bound. lia. Qed.

Lemma wrap32_small x : 0 <= x < 2 ^ 32 -> wrap32 x = x.
Proof. unfold wrap32. intros H. apply Z.mod_small. exact H. Qed.

Lemma wrap32_sub_l a b : wrap32 (wrap32 a - b) = wrap32 (a - b).
Proof. unfold wrap32. apply Zminus_mod_idemp_l. Qed.

Lemma wrap32_add_l a b : wrap32 (wrap32 a + b) = wrap32 (a + b).
Proof. unfold wrap32. apply Zplus_mod_idemp_l. Qed.

(** Time read twice without a delay in between: no time has passed. *)
Lemma wrap32_elapsed_0 a : wrap32 (wrap32 a - wrap32 a) = 0.
Proof. rewrite Z.sub_diag. reflexivity. Qed.

(** Elapsed time as [millis() - start] sees it, [d] ms after [start] was
    taken at uptime [u]. *)
Lemma wrap32_elapsed u d : 0 <= d < 2 ^ 32 -> wrap32 (wrap32 (u + d) - wrap32 u) = d.
Proof.
  intros H. rewrite wrap32_sub_l. unfold wrap32.
  rewrite Zminus_mod_idemp_r. replace (u + d - u) with d by lia.
  apply Z.mod_small. exact H.
Qed.

Lemma Ret_eq {A} (a : A) (s s' : Device) : s = s' -> Ret a s = Ret a s'.
Proof. intros ->. reflexivity. Qed.

(** ** The polling loop *)

Lemma pollEvents_snoc k :
  pollEvents k ++ [EvWifiStatus false; EvDelay 100] = pollEvents (S k).
Proof. induction k as [|k IH]; simpl; [reflexivity | rewrite IH; reflexivity]. Qed.

(** Reads a field through the field updates around it. *)
Ltac dev_simpl :=
  cbn [runState currentSsid currentPass lastHttpActivityMs factoryBtnPressStartMs
       factoryBtnHeld connectBlinkLastMs connectLedState setupPhase setupPhaseStartMs
       apShutdownAt uptime prefs led01 led02 serverUp dnsUp wifiMode polls trace
       set_runState set_currentSsid set_currentPass set_lastHttpActivityMs
       set_factoryBtnPressStartMs set_factoryBtnHeld set_connectBlinkLastMs
       set_connectLedState set_setupPhase set_setupPhaseStartMs set_apShutdownAt
       set_uptime set_prefs set_led01 set_led02 set_serverUp set_dnsUp set_wifiMode
       set_polls set_trace].

Ltac dev_simpl_in H :=
  cbn [runState currentSsid currentPass lastHttpActivityMs factoryBtnPressStartMs
       factoryBtnHeld connectBlinkLastMs connectLedState setupPhase setupPhaseStartMs
       apShutdownAt uptime prefs led01 led02 serverUp dnsUp wifiMode polls trace
       set_runState set_currentSsid set_currentPass set_lastHttpActivityMs
       set_factoryBtnPressStartMs set_factoryBtnHeld set_connectBlinkLastMs
       set_connectLedState set_setupPhase set_setupPhaseStartMs set_apShutdownAt
       set_uptime set_prefs set_led01 set_led02 set_serverUp set_dnsUp set_wifiMode
       set_polls set_trace] in H.

(** Computes the field updates of a device given by its constructor. *)
Ltac dev_unfold :=
  cbv beta iota delta
      [runState currentSsid currentPass lastHttpActivityMs factoryBtnPressStartMs
       factoryBtnHeld connectBlinkLastMs connectLedState setupPhase setupPhaseStartMs
       apShutdownAt uptime prefs led01 led02 serverUp dnsUp wifiMode polls trace
       set_runState set_currentSsid set_currentPass set_lastHttpActivityMs
       set_factoryBtnPressStartMs set_factoryBtnHeld set_connectBlinkLastMs
       set_connectLedState set_setupPhase set_setupPhaseStartMs set_apShutdownAt
       set_uptime set_prefs set_led01 set_led02 set_serverUp set_dnsUp set_wifiMode
       set_polls set_trace].

Lemma afterPolls_0_false s : afterPolls 0 false s = s.
Proof.
  destruct s; unfold afterPolls; dev_unfold. cbn [pollEvents app].
  rewrite Z.mul_0_r, Z.add_0_r, !Nat.add_0_r, app_nil_r. reflexivity.
Qed.

Lemma afterPolls_0_true s :
  afterPolls 0 true s =
  set_polls (S (polls s)) (set_trace (trace s ++ [EvWifiStatus true]) s).
Proof.
  destruct s; unfold afterPolls; dev_unfold. cbn [pollEvents app].
  rewrite Z.mul_0_r, Z.add_0_r, Nat.add_0_r, Nat.add_1_r. reflexivity.
Qed.

Lemma afterPolls_S k b s :
  afterPolls k b
    (set_trace (trace s ++ [EvWifiStatus false] ++ [EvDelay 100])
       (set_uptime (uptime s + 100) (set_polls (S (polls s)) s))) =
  afterPolls (S k) b s.
Proof.
  destruct s; unfold afterPolls; dev_unfold.
  rewrite <- !app_assoc. cbn [pollEvents app]. f_equal; lia.
Qed.

(** Unfolds the monad and the primitives, and nothing else. *)
Ltac sketch_step :=
  cbv beta iota zeta delta
    [bind ret gets modify emit when millis delay digitalWrite
     prefs_getUChar prefs_getString prefs_putString prefs_putUChar prefs_clear
     WiFi_disconnect WiFi_mode WiFi_begin WiFi_softAP WiFi_connected
     dnsServer_start dnsServer_stop dnsServer_processNextRequest
     server_begin server_stop server_send ESP_restart].

(** The same on a device given by its constructor, computing the fields
    as it goes, so that long straight-line code stays small. *)
Ltac sketch_run :=
  cbv beta iota zeta delta
    [bind ret gets modify emit when millis delay digitalWrite
     prefs_getUChar prefs_getString prefs_putString prefs_putUChar prefs_clear
     WiFi_disconnect WiFi_mode WiFi_begin WiFi_softAP WiFi_connected
     dnsServer_start dnsServer_stop dnsServer_processNextRequest
     server_begin server_stop server_send ESP_restart
     runState currentSsid currentPass lastHttpActivityMs factoryBtnPressStartMs
     factoryBtnHeld connectBlinkLastMs connectLedState setupPhase setupPhaseStartMs
     apShutdownAt uptime prefs led01 led02 serverUp dnsUp wifiMode polls trace
     set_runState set_currentSsid set_currentPass set_lastHttpActivityMs
     set_factoryBtnPressStartMs set_factoryBtnHeld set_connectBlinkLastMs
     set_connectLedState set_setupPhase set_setupPhaseStartMs set_apShutdownAt
     set_uptime set_prefs set_led01 set_led02 set_serverUp set_dnsUp set_wifiMode
     set_polls set_trace].

Section PollStatus.

Variable w : World.

Lemma pollStatus_S fuel start timeoutMs :
  pollStatus w (S fuel) start timeoutMs =
  (let* now := millis in
   if wrap32 (now - start) <? timeoutMs then
     let* c := WiFi_connected w in
     if c then ret true
     else delay 100 ;;; pollStatus w fuel start timeoutMs
   else ret false).
Proof. reflexivity. Qed.

(** Elapsed time after one more [delay(100)], below the timeout. *)
Lemma elapsed_step u start timeoutMs :
  timeoutMs + 100 <= 2 ^ 32 ->
  wrap32 (wrap32 u - start) < timeoutMs ->
  wrap32 (wrap32 (u + 100) - start) = wrap32 (wrap32 u - start) + 100.
Proof.
  intros Hto Hlt. pose proof (wrap32_range (wrap32 u - start)) as Hr.
  rewrite <- (wrap32_small (wrap32 (wrap32 u - start) + 100)) by lia.
  rewrite !wrap32_sub_l, wrap32_add_l. f_equal. lia.
Qed.

Lemma pollStatus_spec start timeoutMs :
  timeoutMs + 100 <= 2 ^ 32 ->
  forall fuel s,
    timeoutMs - wrap32 (wrap32 (uptime s) - start) <= 100 * Z.of_nat fuel ->
    exists k b,
      pollStatus w (S fuel) start timeoutMs s = Ret b (afterPolls k b s) /\
      (forall j, (j < k)%nat -> wl_status w (polls s + j) = false) /\
      (if b then wl_status w (polls s + k) = true /\
                 wrap32 (wrap32 (uptime s) - start) + 100 * Z.of_nat k < timeoutMs
       else timeoutMs <= wrap32 (wrap32 (uptime s) - start) + 100 * Z.of_nat k) /\
      (k = 0%nat \/ wrap32 (wrap32 (uptime s) - start) + 100 * Z.of_nat k < timeoutMs + 100).
Proof.
  intros Hto fuel. induction fuel as [|fuel IH]; intros s Hfuel.
  - exists 0%nat, false. rewrite pollStatus_S. sketch_step.
    destruct (Z.ltb_spec (wrap32 (wrap32 (uptime s) - start)) timeoutMs) as [Hlt|Hge].
    + lia.
    + rewrite afterPolls_0_false. split; [reflexivity|].
      split; [intros j Hj; lia|]. split; [lia | left; reflexivity].
  - rewrite pollStatus_S. sketch_step.
    destruct (Z.ltb_spec (wrap32 (wrap32 (uptime s) - start)) timeoutMs) as [Hlt|Hge].
    + destruct (wl_status w (polls s)) eqn:Hc.
      * exists 0%nat, true. rewrite afterPolls_0_true. split; [reflexivity|].
        split; [intros j Hj; lia|]. split; [|left; reflexivity].
        rewrite Nat.add_0_r. split; [exact Hc | lia].
      * pose proof (elapsed_step (uptime s) start timeoutMs Hto Hlt) as He.
        match goal with |- context [pollStatus w (S fuel) start timeoutMs ?s1] =>
          destruct (IH s1) as (k & b & Heq & Hno & Hb & Hk); [dev_simpl; lia|];
          dev_simpl_in Hno; dev_simpl_in Hb; dev_simpl_in Hk
        end.
        rewrite He in Hb, Hk.
        exists (S k), b. split.
        { rewrite Heq. apply Ret_eq. rewrite <- afterPolls_S. f_equal.
          destruct s; dev_unfold. rewrite <- app_assoc. reflexivity. }
        split.
        { intros j Hj. destruct j as [|j]; [rewrite Nat.add_0_r; exact Hc|].
          replace (polls s + S j)%nat with (S (polls s + j))%nat by lia.
          apply Hno. lia. }
        split.
        { destruct b.
          - destruct Hb as [Hb1 Hb2]. split; [|lia].
            replace (polls s + S k)%nat with (S (polls s + k))%nat by lia. exact Hb1.
          - lia. }
        right. destruct Hk as [->|Hk]; lia.
    + exists 0%nat, false. rewrite afterPolls_0_false. split; [reflexivity|].
      split; [intros j Hj; lia|]. split; [lia | left; reflexivity].
Qed.

End PollStatus.

(** ** The connection manager *)

Lemma radioUpdate_id s : radioUpdate (wifiMode s) (polls s) (uptime s) (trace s) s = s.
Proof. destruct s; reflexivity. Qed.

Lemma radioUpdate_twice m n u t m' n' u' t' s :
  radioUpdate m' n' u' t' (radioUpdate m n u t s) = radioUpdate m' n' u' t' s.
Proof. destruct s; reflexivity. Qed.

Lemma afterPolls_radio k b s :
  afterPolls k b s =
  radioUpdate (wifiMode s) (polls s + k + (if b then 1 else 0))%nat
    (uptime s + 100 * Z.of_nat k)
    (trace s ++ pollEvents k ++ (if b then [EvWifiStatus true] else [])) s.
Proof. destruct s; reflexivity. Qed.

Lemma pollEvents_station ssid pass k : Forall (stationEvent ssid pass) (pollEvents k).
Proof. induction k; simpl; repeat constructor; assumption. Qed.

Lemma pollFuel_enough timeoutMs : timeoutMs <= 100 * Z.of_nat (Z.to_nat (timeoutMs / 100 + 1)).
Proof.
  destruct (Z.le_gt_cases 0 timeoutMs) as [Hpos|Hneg]; [|lia].
  pose proof (Z.mul_succ_div_gt timeoutMs 100 ltac:(lia)) as Hd.
  assert (0 <= timeoutMs / 100) by (apply Z.div_pos; lia).
  rewrite Z2Nat.id by lia. lia.
Qed.

Section ConnectionManager.

Variable w : World.

(** The polling loop as both connect functions enter it: [start] was read
    from [millis()] just before. *)
Lemma pollStatus_fresh timeoutMs s :
  timeoutMs + 100 <= 2 ^ 32 ->
  exists k b,
    pollStatus w (pollFuel timeoutMs) (wrap32 (uptime s)) timeoutMs s = Ret b (afterPolls k b s) /\
    (forall j, (j < k)%nat -> wl_status w (polls s + j) = false) /\
    (if b then wl_status w (polls s + k) = true /\ 100 * Z.of_nat k < timeoutMs
     else timeoutMs <= 100 * Z.of_nat k) /\
    (k = 0%nat \/ 100 * Z.of_nat k < timeoutMs + 100).
Proof.
  intros Hto. unfold pollFuel.
  destruct (pollStatus_spec w (wrap32 (uptime s)) timeoutMs Hto
              (Z.to_nat (timeoutMs / 100 + 1)) s) as (k & b & Heq & Hno & Hb & Hk).
  - rewrite wrap32_elapsed_0. pose proof (pollFuel_enough timeoutMs). lia.
  - rewrite wrap32_elapsed_0 in Hb, Hk. rewrite !Z.add_0_l in *.
    exists k, b. auto.
Qed.

(** [tryConnectWhileAp] always returns: after [k] fruitless polls it either
    finds the connection or has used up the timeout. *)
Lemma tryConnectWhileAp_spec ssid pass maxRetries s :
  exists k b,
    tryConnectWhileAp w ssid pass maxRetries CONNECT_TIMEOUT_MS s =
      Ret b (afterPolls k b (beganWhileAp ssid pass s)) /\
    (forall j, (j < k)%nat -> wl_status w (polls s + j) = false) /\
    (if b then wl_status w (polls s + k) = true /\ (k < 100)%nat else k = 100%nat).
Proof.
  unfold tryConnectWhileAp. sketch_step. dev_simpl.
  match goal with |- context [pollStatus w _ _ _ ?s1] =>
    destruct (pollStatus_fresh CONNECT_TIMEOUT_MS s1) as (k & b & Heq & Hno & Hb & Hk);
    [unfold CONNECT_TIMEOUT_MS; lia|]; dev_simpl_in Heq; dev_simpl_in Hno; dev_simpl_in Hb
  end.
  exists k, b. split.
  - rewrite Heq. apply Ret_eq. f_equal. destruct s; unfold beganWhileAp; dev_unfold.
    rewrite <- app_assoc. reflexivity.
  - split; [exact Hno|]. unfold CONNECT_TIMEOUT_MS in *.
    destruct b; [destruct Hb; split; [assumption | lia] | lia].
Qed.

Lemma stationAttempts_S fuel ssid pass maxRetries timeoutMs attempt :
  stationAttempts w (S fuel) ssid pass maxRetries timeoutMs attempt =
  (if attempt <? maxRetries then
     WiFi_disconnect ;;;
     delay 50 ;;;
     WiFi_mode WIFI_STA ;;;
     WiFi_begin ssid pass ;;;
     let* start := millis in
     let* c := pollStatus w (pollFuel timeoutMs) start timeoutMs in
     if c then ret true
     else
       let maxBackoffMs := 8000 in
       let backoff := wrap32 (Z.shiftl 1000 (Z.min attempt 3)) in
       let backoff := if backoff >? maxBackoffMs then maxBackoffMs else backoff in
       delay backoff ;;;
       stationAttempts w fuel ssid pass maxRetries timeoutMs (attempt + 1)
   else ret false).
Proof. reflexivity. Qed.

Lemma backoffMs_range attempt : 0 <= attempt -> 1000 <= backoffMs attempt <= 8000.
Proof.
  intros H. unfold backoffMs.
  assert (Hc : Z.min attempt 3 = 0 \/ Z.min attempt 3 = 1 \/ Z.min attempt 3 = 2 \/
               Z.min attempt 3 = 3) by lia.
  destruct Hc as [-> | [-> | [-> | ->]]]; vm_compute; split; discriminate.
Qed.

(** [tryConnectStation] always returns, and changes nothing but the radio
    mode, the poll counter, the clock and the trace. *)
Lemma stationAttempts_spec ssid pass maxRetries timeoutMs :
  timeoutMs + 100 <= 2 ^ 32 ->
  forall fuel attempt s,
    0 <= attempt ->
    maxRetries - attempt <= Z.of_nat fuel ->
    exists b m n d evs,
      stationAttempts w (S fuel) ssid pass maxRetries timeoutMs attempt s =
        Ret b (radioUpdate m (polls s + n) (uptime s + d) (trace s ++ evs) s) /\
      0 <= d /\
      Forall (stationEvent ssid pass) evs /\
      (attempt < maxRetries ->
       exists rest, evs = [EvWifiDisconnect; EvDelay 50; EvWifiMode WIFI_STA;
                           EvWifiBegin ssid pass] ++ rest).
Proof.
  intros Hto fuel.
  induction fuel as [|fuel IH]; intros attempt s Ha Hfuel; rewrite stationAttempts_S;
    (destruct (Z.ltb_spec attempt maxRetries) as [Hlt|Hge];
     [| exists false, (wifiMode s), 0%nat, 0, []; split;
        [ unfold ret; rewrite Nat.add_0_r, Z.add_0_r, app_nil_r, radioUpdate_id; reflexivity
        | split; [lia|]; split; [constructor | lia] ] ]).
  - lia.
  - sketch_step. dev_simpl.
    { 
      match goal with |- context [pollStatus w _ _ _ ?s1] =>
        destruct (pollStatus_fresh timeoutMs s1 Hto) as (k & b & Heq & _ & _ & _);
        dev_simpl_in Heq; rewrite Heq; clear Heq
      end.
      destruct b.
      * eexists true, WIFI_STA, (k + 1)%nat, (50 + 100 * Z.of_nat k), _.
        split; [|split; [lia|split]].
        -- apply Ret_eq. rewrite afterPolls_radio. destruct s; unfold radioUpdate; dev_unfold.
           rewrite <- !app_assoc. cbn [app].
           f_equal; lia.
        -- repeat constructor. apply Forall_app. split; [apply pollEvents_station|].
           repeat constructor.
        -- intros _. eexists. reflexivity.
      * fold (backoffMs attempt).
        match goal with |- context [stationAttempts w (S fuel) _ _ _ _ _ ?s1] =>
          destruct (IH (attempt + 1) s1) as (b & m & n & d & evs & Heq & Hd & Hev & _);
          [lia | lia |]; rewrite Heq; clear Heq
        end.
        pose proof (backoffMs_range attempt Ha) as Hb.
        eexists b, m, (k + n)%nat, (50 + 100 * Z.of_nat k + backoffMs attempt + d), _.
        split; [|split; [lia|split]].
        -- apply Ret_eq. rewrite afterPolls_radio. destruct s; unfold radioUpdate; dev_unfold.
           rewrite <- !app_assoc. cbn [app].
           f_equal; lia.
        -- repeat constructor. apply Forall_app. split; [apply pollEvents_station|].
           repeat constructor. exact Hev.
        -- intros _. eexists. reflexivity. }
Qed.

Lemma tryConnectStation_spec ssid pass s :
  exists b m n d rest,
    tryConnectStation w ssid pass MAX_RETRIES CONNECT_TIMEOUT_MS s =
      Ret b (radioUpdate m (polls s + n) (uptime s + d)
               (trace s ++ [EvWifiDisconnect; EvDelay 50; EvWifiMode WIFI_STA;
                            EvWifiBegin ssid pass] ++ rest) s) /\
    0 <= d /\
    Forall (stationEvent ssid pass) rest.
Proof.
  unfold tryConnectStation.
  destruct (stationAttempts_spec ssid pass MAX_RETRIES CONNECT_TIMEOUT_MS
              ltac:(unfold CONNECT_TIMEOUT_MS; lia)
              (Z.to_nat MAX_RETRIES) 0 s ltac:(lia) ltac:(unfold MAX_RETRIES; lia))
    as (b & m & n & d & evs & Heq & Hd & Hev & Hfirst).
  destruct Hfirst as [rest ->]; [unfold MAX_RETRIES; lia|].
  exists b, m, n, d, rest. split; [exact Heq|]. split; [exact Hd|].
  apply Forall_app in Hev. apply Hev.
Qed.

End ConnectionManager.

(** ** Outcomes of a call *)

Lemma wp_bind {A B} (m : M A) (f : A -> M B) Q R s :
  wp m (fun a s1 => wp (f a) Q R s1) R s -> wp (bind m f) Q R s.
Proof. unfold wp, bind. destruct (m s); auto. Qed.

Lemma wp_mono {A} (m : M A) (Q Q' : A -> Device -> Prop) (R R' : Device -> Prop) s :
  (forall a s', Q a s' -> Q' a s') -> (forall s', R s' -> R' s') ->
  wp m Q R s -> wp m Q' R' s.
Proof. unfold wp. intros HQ HR. destruct (m s); auto. Qed.

Lemma wp_Ret {A} (m : M A) Q R s a s' : wp m Q R s -> m s = Ret a s' -> Q a s'.
Proof. unfold wp. intros H E. rewrite E in H. exact H. Qed.

Lemma wp_Reboot {A} (m : M A) Q R s s' : wp m Q R s -> m s = Reboot s' -> R s'.
Proof. unfold wp. intros H E. rewrite E in H. exact H. Qed.

Lemma wp_returns {A} (m : M A) Q s :
  wp m Q (fun _ => False) s -> exists a s', m s = Ret a s' /\ Q a s'.
Proof. unfold wp. destruct (m s) as [a s'| |]; [eauto | tauto | tauto]. Qed.

(** ** Invariants of the controller *)

Lemma preFrame_refl s : preFrame 0 s s.
Proof.
  unfold preFrame. repeat split; try lia; auto.
  exists []. rewrite app_nil_r. split; [reflexivity | constructor].
Qed.

Lemma preFrame_trans d1 d2 s1 s2 s3 :
  preFrame d1 s1 s2 -> preFrame d2 s2 s3 -> preFrame (d1 + d2) s1 s3.
Proof.
  unfold preFrame.
  intros (H1 & H2 & H3 & (e1 & H4 & H4') & H5 & H6) (G1 & G2 & G3 & (e2 & G4 & G4') & G5 & G6).
  repeat split; try congruence; try lia; auto.
  exists (e1 ++ e2). rewrite G4, H4, app_assoc. split; [reflexivity|].
  apply Forall_app. auto.
Qed.

Lemma preFrame_weaken d d' s s' : d <= d' -> preFrame d s s' -> preFrame d' s s'.
Proof. unfold preFrame. intros Hd (H1 & H2 & H3 & H4 & H5 & H6). repeat split; auto; lia. Qed.

Lemma pollEvents_notWipe k : Forall notWipe (pollEvents k).
Proof. induction k; simpl; repeat constructor; assumption. Qed.

(** Closes a [preFrame] goal between a state and explicit updates of it. *)
Ltac frame_trace :=
  first
    [ exists []; split; [symmetry; apply app_nil_r | apply List.Forall_nil]
    | eexists; split;
      [ rewrite <- ?app_assoc; cbn [app]; reflexivity
      | repeat first [ apply List.Forall_nil | apply List.Forall_cons; [exact I|]
                     | apply Forall_app; split | apply pollEvents_notWipe ] ] ].

Ltac frame_solve :=
  unfold preFrame, deadlineOwned, pulseInPhase, afterPolls, beganWhileAp; dev_simpl;
  repeat match goal with |- _ /\ _ => split end;
  try exact I; try reflexivity; try lia; try congruence; try (intros; discriminate);
  try (intros; assumption); try tauto;
  try (let H0 := fresh in let H1 := fresh in
       intros H0 H1; specialize (H0 H1); first [discriminate | congruence]);
  try frame_trace.

Section Components.

Variable w : World.

Lemma showConnected_frame s :
  wp showConnected (fun _ s' => preFrame 0 s s') (fun _ => False) s.
Proof. unfold wp, showConnected. sketch_step. frame_solve. Qed.

Lemma showConnectingPattern_frame s :
  wp showConnectingPattern (fun _ s' => preFrame 0 s s') (fun _ => False) s.
Proof.
  unfold wp, showConnectingPattern. sketch_step.
  destruct (_ >=? _); frame_solve.
Qed.

Lemma showSetupPattern_frame s :
  wp showSetupPattern (fun _ s' => preFrame 0 s s') (fun _ => False) s.
Proof.
  unfold wp, showSetupPattern. sketch_step.
  destruct (setupPhase s) eqn:Hp; try destruct (_ >=? _); frame_solve.
Qed.

Lemma showPattern_frame s :
  wp showPattern (fun _ s' => preFrame 0 s s' /\ runState s' = runState s) (fun _ => False) s.
Proof.
  unfold showPattern. apply wp_bind. unfold wp at 1, gets.
  assert (Hrs : forall m : M unit,
             (forall s', m s = Ret tt s' -> runState s' = runState s) ->
             wp m (fun _ s' => preFrame 0 s s') (fun _ => False) s ->
             wp m (fun _ s' => preFrame 0 s s' /\ runState s' = runState s) (fun _ => False) s).
  { intros m Hm. unfold wp. destruct (m s) as [[] s'| |] eqn:E; auto. }
  destruct (runState s) eqn:Hr; apply Hrs.
  - unfold showConnectingPattern. sketch_step. destruct (_ >=? _); intros s' [= <-]; dev_simpl; auto.
  - apply showConnectingPattern_frame.
  - unfold showSetupPattern. sketch_step.
    destruct (setupPhase s); try destruct (_ >=? _); intros s' [= <-]; dev_simpl; auto.
  - apply showSetupPattern_frame.
  - unfold showConnected. sketch_step. intros s' [= <-]; dev_simpl; auto.
  - apply showConnected_frame.
Qed.

Lemma touchHttpActivity_eq s :
  touchHttpActivity s = Ret tt (set_lastHttpActivityMs (wrap32 (uptime s)) s).
Proof. reflexivity. Qed.

Lemma servePage_frame s :
  wp (servePage w) (fun _ s' => preFrame 0 s s' /\ runState s' = runState s) (fun _ => False) s.
Proof. unfold wp, servePage, touchHttpActivity. sketch_step. split; [frame_solve | reflexivity]. Qed.

Lemma handleNcsi_frame s :
  wp handleNcsi (fun _ s' => preFrame 0 s s') (fun _ => False) s.
Proof. unfold wp, handleNcsi, touchHttpActivity. sketch_step. frame_solve. Qed.

Lemma handleScan_frame nets s :
  wp (handleScan nets) (fun _ s' => preFrame 0 s s') (fun _ => False) s.
Proof. unfold wp, handleScan, touchHttpActivity. sketch_step. frame_solve. Qed.

Lemma handleStatus_frame s :
  wp (handleStatus w) (fun _ s' => preFrame 0 s s') (fun _ => False) s.
Proof. unfold wp, handleStatus, touchHttpActivity. sketch_step. frame_solve. Qed.

Lemma handleSave_frame rq s :
  runState s = AP_SETUP ->
  wp (handleSave w rq) (fun _ s' => preFrame 10000 s s') (fun _ => False) s.
Proof.
  intros Hrs. unfold wp, handleSave, touchHttpActivity, saveCredentialsToNVS, showConnected.
  destruct (_ || _).
  - sketch_step. frame_solve.
  - sketch_step.
    match goal with |- context [tryConnectWhileAp w ?a ?b ?m _ ?s1] =>
      destruct (tryConnectWhileAp_spec w a b m s1) as (k & b' & Heq & _ & Hk);
      rewrite Heq; clear Heq
    end.
    destruct b'; sketch_step.
    + destruct Hk as [_ Hk]. frame_solve.
    + subst k. frame_solve.
Qed.

Lemma route_frame nets rq s :
  runState s = AP_SETUP ->
  wp (route w nets rq) (fun _ s' => preFrame 10000 s s') (fun _ => False) s.
Proof.
  intros Hrs. unfold route, handleRoot, handleNotFound.
  assert (Hpage : wp (servePage w) (fun _ s' => preFrame 10000 s s') (fun _ => False) s).
  { eapply wp_mono; [| |apply servePage_frame]; cbn beta; [|tauto].
    intros _ s' [H _]. eapply preFrame_weaken; [|exact H]. lia. }
  assert (Hweak : forall m : M unit,
             wp m (fun _ s' => preFrame 0 s s') (fun _ => False) s ->
             wp m (fun _ s' => preFrame 10000 s s') (fun _ => False) s).
  { intros m. apply wp_mono; [|tauto]. intros _ s' H. eapply preFrame_weaken; [|exact H]. lia. }
  destruct (req_method rq); repeat (destruct (String.eqb _ _)); try exact Hpage.
  - apply Hweak, handleScan_frame.
  - apply Hweak, handleStatus_frame.
  - apply Hweak, handleNcsi_frame.
  - apply handleSave_frame, Hrs.
Qed.

Lemma server_handleClient_frame i s :
  runState s = AP_SETUP ->
  wp (server_handleClient w i) (fun _ s' => preFrame 10000 s s') (fun _ => False) s.
Proof.
  intros Hrs. unfold server_handleClient. apply wp_bind. unfold wp at 1, gets.
  assert (Hskip : wp (ret tt) (fun _ s' => preFrame 10000 s s') (fun _ => False) s).
  { unfold wp, ret. eapply preFrame_weaken; [|apply preFrame_refl]. lia. }
  destruct (client i) as [rq|]; [|exact Hskip].
  destruct (serverUp s); [|exact Hskip].
  apply route_frame, Hrs.
Qed.

Lemma idleRetry_frame s :
  wp (idleRetry w) (fun _ s' => preFrame 10000 s s') (fun _ => False) s.
Proof.
  unfold wp, idleRetry, showConnected. sketch_step.
  destruct (_ >? _).
  - sketch_step.
    match goal with |- context [tryConnectWhileAp w ?a ?b ?m _ ?s1] =>
      destruct (tryConnectWhileAp_spec w a b m s1) as (k & b' & Heq & _ & Hk);
      rewrite Heq; clear Heq
    end.
    destruct b'; sketch_step.
    + destruct Hk as [_ Hk]. frame_solve.
    + subst k. frame_solve.
  - frame_solve.
Qed.

Lemma serviceAp_frame i s :
  wp (serviceAp w i) (fun _ s' => preFrame 20000 s s') (fun _ => False) s.
Proof.
  unfold serviceAp. apply wp_bind. unfold wp at 1, gets.
  assert (Hskip : wp (ret tt) (fun _ s' => preFrame 20000 s s') (fun _ => False) s).
  { unfold wp, ret. eapply preFrame_weaken; [|apply preFrame_refl]. lia. }
  destruct (runState s) eqn:Hrs; try exact Hskip.
  apply wp_bind. unfold wp at 1, dnsServer_processNextRequest, ret.
  apply wp_bind.
  eapply wp_mono; [| |apply server_handleClient_frame, Hrs]; cbn beta; [|tauto].
  intros _ s1 H1.
  eapply wp_mono; [| |apply idleRetry_frame]; cbn beta; [|tauto].
  intros _ s2 H2. apply (preFrame_trans _ _ _ _ _ H1 H2).
Qed.

Lemma maybeShutdown_frame s :
  wp maybeShutdown (fun _ s' => preFrame 0 s s') (fun _ => False) s.
Proof.
  unfold wp, maybeShutdown, stopCaptiveAP. sketch_step.
  destruct (runState s) eqn:Hrs; try destruct (_ && _); frame_solve.
Qed.

Lemma loop_split i s :
  loop w i s = (beforeButton w i ;;; factoryResetCheck (push01 i) ;;; delay 20) s.
Proof.
  unfold loop, beforeButton, bind.
  destruct (showPattern s) as [[] s1| |]; [|reflexivity|reflexivity].
  destruct (serviceAp w i s1) as [[] s2| |]; [|reflexivity|reflexivity].
  destruct (maybeShutdown s2) as [[] s3| |]; reflexivity.
Qed.

Lemma beforeButton_frame i s :
  wp (beforeButton w i) (fun _ s' => preFrame 20000 s s') (fun _ => False) s.
Proof.
  unfold beforeButton. apply wp_bind.
  eapply wp_mono; [| |apply showPattern_frame]; cbn beta; [|tauto].
  intros _ s1 [H1 _]. apply wp_bind.
  eapply wp_mono; [| |apply serviceAp_frame]; cbn beta; [|tauto].
  intros _ s2 H2.
  eapply wp_mono; [| |apply maybeShutdown_frame]; cbn beta; [|tauto].
  intros _ s3 H3.
  pose proof (preFrame_trans _ _ _ _ _ (preFrame_trans _ _ _ _ _ H1 H2) H3) as H.
  exact H.
Qed.

End Components.

(** ** The factory reset monitor *)

Lemma performFactoryReset_eq s : performFactoryReset s = Reboot (afterFactoryReset s).
Proof.
  destruct s. unfold performFactoryReset, rapidBlink, afterFactoryReset, resetEvents.
  sketch_run. rewrite <- !app_assoc. cbn [app repeat]. rewrite insert_empty.
  do 2 f_equal. lia.
Qed.

Lemma factoryResetCheck_HIGH s :
  factoryResetCheck HIGH s = Ret tt (set_factoryBtnHeld false s).
Proof. reflexivity. Qed.

Lemma factoryResetCheck_press s :
  factoryBtnHeld s = false ->
  factoryResetCheck LOW s =
  Ret tt (set_factoryBtnPressStartMs (wrap32 (uptime s)) (set_factoryBtnHeld true s)).
Proof. intros H. unfold factoryResetCheck. sketch_step. rewrite H. reflexivity. Qed.

Lemma factoryResetCheck_held s :
  factoryBtnHeld s = true ->
  factoryResetCheck LOW s =
  if wrap32 (wrap32 (uptime s) - factoryBtnPressStartMs s) >=? 10000
  then Reboot (afterFactoryReset s) else Ret tt s.
Proof.
  intros H. unfold factoryResetCheck. sketch_step. rewrite H. cbn [negb].
  destruct (_ >=? _); [apply performFactoryReset_eq | reflexivity].
Qed.

Lemma noWipeBetween_refl s : noWipeBetween s s.
Proof. exists []. split; [symmetry; apply app_nil_r | constructor]. Qed.

Lemma noWipeBetween_trans s1 s2 s3 :
  noWipeBetween s1 s2 -> noWipeBetween s2 s3 -> noWipeBetween s1 s3.
Proof.
  intros (e1 & H1 & F1) (e2 & H2 & F2). exists (e1 ++ e2).
  rewrite H2, H1, app_assoc. split; [reflexivity | apply Forall_app; auto].
Qed.

Section Monitor.

Variable w : World.

(** Every pass of [loop] first runs the part before the button check,
    which returns, and then samples the button. *)
Lemma loop_anatomy i s :
  exists s1,
    beforeButton w i s = Ret tt s1 /\ preFrame 20000 s s1 /\
    loop w i s = (factoryResetCheck (push01 i) ;;; delay 20) s1.
Proof.
  destruct (wp_returns _ _ _ (beforeButton_frame w i s)) as ([] & s1 & Heq & Hf).
  exists s1. split; [exact Heq|]. split; [exact Hf|].
  rewrite loop_split. unfold bind at 1. rewrite Heq. reflexivity.
Qed.

Lemma noWipeBetween_delay s1 s2 ms :
  noWipeBetween s1 s2 ->
  noWipeBetween s1 (set_trace (trace s2 ++ [EvDelay ms]) (set_uptime (uptime s2 + ms) s2)).
Proof.
  intros H. eapply noWipeBetween_trans; [exact H|].
  exists [EvDelay ms]. dev_simpl. split; [reflexivity | repeat constructor].
Qed.

(** A pass that finds the button released. *)
Lemma loop_released i s :
  push01 i = HIGH ->
  exists s', loop w i s = Ret tt s' /\ factoryBtnHeld s' = false /\ noWipeBetween s s'.
Proof.
  intros Hi. destruct (loop_anatomy i s) as (s1 & _ & Hf & Heq).
  rewrite Heq, Hi. unfold bind. rewrite factoryResetCheck_HIGH. unfold delay, modify.
  eexists. split; [reflexivity|]. dev_simpl. split; [reflexivity|].
  destruct Hf as (_ & _ & _ & Htr & _).
  apply (noWipeBetween_delay s (set_factoryBtnHeld false s1)). exact Htr.
Qed.

(** The pass that first finds the button pressed. *)
Lemma loop_pressed i s :
  push01 i = LOW -> factoryBtnHeld s = false ->
  exists s',
    loop w i s = Ret tt s' /\ heldSince (uptime s' - 20) s' /\ noWipeBetween s s'.
Proof.
  intros Hi Hh. destruct (loop_anatomy i s) as (s1 & _ & Hf & Heq).
  destruct Hf as (Hh1 & _ & _ & Htr & _).
  rewrite Heq, Hi. unfold bind. rewrite factoryResetCheck_press by congruence.
  unfold delay, modify. eexists. split; [reflexivity|]. split.
  - unfold heldSince. dev_simpl. split; [reflexivity|]. split; [f_equal; lia | lia].
  - apply (noWipeBetween_delay s
             (set_factoryBtnPressStartMs (wrap32 (uptime s1)) (set_factoryBtnHeld true s1))).
    exact Htr.
Qed.

(** A later pass that finds it still pressed: it restarts the device when
    ten seconds have passed since the press was first seen, and only then. *)
Lemma loop_held i s T :
  push01 i = LOW -> heldSince T s ->
  wp (loop w i)
     (fun _ s' => heldSince T s' /\ noWipeBetween s s')
     (wipedAfter T) s.
Proof.
  intros Hi (Hh & Hp & Ht). destruct (loop_anatomy i s) as (s1 & _ & Hf & Heq).
  destruct Hf as (Hh1 & Hp1 & Hu & Htr & _).
  unfold wp. rewrite Heq, Hi. unfold bind.
  rewrite factoryResetCheck_held by congruence.
  rewrite Hp1, Hp.
  assert (He : wrap32 (wrap32 (uptime s1) - wrap32 T) = uptime s1 - T).
  { symmetry. rewrite <- (wrap32_elapsed T (uptime s1 - T)) at 1 by lia.
    do 3 f_equal. lia. }
  rewrite He.
  destruct (Z.geb_spec (uptime s1 - T) 10000) as [Hge|Hlt].
  - unfold wipedAfter, afterFactoryReset. dev_simpl.
    split; [lia|]. split; [reflexivity|]. eexists. reflexivity.
  - unfold delay, modify. split.
    + unfold heldSince. dev_simpl. split; [congruence|]. split; [congruence | lia].
    + apply (noWipeBetween_delay s s1). exact Htr.
Qed.

(** A run of passes that all find the button pressed. *)
Lemma run_held T : forall rest s,
  Forall (fun i => push01 i = LOW) rest -> heldSince T s ->
  wp (run w rest)
     (fun _ s' => heldSince T s' /\ noWipeBetween s s')
     (wipedAfter T) s.
Proof.
  induction rest as [|i rest IH]; intros s Hall Hs.
  - unfold wp, run, ret. split; [exact Hs | apply noWipeBetween_refl].
  - apply Forall_cons in Hall. destruct Hall as [Hi Hall].
    cbn [run]. apply wp_bind.
    eapply wp_mono; [| |apply (loop_held i s T Hi Hs)]; cbn beta; [|auto].
    intros _ s1 [Hs1 Hn1].
    eapply wp_mono; [| |apply (IH s1 Hall Hs1)]; cbn beta; [|auto].
    intros _ s2 [Hs2 Hn2]. split; [exact Hs2|].
    eapply noWipeBetween_trans; eassumption.
Qed.

End Monitor.

(** ** Startup *)

Lemma stationEvent_bootEvent ssid pass e : stationEvent ssid pass e -> bootEvent ssid pass e.
Proof. destruct e as [| |m| | | | | | | | | | | |]; try destruct m; simpl; auto. Qed.

Section Startup.

Variable w : World.

Lemma loadCredentialsFromNVS_eq s :
  loadCredentialsFromNVS s =
  Ret tt (set_currentPass (bootPass (prefs s)) (set_currentSsid (bootSsid (prefs s)) s)).
Proof.
  unfold loadCredentialsFromNVS, bootSsid, bootPass. sketch_step.
  destruct (nvs_getUChar (prefs s) "prov" 0 =? 0); reflexivity.
Qed.

Lemma startCaptiveAP_spec s :
  exists s',
    startCaptiveAP w s = Ret tt s' /\ apStarted s' /\
    trace s' = trace s ++ [EvWifiMode WIFI_AP; EvSoftAP ("ModuLux-Setup-" +:+ last4MacHex w) AP_PASS;
                           EvDnsStart; EvServerBegin] /\
    uptime s' = uptime s /\ led02 s' = led02 s /\ apShutdownAt s' = apShutdownAt s /\
    prefs s' = prefs s /\ currentSsid s' = currentSsid s /\ currentPass s' = currentPass s.
Proof.
  destruct s. unfold startCaptiveAP, touchHttpActivity. sketch_run.
  eexists. split; [reflexivity|]. unfold apStarted. sketch_run.
  rewrite <- !app_assoc. cbn [app]. repeat split; reflexivity.
Qed.

(** [setup] always returns: connected, or with the setup service started.
    It connects with the credentials read from the store. *)
Lemma setup_spec s :
  wp (setup w)
     (fun _ s' =>
        currentSsid s' = bootSsid (prefs s) /\
        currentPass s' = bootPass (prefs s) /\
        prefs s' = prefs s /\
        apShutdownAt s' = apShutdownAt s /\
        led02 s' = LOW /\
        (exists rest,
            trace s' = trace s ++ [EvDelay 10; EvWifiDisconnect; EvDelay 50; EvWifiMode WIFI_STA;
                                   EvWifiBegin (bootSsid (prefs s)) (bootPass (prefs s))] ++ rest /\
            Forall (bootEvent (bootSsid (prefs s)) (bootPass (prefs s))) rest) /\
        (runState s' = CONNECTED \/ apStarted s'))
     (fun _ => False) s.
Proof.
  destruct s. unfold wp, setup, showConnectingPattern, showConnected. sketch_run.
  rewrite loadCredentialsFromNVS_eq. sketch_run.
  assert (Hgo : forall s1 : Device,
    currentSsid s1 = bootSsid prefs0 -> currentPass s1 = bootPass prefs0 ->
    prefs s1 = prefs0 -> apShutdownAt s1 = apShutdownAt0 -> led02 s1 = LOW ->
    trace s1 = trace0 ++ [EvDelay 10] ->
    match
      match tryConnectStation w (bootSsid prefs0) (bootPass prefs0) MAX_RETRIES
              CONNECT_TIMEOUT_MS s1 with
      | Ret a s' =>
          (if a
           then fun s2 => Ret tt (set_led02 LOW (set_led01 HIGH (set_runState CONNECTED s2)))
           else (startCaptiveAP w ;;; modify (set_runState AP_SETUP))) s'
      | Reboot s' => Reboot s'
      | OutOfFuel => OutOfFuel
      end
    with
    | Ret _ s' =>
        currentSsid s' = bootSsid prefs0 /\ currentPass s' = bootPass prefs0 /\
        prefs s' = prefs0 /\ apShutdownAt s' = apShutdownAt0 /\ led02 s' = LOW /\
        (exists rest,
            trace s' = trace0 ++ [EvDelay 10; EvWifiDisconnect; EvDelay 50; EvWifiMode WIFI_STA;
                                  EvWifiBegin (bootSsid prefs0) (bootPass prefs0)] ++ rest /\
            Forall (bootEvent (bootSsid prefs0) (bootPass prefs0)) rest) /\
        (runState s' = CONNECTED \/ apStarted s')
    | Reboot _ => False
    | OutOfFuel => False
    end).
  { intros s1 H1 H2 H3 H4 H5 H6.
    destruct (tryConnectStation_spec w (bootSsid prefs0) (bootPass prefs0) s1)
      as (b & m & n & d & rest & Heq & Hd & Hev).
    rewrite Heq. clear Heq.
    assert (Hboot : Forall (bootEvent (bootSsid prefs0) (bootPass prefs0)) rest).
    { eapply Forall_impl; [exact Hev|]. apply stationEvent_bootEvent. }
    destruct b.
    - unfold radioUpdate. dev_simpl. rewrite H6, <- !app_assoc. cbn [app].
      repeat split; auto. exists rest. split; [reflexivity | exact Hboot].
    - unfold bind.
      match goal with |- context [startCaptiveAP w ?s2] =>
        destruct (startCaptiveAP_spec s2)
          as (s3 & Heq & Hap & Htr & Hup & Hled & Hat & Hpr & Hss & Hpp)
      end.
      rewrite Heq. unfold modify. unfold radioUpdate in *. dev_simpl_in Htr.
      dev_simpl_in Hled. dev_simpl_in Hat. dev_simpl_in Hpr. dev_simpl_in Hss.
      dev_simpl_in Hpp. dev_simpl.
      repeat split; try congruence.
      + eexists. split.
        * rewrite Htr, H6, <- !app_assoc. cbn [app]. reflexivity.
        * apply Forall_app. split; [exact Hboot | repeat constructor].
      + right. unfold apStarted in *. dev_simpl. tauto. }
  destruct (_ >=? _); apply Hgo; reflexivity.
Qed.

End Startup.

(** ** Reachable states *)

Section Reachable.

Variable w : World.

(** The button check and the closing [delay(20)] touch neither the run
    state, nor the deadline, nor the indicators' phase. *)
Lemma button_tail_same v s1 s' :
  (factoryResetCheck v ;;; delay 20) s1 = Ret tt s' ->
  runState s' = runState s1 /\ apShutdownAt s' = apShutdownAt s1 /\
  led02 s' = led02 s1 /\ setupPhase s' = setupPhase s1 /\
  serverUp s' = serverUp s1 /\ dnsUp s' = dnsUp s1 /\
  lastHttpActivityMs s' = lastHttpActivityMs s1 /\
  uptime s' = uptime s1 + 20 /\ trace s' = trace s1 ++ [EvDelay 20] /\
  polls s' = polls s1 /\ prefs s' = prefs s1 /\
  currentSsid s' = currentSsid s1 /\ currentPass s' = currentPass s1.
Proof.
  unfold bind. destruct v.
  - destruct (factoryBtnHeld s1) eqn:Hh.
    + rewrite factoryResetCheck_held by exact Hh.
      destruct (_ >=? _); [discriminate|].
      intros [= <-]. dev_simpl. repeat split; reflexivity.
    + rewrite factoryResetCheck_press by exact Hh.
      intros [= <-]. dev_simpl. repeat split; reflexivity.
  - rewrite factoryResetCheck_HIGH. intros [= <-]. dev_simpl. repeat split; reflexivity.
Qed.

Lemma loop_keeps_invariants i s s' :
  loop w i s = Ret tt s' ->
  (deadlineOwned s -> deadlineOwned s') /\ (pulseInPhase s -> pulseInPhase s').
Proof.
  intros Hloop. destruct (loop_anatomy w i s) as (s1 & _ & Hf & Heq).
  rewrite Heq in Hloop. apply button_tail_same in Hloop.
  destruct Hloop as (H1 & H2 & H3 & H4 & _).
  destruct Hf as (_ & _ & _ & _ & Hd & Hp).
  unfold deadlineOwned, pulseInPhase in *. rewrite H1, H2, H3, H4. auto.
Qed.

Lemma setup_establishes_invariants s s' :
  apShutdownAt s = 0 -> setup w s = Ret tt s' -> deadlineOwned s' /\ pulseInPhase s'.
Proof.
  intros H0 Hs. pose proof (wp_Ret _ _ _ _ _ _ (setup_spec w s) Hs) as H.
  cbn beta in H. destruct H as (_ & _ & _ & Hat & Hled & _).
  unfold deadlineOwned, pulseInPhase. rewrite Hat, Hled, H0.
  split; [intros H; contradiction H; reflexivity | discriminate].
Qed.

Lemma reachable_invariants s :
  reachable w s -> deadlineOwned s /\ pulseInPhase s.
Proof.
  induction 1 as [p s Hs | s i s' _ IH Hl | s i s0 s' _ _ Hl Hs].
  - apply (setup_establishes_invariants (powerOn p 0 []) s); [reflexivity | exact Hs].
  - destruct (loop_keeps_invariants _ _ _ Hl). tauto.
  - apply (setup_establishes_invariants (restart s0) s'); [reflexivity | exact Hs].
Qed.

Lemma button_tail_returns v s1 : (factoryResetCheck v ;;; delay 20) s1 <> OutOfFuel.
Proof.
  unfold bind. destruct v.
  - destruct (factoryBtnHeld s1) eqn:Hh.
    + rewrite factoryResetCheck_held by exact Hh. destruct (_ >=? _); discriminate.
    + rewrite factoryResetCheck_press by exact Hh. discriminate.
  - rewrite factoryResetCheck_HIGH. discriminate.
Qed.

Lemma beforeButton_connected i s :
  runState s = CONNECTED -> beforeButton w i s = Ret tt (connectedPass s).
Proof.
  intros Hrs. destruct s. dev_simpl_in Hrs. subst.
  unfold beforeButton, showPattern, serviceAp, maybeShutdown, showConnected, stopCaptiveAP,
    connectedPass.
  sketch_run.
  destruct (negb (apShutdownAt0 =? 0) && (wrap32 uptime0 >=? apShutdownAt0)).
  - rewrite <- app_assoc. reflexivity.
  - reflexivity.
Qed.

(** A connected device stays connected; a pass can only clear its
    deadline, and clears it once the clock has reached it. *)
Lemma loop_connected i s :
  runState s = CONNECTED ->
  wp (loop w i)
     (fun _ s' =>
        runState s' = CONNECTED /\
        if negb (apShutdownAt s =? 0) && (wrap32 (uptime s) >=? apShutdownAt s)
        then apShutdownAt s' = 0 /\ serverUp s' = false /\ dnsUp s' = false /\
             trace s' = trace s ++ [EvServerStop; EvDnsStop; EvDelay 20]
        else apShutdownAt s' = apShutdownAt s /\ serverUp s' = serverUp s /\
             dnsUp s' = dnsUp s /\ trace s' = trace s ++ [EvDelay 20])
     (fun _ => True) s.
Proof.
  intros Hrs. unfold wp. rewrite loop_split. unfold bind at 1.
  rewrite (beforeButton_connected i s Hrs).
  destruct ((factoryResetCheck (push01 i) ;;; delay 20) (connectedPass s))
    as [[] s'| |] eqn:Htail; [|exact I|].
  - apply button_tail_same in Htail.
    destruct Htail as (H1 & H2 & H3 & H4 & H5 & H6 & H7 & H8 & H9).
    unfold connectedPass in *.
    destruct (negb (apShutdownAt s =? 0) && (wrap32 (uptime s) >=? apShutdownAt s));
      dev_simpl_in H1; dev_simpl_in H2; dev_simpl_in H5; dev_simpl_in H6; dev_simpl_in H9;
      destruct H9 as [H9 _].
    + repeat split; try congruence. rewrite H9, <- app_assoc. reflexivity.
    + repeat split; congruence.
  - exact (button_tail_returns _ _ Htail).
Qed.

End Reachable.

(** * The claims *)

Lemma bootEvent_begins ssid pass evs :
  Forall (bootEvent ssid pass) evs -> beginsOnlyWith ssid pass evs.
Proof.
  intros H a b Hin. rewrite List.Forall_forall in H. apply (H _ Hin).
Qed.

(** ** C5: startup credentials *)

(** C5. Whatever the store holds, when its provisioned flag reads 0
    [setup] puts the placeholder pair into the working copy and begins
    every connection of the startup with it; when the flag is set, the
    stored ssid and password are used instead. *)
Theorem startup_credentials w p n tr :
  (nvs_getUChar p "prov" 0 = 0 ->
   exists s' rest,
     setup w (powerOn p n tr) = Ret tt s' /\
     currentSsid s' = DUMMY_SSID /\ currentPass s' = DUMMY_PASS /\
     trace s' = tr ++ [EvDelay 10; EvWifiDisconnect; EvDelay 50; EvWifiMode WIFI_STA;
                       EvWifiBegin DUMMY_SSID DUMMY_PASS] ++ rest /\
     beginsOnlyWith DUMMY_SSID DUMMY_PASS rest) /\
  (nvs_getUChar p "prov" 0 <> 0 ->
   exists s' rest,
     setup w (powerOn p n tr) = Ret tt s' /\
     currentSsid s' = nvs_getString p "ssid" EmptyString /\
     currentPass s' = nvs_getString p "pass" EmptyString /\
     trace s' = tr ++ [EvDelay 10; EvWifiDisconnect; EvDelay 50; EvWifiMode WIFI_STA;
                       EvWifiBegin (nvs_getString p "ssid" EmptyString)
                                   (nvs_getString p "pass" EmptyString)] ++ rest /\
     beginsOnlyWith (nvs_getString p "ssid" EmptyString)
                    (nvs_getString p "pass" EmptyString) rest).
Proof.
  destruct (wp_returns _ _ _ (setup_spec w (powerOn p n tr)))
    as ([] & s' & Heq & Hs & Hp & _ & _ & _ & (rest & Htr & Hev) & _).
  cbn [prefs powerOn trace] in *. unfold bootSsid, bootPass in *.
  split; intros Hprov.
  - apply Z.eqb_eq in Hprov. rewrite Hprov in *.
    exists s', rest. do 4 (split; [assumption|]). apply bootEvent_begins, Hev.
  - apply Z.eqb_neq in Hprov. rewrite Hprov in *.
    exists s', rest. do 4 (split; [assumption|]). apply bootEvent_begins, Hev.
Qed.

Lemma startup_credentials_witness :
  nvs_getUChar staleStore "prov" 0 = 0 /\
  nvs_getUChar provisionedStore "prov" 0 <> 0 /\
  (exists s' rest,
     setup neverConnects (powerOn staleStore 0 []) = Ret tt s' /\
     currentSsid s' = DUMMY_SSID /\ currentPass s' = DUMMY_PASS /\
     trace s' = [] ++ [EvDelay 10; EvWifiDisconnect; EvDelay 50; EvWifiMode WIFI_STA;
                       EvWifiBegin DUMMY_SSID DUMMY_PASS] ++ rest /\
     beginsOnlyWith DUMMY_SSID DUMMY_PASS rest) /\
  (exists s' rest,
     setup neverConnects (powerOn provisionedStore 0 []) = Ret tt s' /\
     currentSsid s' = "OldNet" /\ currentPass s' = "oldsecret" /\
     trace s' = [] ++ [EvDelay 10; EvWifiDisconnect; EvDelay 50; EvWifiMode WIFI_STA;
                       EvWifiBegin "OldNet" "oldsecret"] ++ rest /\
     beginsOnlyWith "OldNet" "oldsecret" rest).
Proof.
  assert (H0 : nvs_getUChar staleStore "prov" 0 = 0) by (vm_compute; reflexivity).
  assert (H1 : nvs_getUChar provisionedStore "prov" 0 <> 0) by (vm_compute; discriminate).
  split; [exact H0|]. split; [exact H1|]. split.
  - exact (proj1 (startup_credentials neverConnects staleStore 0 []) H0).
  - exact (proj2 (startup_credentials neverConnects provisionedStore 0 []) H1).
Defined.

(** ** C9: the shutdown deadline belongs to CONNECTED *)

(** C9. In every reachable state a set shutdown deadline
    ([apShutdownAt <> 0]) implies [runState = CONNECTED]. Hence a pending
    deadline is never replaced by another one (a pass of [loop] keeps it or
    clears it), and the [runState] test of the shutdown branch never stands
    in its way: the pass that finds the clock at or past the deadline stops
    the HTTP and DNS services and clears it. *)
Theorem shutdown_deadline_owned w s :
  reachable w s ->
  (apShutdownAt s <> 0 -> runState s = CONNECTED) /\
  (apShutdownAt s <> 0 ->
   forall i,
     wp (loop w i)
        (fun _ s' => apShutdownAt s' = apShutdownAt s \/ apShutdownAt s' = 0)
        (fun _ => True) s) /\
  (apShutdownAt s <> 0 -> wrap32 (uptime s) >= apShutdownAt s ->
   forall i,
     wp (loop w i)
        (fun _ s' => apShutdownAt s' = 0 /\ serverUp s' = false /\ dnsUp s' = false)
        (fun _ => True) s).
Proof.
  intros Hr. destruct (reachable_invariants w s Hr) as [Hown _].
  split; [exact Hown|]. split.
  - intros Hset i. eapply wp_mono; [| |apply (loop_connected w i s (Hown Hset))];
      cbn beta; [|auto].
    intros _ s' [_ H]. destruct (_ && _); [right | left]; apply H.
  - intros Hset Hreached i.
    eapply wp_mono; [| |apply (loop_connected w i s (Hown Hset))]; cbn beta; [|auto].
    intros _ s' [_ H].
    apply Z.eqb_neq in Hset. rewrite Hset in H.
    destruct (Z.geb_spec (wrap32 (uptime s)) (apShutdownAt s)) as [_|Hlt]; [|lia].
    cbn [negb andb] in H. tauto.
Qed.

Lemma savedDevice_reachable : reachable connectsAfterSetup savedDevice.
Proof.
  eapply reach_loop with (i := saveTick "HomeNet" "12345678").
  - apply reach_setup with (p := ∅). vm_compute. reflexivity.
  - vm_compute. reflexivity.
Defined.

Lemma shutdown_deadline_owned_witness :
  reachable connectsAfterSetup savedDevice /\
  apShutdownAt savedDevice <> 0 /\
  runState savedDevice = CONNECTED /\
  wp (loop connectsAfterSetup quietTick)
     (fun _ s' => apShutdownAt s' = apShutdownAt savedDevice \/ apShutdownAt s' = 0)
     (fun _ => True) savedDevice.
Proof.
  assert (Hset : apShutdownAt savedDevice <> 0) by (vm_compute; discriminate).
  pose proof (shutdown_deadline_owned connectsAfterSetup savedDevice savedDevice_reachable)
    as (H1 & H2 & _).
  split; [exact savedDevice_reachable|]. split; [exact Hset|].
  split; [exact (H1 Hset) | exact (H2 Hset quietTick)].
Defined.

(** ** C3: validation of POST /save *)

(** C3. When the [ssid] field is empty or the [pass] field is shorter than
    8, [handleSave] answers 400 and that answer is its only call: the
    store, the working copy and the run state are as before and nothing is
    asked of the radio. Otherwise it persists the credentials and then
    begins a connection with them: when it returns, the store is the old
    one with [ssid], [pass] and [prov = 1] written, the working copy is
    the pair of the request, and the three writes, in the trace, come
    before the call that begins the connection. *)
Theorem save_validation w rq s :
  let ssid := server_arg (req_args rq) "ssid" in
  let pass := server_arg (req_args rq) "pass" in
  (strlen ssid = 0 \/ strlen pass < 8 ->
   exists s',
     handleSave w rq s = Ret tt s' /\
     trace s' = trace s ++ [EvSend 400 "text/plain" "Invalid SSID or password (min 8 chars)"] /\
     prefs s' = prefs s /\ currentSsid s' = currentSsid s /\ currentPass s' = currentPass s /\
     runState s' = runState s /\ polls s' = polls s /\ wifiMode s' = wifiMode s) /\
  (strlen ssid <> 0 /\ 8 <= strlen pass ->
   exists s' rest,
     handleSave w rq s = Ret tt s' /\
     trace s' = trace s ++ [EvPutString "ssid" ssid; EvPutString "pass" pass;
                            EvPutUChar "prov" 1;
                            EvWifiMode WIFI_AP_STA; EvWifiBegin ssid pass] ++ rest /\
     prefs s' = <["prov" := NvsUChar 1]> (<["pass" := NvsString pass]>
                  (<["ssid" := NvsString ssid]> (prefs s))) /\
     currentSsid s' = ssid /\ currentPass s' = pass).
Proof.
  intros ssid pass. split.
  - intros Hbad. unfold handleSave. fold ssid pass.
    replace ((strlen ssid =? 0) || (strlen pass <? 8)) with true
      by (symmetry; apply orb_true_iff; destruct Hbad; [left; lia | right; lia]).
    unfold touchHttpActivity. sketch_step.
    eexists. split; [reflexivity|]. dev_simpl. repeat split; reflexivity.
  - intros [Hs Hp]. unfold handleSave. fold ssid pass.
    replace ((strlen ssid =? 0) || (strlen pass <? 8)) with false
      by (symmetry; apply orb_false_iff; split; lia).
    unfold saveCredentialsToNVS, touchHttpActivity, showConnected. sketch_step.
    match goal with |- context [tryConnectWhileAp w ?a ?b ?m _ ?s1] =>
      destruct (tryConnectWhileAp_spec w a b m s1) as (k & b' & Heq & _ & Hk);
      rewrite Heq; clear Heq
    end.
    destruct b'; sketch_step; eexists _, _; (split; [reflexivity|]);
      unfold afterPolls, beganWhileAp; dev_simpl;
      (split; [rewrite <- !app_assoc; cbn [app]; reflexivity|]);
      (split; [reflexivity|]); split; reflexivity.
Qed.

Lemma save_validation_witness :
  (strlen (server_arg (req_args (saveRequest "HomeNet" "1234567")) "ssid") = 0 \/
   strlen (server_arg (req_args (saveRequest "HomeNet" "1234567")) "pass") < 8) /\
  (strlen (server_arg (req_args (saveRequest "HomeNet" "12345678")) "ssid") <> 0 /\
   8 <= strlen (server_arg (req_args (saveRequest "HomeNet" "12345678")) "pass")) /\
  (exists s',
     handleSave neverConnects (saveRequest "HomeNet" "1234567") apDevice = Ret tt s' /\
     trace s' = trace apDevice ++
                [EvSend 400 "text/plain" "Invalid SSID or password (min 8 chars)"] /\
     prefs s' = prefs apDevice /\ currentSsid s' = currentSsid apDevice /\
     currentPass s' = currentPass apDevice /\
     runState s' = runState apDevice /\ polls s' = polls apDevice /\
     wifiMode s' = wifiMode apDevice) /\
  (exists s' rest,
     handleSave neverConnects (saveRequest "HomeNet" "12345678") apDevice = Ret tt s' /\
     trace s' = trace apDevice ++
                [EvPutString "ssid" "HomeNet"; EvPutString "pass" "12345678";
                 EvPutUChar "prov" 1;
                 EvWifiMode WIFI_AP_STA; EvWifiBegin "HomeNet" "12345678"] ++ rest /\
     prefs s' = <["prov" := NvsUChar 1]> (<["pass" := NvsString "12345678"]>
                  (<["ssid" := NvsString "HomeNet"]> (prefs apDevice))) /\
     currentSsid s' = "HomeNet" /\ currentPass s' = "12345678").
Proof.
  assert (Hbad : strlen (server_arg (req_args (saveRequest "HomeNet" "1234567")) "ssid") = 0 \/
                 strlen (server_arg (req_args (saveRequest "HomeNet" "1234567")) "pass") < 8)
    by (right; vm_compute; reflexivity).
  assert (Hok : strlen (server_arg (req_args (saveRequest "HomeNet" "12345678")) "ssid") <> 0 /\
                8 <= strlen (server_arg (req_args (saveRequest "HomeNet" "12345678")) "pass"))
    by (split; vm_compute; discriminate).
  split; [exact Hbad|]. split; [exact Hok|]. split.
  - exact (proj1 (save_validation neverConnects (saveRequest "HomeNet" "1234567") apDevice) Hbad).
  - exact (proj2 (save_validation neverConnects (saveRequest "HomeNet" "12345678") apDevice) Hok).
Defined.

(** ** C10: credentials are stored before they are tried *)

Lemma saved_store_reads (p : gmap string NvsValue) ssid pass :
  let p' := <["prov" := NvsUChar 1]> (<["pass" := NvsString pass]>
              (<["ssid" := NvsString ssid]> p)) in
  nvs_getUChar p' "prov" 0 = 1 /\
  nvs_getString p' "ssid" EmptyString = ssid /\
  nvs_getString p' "pass" EmptyString = pass.
Proof.
  unfold nvs_getUChar, nvs_getString. cbn zeta.
  rewrite lookup_insert_eq.
  rewrite (lookup_insert_ne _ "prov" "ssid") by discriminate.
  rewrite (lookup_insert_ne _ "pass" "ssid") by discriminate.
  rewrite lookup_insert_eq.
  rewrite (lookup_insert_ne _ "prov" "pass") by discriminate.
  rewrite lookup_insert_eq.
  repeat split; reflexivity.
Qed.

(** C10. A valid POST /save writes [ssid], [pass] and [prov = 1] to the
    store and copies the credentials into the working copy before the radio
    is asked to connect. The handler does not take them back: also when the
    attempt times out and the answer is 500, the store and the working copy
    hold the new, untested credentials, and the next startup reads them
    from the store and connects with them. *)
Theorem save_persists_before_connecting w rq s :
  let ssid := server_arg (req_args rq) "ssid" in
  let pass := server_arg (req_args rq) "pass" in
  strlen ssid <> 0 /\ 8 <= strlen pass ->
  exists s' k answer,
    handleSave w rq s = Ret tt s' /\
    trace s' = trace s ++ [EvPutString "ssid" ssid; EvPutString "pass" pass;
                           EvPutUChar "prov" 1;
                           EvWifiMode WIFI_AP_STA; EvWifiBegin ssid pass]
                       ++ pollEvents k ++ answer /\
    (answer = [EvSend 500 "text/plain"
                 "Failed to connect, please check credentials and try again."] /\
     k = 100%nat /\ runState s' = AP_SETUP
     \/
     answer = [EvWifiStatus true;
               EvSend 200 "text/html"
                 ("Connected to " +:+ ssid +:+ " IP: " +:+ local_ip w +:+ String "010"%char EmptyString)] /\
     runState s' = CONNECTED) /\
    prefs s' = <["prov" := NvsUChar 1]> (<["pass" := NvsString pass]>
                 (<["ssid" := NvsString ssid]> (prefs s))) /\
    currentSsid s' = ssid /\ currentPass s' = pass /\
    exists s'' rest,
      setup w (restart s') = Ret tt s'' /\
      currentSsid s'' = ssid /\ currentPass s'' = pass /\
      trace s'' = trace s' ++ [EvDelay 10; EvWifiDisconnect; EvDelay 50; EvWifiMode WIFI_STA;
                               EvWifiBegin ssid pass] ++ rest.
Proof.
  intros ssid pass [Hs Hp].
  assert (Hnext : forall s' : Device,
    prefs s' = <["prov" := NvsUChar 1]> (<["pass" := NvsString pass]>
                 (<["ssid" := NvsString ssid]> (prefs s))) ->
    exists s'' rest,
      setup w (restart s') = Ret tt s'' /\
      currentSsid s'' = ssid /\ currentPass s'' = pass /\
      trace s'' = trace s' ++ [EvDelay 10; EvWifiDisconnect; EvDelay 50; EvWifiMode WIFI_STA;
                               EvWifiBegin ssid pass] ++ rest).
  { intros s' Hprefs.
    destruct (wp_returns _ _ _ (setup_spec w (restart s')))
      as ([] & s'' & Heq & Hss & Hpp & _ & _ & _ & (rest & Htr & _) & _).
    cbn [restart powerOn prefs trace] in *.
    destruct (saved_store_reads (prefs s) ssid pass) as (R1 & R2 & R3). cbn zeta in *.
    unfold bootSsid, bootPass in *. rewrite Hprefs, R1, R2, R3 in *.
    change (1 =? 0) with false in *. cbn iota in *.
    exists s'', rest. auto. }
  unfold handleSave. fold ssid pass.
  replace ((strlen ssid =? 0) || (strlen pass <? 8)) with false
    by (symmetry; apply orb_false_iff; split; lia).
  unfold saveCredentialsToNVS, touchHttpActivity, showConnected. sketch_step.
  match goal with |- context [tryConnectWhileAp w ?a ?b ?m _ ?s1] =>
    destruct (tryConnectWhileAp_spec w a b m s1) as (k & b' & Heq & _ & Hk);
    rewrite Heq; clear Heq
  end.
  destruct b'; sketch_step.
  - eexists _, k, [EvWifiStatus true; EvSend 200 "text/html" _]. split; [reflexivity|].
    unfold afterPolls, beganWhileAp. dev_simpl. split.
    { rewrite <- !app_assoc. cbn [app]. reflexivity. }
    split; [right; split; reflexivity|].
    split; [reflexivity|]. split; [reflexivity|]. split; [reflexivity|].
    apply Hnext. reflexivity.
  - eexists _, k, [EvSend 500 "text/plain" _]. split; [reflexivity|].
    unfold afterPolls, beganWhileAp. dev_simpl. split.
    { rewrite <- !app_assoc. cbn [app]. reflexivity. }
    split; [left; split; [reflexivity | split; [exact Hk | reflexivity]]|].
    split; [reflexivity|]. split; [reflexivity|]. split; [reflexivity|].
    apply Hnext. reflexivity.
Qed.

Lemma save_persists_before_connecting_witness :
  (strlen (server_arg (req_args (saveRequest "HomeNet" "12345678")) "ssid") <> 0 /\
   8 <= strlen (server_arg (req_args (saveRequest "HomeNet" "12345678")) "pass")) /\
  exists s' k answer,
    handleSave neverConnects (saveRequest "HomeNet" "12345678") apDevice = Ret tt s' /\
    trace s' = trace apDevice ++
               [EvPutString "ssid" "HomeNet"; EvPutString "pass" "12345678";
                EvPutUChar "prov" 1;
                EvWifiMode WIFI_AP_STA; EvWifiBegin "HomeNet" "12345678"]
               ++ pollEvents k ++ answer /\
    (answer = [EvSend 500 "text/plain"
                 "Failed to connect, please check credentials and try again."] /\
     k = 100%nat /\ runState s' = AP_SETUP
     \/
     answer = [EvWifiStatus true;
               EvSend 200 "text/html"
                 ("Connected to " +:+ "HomeNet" +:+ " IP: " +:+ local_ip neverConnects
                    +:+ String "010"%char EmptyString)] /\
     runState s' = CONNECTED) /\
    prefs s' = <["prov" := NvsUChar 1]> (<["pass" := NvsString "12345678"]>
                 (<["ssid" := NvsString "HomeNet"]> (prefs apDevice))) /\
    currentSsid s' = "HomeNet" /\ currentPass s' = "12345678" /\
    exists s'' rest,
      setup neverConnects (restart s') = Ret tt s'' /\
      currentSsid s'' = "HomeNet" /\ currentPass s'' = "12345678" /\
      trace s'' = trace s' ++ [EvDelay 10; EvWifiDisconnect; EvDelay 50; EvWifiMode WIFI_STA;
                               EvWifiBegin "HomeNet" "12345678"] ++ rest.
Proof.
  assert (Hok : strlen (server_arg (req_args (saveRequest "HomeNet" "12345678")) "ssid") <> 0 /\
                8 <= strlen (server_arg (req_args (saveRequest "HomeNet" "12345678")) "pass"))
    by (split; vm_compute; discriminate).
  split; [exact Hok|].
  exact (save_persists_before_connecting neverConnects (saveRequest "HomeNet" "12345678")
           apDevice Hok).
Defined.

(** ** C7: the idle retry leaves the access point alone *)

Lemma beginsOf_app e1 e2 : beginsOf (e1 ++ e2) = beginsOf e1 ++ beginsOf e2.
Proof.
  induction e1 as [|e e1 IH]; [reflexivity|].
  destruct e; cbn [beginsOf app]; rewrite ?IH; reflexivity.
Qed.

Lemma stopsService_app e1 e2 :
  stopsService (e1 ++ e2) = stopsService e1 || stopsService e2.
Proof.
  induction e1 as [|e e1 IH]; [reflexivity|].
  destruct e; cbn [stopsService app]; rewrite ?IH; reflexivity.
Qed.

Lemma beginsOf_pollEvents k : beginsOf (pollEvents k) = [].
Proof. induction k; [reflexivity | exact IHk]. Qed.

Lemma stopsService_pollEvents k : stopsService (pollEvents k) = false.
Proof. induction k; [reflexivity | exact IHk]. Qed.

Section IdleRetry.

Variable w : World.

(** In setup mode [showPattern] moves the indicators and their phase only. *)
Lemma showPattern_setup s :
  runState s = AP_SETUP ->
  exists a1 a2 p t,
    showPattern s =
    Ret tt (set_setupPhaseStartMs t (set_setupPhase p (set_led02 a2 (set_led01 a1 s)))).
Proof.
  intros Hrs. destruct s. dev_simpl_in Hrs. subst.
  unfold showPattern, showSetupPattern. sketch_run.
  destruct setupPhase0; try destruct (_ >=? _); sketch_run;
    eexists _, _, _, _; reflexivity.
Qed.

Lemma serviceAp_idle i s :
  runState s = AP_SETUP ->
  client i = None \/ serverUp s = false ->
  wrap32 (wrap32 (uptime s) - lastHttpActivityMs s) > AP_IDLE_TIMEOUT_MS ->
  exists (k : nat) (b : bool),
    (forall j, (j < k)%nat -> wl_status w (polls s + j) = false) /\
    (if b then wl_status w (polls s + k) = true /\ (k < 100)%nat else k = 100%nat) /\
    serviceAp w i s = Ret tt (afterIdleRetry k b s).
Proof.
  intros Hrs Hreq Hidle. destruct s.
  dev_simpl_in Hrs. dev_simpl_in Hreq. dev_simpl_in Hidle. dev_simpl. subst runState0.
  apply Z.gt_lt, Z.gtb_lt in Hidle.
  unfold serviceAp. sketch_run.
  match goal with |- context [server_handleClient w i ?s0] =>
    assert (Hskip : server_handleClient w i s0 = Ret tt s0)
  end.
  { unfold server_handleClient. sketch_run.
    destruct Hreq as [-> | ->]; [reflexivity | destruct (client i); reflexivity]. }
  rewrite Hskip. clear Hskip.
  unfold idleRetry, showConnected, afterIdleRetry. sketch_run. rewrite Hidle.
  match goal with |- context [tryConnectWhileAp w ?a ?b ?m _ ?s1] =>
    destruct (tryConnectWhileAp_spec w a b m s1) as (k & b' & Heq & Hno & Hk);
    rewrite Heq; clear Heq
  end.
  dev_simpl_in Hno.
  exists k, b'. split; [exact Hno|]. split; [exact Hk|].
  unfold afterPolls, beganWhileAp. destruct b'; sketch_run; reflexivity.
Qed.

Lemma maybeShutdown_cases s :
  exists s',
    maybeShutdown s = Ret tt s' /\
    lastHttpActivityMs s' = lastHttpActivityMs s /\ polls s' = polls s /\
    factoryBtnHeld s' = factoryBtnHeld s /\
    factoryBtnPressStartMs s' = factoryBtnPressStartMs s /\ uptime s' = uptime s /\
    (trace s' = trace s \/ trace s' = trace s ++ [EvServerStop; EvDnsStop]) /\
    (runState s <> CONNECTED -> s' = s).
Proof.
  unfold maybeShutdown, stopCaptiveAP. sketch_step.
  destruct (runState s) eqn:Hrs; try destruct (_ && _);
    eexists; (split; [reflexivity|]); dev_simpl;
    repeat split; auto; try congruence.
  right. rewrite <- app_assoc. reflexivity.
Qed.

Lemma button_tail_reboot v s1 s0 :
  (factoryResetCheck v ;;; delay 20) s1 = Reboot s0 -> s0 = afterFactoryReset s1.
Proof.
  unfold bind. destruct v.
  - destruct (factoryBtnHeld s1) eqn:Hh.
    + rewrite factoryResetCheck_held by exact Hh.
      destruct (_ >=? _); [intros [= <-]; reflexivity | discriminate].
    + rewrite factoryResetCheck_press by exact Hh. discriminate.
  - rewrite factoryResetCheck_HIGH. discriminate.
Qed.

(** The pass after the indicators were updated. *)
Lemma idle_pass_tail i s :
  runState s = AP_SETUP ->
  client i = None \/ serverUp s = false ->
  wrap32 (wrap32 (uptime s) - lastHttpActivityMs s) > AP_IDLE_TIMEOUT_MS ->
  exists (k : nat) (b : bool),
    (forall j, (j < k)%nat -> wl_status w (polls s + j) = false) /\
    (if b then wl_status w (polls s + k) = true /\ (k < 100)%nat else k = 100%nat) /\
    wp (serviceAp w i ;;; maybeShutdown ;;; factoryResetCheck (push01 i) ;;; delay 20)
       (fun _ s' => idleRetried k b s s') (idleRetried k b s) s.
Proof.
  intros Hrs Hreq Hidle.
  destruct (serviceAp_idle i s Hrs Hreq Hidle) as (k & b & Hno & Hk & Hsvc).
  destruct (maybeShutdown_cases (afterIdleRetry k b s))
    as (s3 & Hshut & Hl3 & Hp3 & _ & _ & _ & Htr3 & Hsame).
  exists k, b. split; [exact Hno|]. split; [exact Hk|].
  assert (Hpre : idleRetried k b s s3).
  { unfold idleRetried. rewrite Hl3, Hp3.
    split; [unfold afterIdleRetry, afterPolls, beganWhileAp; destruct b; reflexivity|].
    split; [unfold afterIdleRetry, afterPolls, beganWhileAp; destruct b; reflexivity|].
    destruct b.
    - destruct Htr3 as [Htr3 | Htr3]; rewrite Htr3;
        unfold afterIdleRetry, afterPolls, beganWhileAp; dev_simpl;
        rewrite <- !app_assoc; cbn [app]; eexists; (split; [reflexivity|]);
        (split; [|discriminate]);
        cbn [beginsOf]; rewrite beginsOf_app, beginsOf_pollEvents; reflexivity.
    - rewrite Hsame
        by (unfold afterIdleRetry, afterPolls, beganWhileAp; dev_simpl; rewrite Hrs; discriminate).
      unfold afterIdleRetry, afterPolls, beganWhileAp. dev_simpl.
      rewrite <- !app_assoc. cbn [app]. eexists. split; [reflexivity|].
      split; [cbn [beginsOf]; rewrite beginsOf_app, beginsOf_pollEvents; reflexivity|].
      intros _. split; [|repeat split; auto].
      cbn [stopsService]. rewrite stopsService_app, stopsService_pollEvents. reflexivity. }
  unfold wp. unfold bind at 1. rewrite Hsvc. unfold bind at 1. rewrite Hshut.
  destruct ((factoryResetCheck (push01 i) ;;; delay 20) s3) as [[] s'| s0 |] eqn:Htail.
  - apply button_tail_same in Htail.
    destruct Htail as (H1 & H2 & _ & _ & H5 & H6 & H7 & _ & H9 & H10 & _).
    destruct Hpre as (P1 & P2 & evs & P3 & P4 & P5).
    unfold idleRetried. rewrite H7, H10. split; [exact P1|]. split; [exact P2|].
    exists (evs ++ [EvDelay 20]). rewrite H9, P3, <- app_assoc. split; [reflexivity|].
    split; [rewrite beginsOf_app, P4; reflexivity|].
    intros Hb. destruct (P5 Hb) as (Q1 & Q2 & Q3 & Q4 & Q5).
    rewrite stopsService_app, Q1, H1, H2, H5, H6. repeat split; auto.
  - apply button_tail_reboot in Htail. subst s0.
    destruct Hpre as (P1 & P2 & evs & P3 & P4 & P5).
    unfold idleRetried, afterFactoryReset. dev_simpl. split; [exact P1|].
    split; [exact P2|].
    exists (evs ++ resetEvents). rewrite P3, <- app_assoc. split; [reflexivity|].
    split; [rewrite beginsOf_app, P4; reflexivity|].
    intros Hb. destruct (P5 Hb) as (Q1 & Q2 & Q3 & Q4 & Q5).
    rewrite stopsService_app, Q1. repeat split; auto.
  - exact (button_tail_returns _ _ Htail).
Qed.

End IdleRetry.

(** C7. In a pass of [loop] in AP_SETUP that finds the idle deadline
    elapsed (no request was served in the pass, so the idle timer is as the
    pass found it), exactly one connection is begun, with the working
    credentials; [tryConnectWhileAp] is called with [maxRetries = 1] and
    polls at most until its timeout. When that retry fails, the run state
    stays AP_SETUP, the HTTP and DNS services are as before and neither is
    stopped, the shutdown deadline is untouched, and the idle timer holds
    the time of the check. This holds up to the end of the pass, and up to
    the restart if the pass ends in a factory reset. *)
Theorem idle_retry_keeps_ap w i s :
  runState s = AP_SETUP ->
  client i = None \/ serverUp s = false ->
  wrap32 (wrap32 (uptime s) - lastHttpActivityMs s) > AP_IDLE_TIMEOUT_MS ->
  exists (k : nat) (b : bool),
    (forall j, (j < k)%nat -> wl_status w (polls s + j) = false) /\
    (if b then wl_status w (polls s + k) = true /\ (k < 100)%nat else k = 100%nat) /\
    wp (loop w i) (fun _ s' => idleRetried k b s s') (idleRetried k b s) s.
Proof.
  intros Hrs Hreq Hidle.
  destruct (showPattern_setup s Hrs) as (a1 & a2 & p & t & Hshow).
  remember (set_setupPhaseStartMs t (set_setupPhase p (set_led02 a2 (set_led01 a1 s))))
    as s1 eqn:Es1.
  assert (F : runState s1 = runState s /\ serverUp s1 = serverUp s /\ dnsUp s1 = dnsUp s /\
              apShutdownAt s1 = apShutdownAt s /\ uptime s1 = uptime s /\
              lastHttpActivityMs s1 = lastHttpActivityMs s /\ polls s1 = polls s /\
              trace s1 = trace s /\ currentSsid s1 = currentSsid s /\
              currentPass s1 = currentPass s)
    by (subst s1; dev_simpl; repeat split; reflexivity).
  clear Es1. destruct F as (F1 & F2 & F3 & F4 & F5 & F6 & F7 & F8 & F9 & F10).
  destruct (idle_pass_tail w i s1) as (k & b & Hno & Hk & Hwp).
  { congruence. }
  { rewrite F2. exact Hreq. }
  { rewrite F5, F6. exact Hidle. }
  exists k, b. rewrite F7 in Hno, Hk. split; [exact Hno|]. split; [exact Hk|].
  assert (Hsame : forall s', idleRetried k b s1 s' -> idleRetried k b s s').
  { unfold idleRetried. rewrite F2, F3, F4, F5, F7, F8, F9, F10. auto. }
  unfold wp, loop. unfold bind at 1. rewrite Hshow.
  unfold wp in Hwp.
  destruct ((serviceAp w i ;;; maybeShutdown ;;; factoryResetCheck (push01 i) ;;; delay 20) s1)
    as [[] s'| s0 |]; auto.
Qed.

(** ** C8: the setup blink cycle *)

Lemma elapsed_advance u start d :
  0 <= d -> wrap32 (wrap32 u - start) + d < 2 ^ 32 ->
  wrap32 (wrap32 (u + d) - start) = wrap32 (wrap32 u - start) + d.
Proof.
  intros Hd Hlt. pose proof (wrap32_range (wrap32 u - start)) as Hr.
  rewrite <- (wrap32_small (wrap32 (wrap32 u - start) + d)) by lia.
  rewrite !wrap32_sub_l, wrap32_add_l. f_equal. lia.
Qed.

(** Resolves the comparisons of a goal by linear arithmetic. *)
Ltac decide_tests :=
  repeat match goal with
         | |- context [?a <? ?b] => destruct (Z.ltb_spec a b); try lia
         | |- context [?a <=? ?b] => destruct (Z.leb_spec a b); try lia
         | |- context [?a >=? ?b] => destruct (Z.geb_spec a b); try lia
         | |- context [?a =? ?b] => destruct (Z.eqb_spec a b); try lia
         end.

Section BlinkCycle.

Variable w : World.

(** One call of [showSetupPattern]: the phase ends when its duration has
    elapsed, and not before; indicator B is switched on when BLINK2_ON
    begins, off when it ends and whenever BLINK1_ON is shown. *)
Lemma showSetupPattern_phase s :
  exists a1 a2 p t,
    showSetupPattern s =
      Ret tt (set_setupPhaseStartMs t (set_setupPhase p (set_led02 a2 (set_led01 a1 s)))) /\
    (if phaseElapsed s >=? phaseDuration (setupPhase s)
     then p = nextPhase (setupPhase s) /\ t = wrap32 (uptime s)
     else p = setupPhase s /\ t = setupPhaseStartMs s) /\
    a2 = match setupPhase s, phaseElapsed s >=? phaseDuration (setupPhase s) with
         | BLINK1_ON, _ => LOW
         | BLINK1_OFF, true => HIGH
         | BLINK2_ON, true => LOW
         | _, _ => led02 s
         end.
Proof.
  destruct s. unfold showSetupPattern, phaseElapsed. sketch_run.
  destruct setupPhase0; cbn [phaseDuration nextPhase].
  - eexists _, _, _, _. split; [reflexivity|].
    pose proof (wrap32_range (wrap32 uptime0 - setupPhaseStartMs0)).
    destruct (Z.geb_spec (wrap32 (wrap32 uptime0 - setupPhaseStartMs0)) 0); [|lia].
    repeat split; reflexivity.
  - destruct (_ >=? _); sketch_run; eexists _, _, _, _; repeat split; reflexivity.
  - destruct (_ >=? _); sketch_run; eexists _, _, _, _; repeat split; reflexivity.
  - destruct (_ >=? _); sketch_run; eexists _, _, _, _; repeat split; reflexivity.
  - destruct (_ >=? _); sketch_run; eexists _, _, _, _; repeat split; reflexivity.
  - destruct (_ >=? _); sketch_run; eexists _, _, _, _; repeat split; reflexivity.
Qed.

(** A pass in setup mode with nothing to do but the indicators. *)
Lemma quiet_pass s s1 :
  runState s = AP_SETUP ->
  wrap32 (wrap32 (uptime s) - lastHttpActivityMs s) <= AP_IDLE_TIMEOUT_MS ->
  showSetupPattern s = Ret tt s1 ->
  loop w quietTick s = Ret tt (closePass s1).
Proof.
  intros Hrs Hidle Hshow.
  destruct (showSetupPattern_phase s) as (a1 & a2 & p & t & Heq & _).
  rewrite Heq in Hshow. injection Hshow as <-.
  unfold loop, showPattern. sketch_step. rewrite Hrs, Heq.
  destruct s. dev_simpl_in Hrs. dev_simpl_in Hidle. subst runState0.
  unfold serviceAp, server_handleClient, idleRetry, maybeShutdown, factoryResetCheck, closePass.
  change (client quietTick) with (@None Request). change (push01 quietTick) with HIGH.
  sketch_run.
  replace (_ >? AP_IDLE_TIMEOUT_MS) with false
    by (symmetry; rewrite Z.gtb_ltb; apply Z.ltb_ge; exact Hidle).
  reflexivity.
Qed.

Lemma next_pass_mod n :
  0 <= n -> (n + 1) mod 100 = if n mod 100 =? 99 then 0 else n mod 100 + 1.
Proof.
  intros Hn. pose proof (Z.mod_pos_bound n 100 ltac:(lia)) as Hq.
  rewrite <- Zplus_mod_idemp_l.
  destruct (Z.eqb_spec (n mod 100) 99) as [->|Hne]; [reflexivity|].
  apply Z.mod_small. lia.
Qed.

Lemma cycle_step u0 last n s :
  0 <= n ->
  inCycle u0 last n s ->
  wrap32 (wrap32 (uptime s) - last) <= AP_IDLE_TIMEOUT_MS ->
  exists s', loop w quietTick s = Ret tt s' /\ inCycle u0 last (n + 1) s'.
Proof.
  intros Hn (Hrs & Hl & Hu & Hp & He & Hled) Hidle.
  destruct (showSetupPattern_phase s) as (a1 & a2 & p & t & Heq & Hpt & Ha2).
  exists (closePass (set_setupPhaseStartMs t (set_setupPhase p (set_led02 a2 (set_led01 a1 s))))).
  split; [apply quiet_pass; [exact Hrs | rewrite Hl; exact Hidle | exact Heq]|].
  unfold inCycle, closePass, phaseElapsed. dev_simpl.
  split; [exact Hrs|]. split; [exact Hl|]. split; [lia|].
  rewrite (next_pass_mod n Hn).
  pose proof (Z.mod_pos_bound n 100 ltac:(lia)) as Hq.
  set (q := n mod 100) in *. clearbody q.
  rewrite He, Hp in Hpt. rewrite He, Hp, Hled in Ha2.
  assert (Hadv : wrap32 (wrap32 (uptime s + 20) - setupPhaseStartMs s) = phaseElapsed s + 20).
  { unfold phaseElapsed. apply elapsed_advance; [lia|]. fold (phaseElapsed s). rewrite He.
    unfold phaseStartPass. decide_tests. }
  assert (Hnew : wrap32 (wrap32 (uptime s + 20) - wrap32 (uptime s)) = 20)
    by (apply wrap32_elapsed; lia).
  rewrite He in Hadv. clear He Hp Hled Heq.
  unfold phaseOfPass, phaseStartPass, phaseDuration in *.
  destruct (Z.eqb_spec q 99) as [->|Hne].
  - cbn in Hpt, Ha2 |- *. destruct Hpt as [-> ->]. subst a2. rewrite Hnew. auto.
  - destruct (Z.ltb_spec q 10); [|destruct (Z.ltb_spec q 20); [|destruct (Z.ltb_spec q 30);
      [|destruct (Z.ltb_spec q 40)]]].
    all: cbn [phaseDuration nextPhase] in Hpt, Ha2.
    all: match type of Hpt with context [?a >=? ?b] =>
           destruct (Z.geb_spec a b); destruct Hpt as [-> ->]; subst a2 end.
    all: rewrite ?Hnew, ?Hadv.
    all: repeat split; decide_tests; try reflexivity; try lia.
Qed.

(** The blink cycle while the passes follow each other every 20 ms. *)
Lemma cycle_run u0 last : forall n s,
  0 <= n ->
  inCycle u0 last n s ->
  forall m : nat,
    wrap32 (wrap32 (uptime s) - last) + 20 * Z.of_nat m <= AP_IDLE_TIMEOUT_MS ->
    exists s', run w (repeat quietTick m) s = Ret tt s' /\ inCycle u0 last (n + Z.of_nat m) s'.
Proof.
  intros n s Hn Hin m. revert n s Hn Hin.
  induction m as [|m IH]; intros n s Hn Hin Hidle.
  - exists s. split; [reflexivity|]. rewrite Z.add_0_r. exact Hin.
  - destruct (cycle_step u0 last n s Hn Hin) as (s1 & Heq & Hin1); [lia|].
    destruct (IH (n + 1) s1) as (s' & Heq' & Hin'); [lia | exact Hin1 | |].
    + destruct Hin as (_ & _ & Hu & _). destruct Hin1 as (_ & _ & Hu1 & _).
      replace (uptime s1) with (uptime s + 20) by lia.
      pose proof (wrap32_range (wrap32 (uptime s) - last)).
      rewrite elapsed_advance; unfold AP_IDLE_TIMEOUT_MS in *; lia.
    + exists s'. cbn [repeat run]. unfold bind. rewrite Heq. split; [exact Heq'|].
      replace (n + Z.of_nat (S m)) with (n + 1 + Z.of_nat m) by lia. exact Hin'.
Qed.

End BlinkCycle.

Lemma reachable_run w inputs : forall s s',
  reachable w s -> run w inputs s = Ret tt s' -> reachable w s'.
Proof.
  induction inputs as [|i rest IH]; intros s s' Hr Hrun.
  - injection Hrun as <-. exact Hr.
  - cbn [run] in Hrun. unfold bind in Hrun.
    destruct (loop w i s) as [[] s1| |] eqn:Hl; try discriminate.
    apply (IH s1 s'); [|exact Hrun]. exact (reach_loop w s i s1 Hr Hl).
Qed.

Lemma cycle_start w s :
  runState s = AP_SETUP -> setupPhase s = BLINK1_ON ->
  setupPhaseStartMs s = wrap32 (uptime s) ->
  wrap32 (wrap32 (uptime s) - lastHttpActivityMs s) <= AP_IDLE_TIMEOUT_MS ->
  exists s', loop w quietTick s = Ret tt s' /\
             inCycle (uptime s) (lastHttpActivityMs s) 0 s'.
Proof.
  intros Hrs Hp Hst Hidle.
  destruct (showSetupPattern_phase s) as (a1 & a2 & p & t & Heq & Hpt & Ha2).
  exists (closePass (set_setupPhaseStartMs t (set_setupPhase p (set_led02 a2 (set_led01 a1 s))))).
  split; [apply quiet_pass; assumption|].
  unfold phaseElapsed in Hpt. rewrite Hp, Hst, wrap32_elapsed_0 in Hpt.
  rewrite Hp in Ha2. cbn in Hpt, Ha2. destruct Hpt as [-> ->]. subst a2.
  unfold inCycle, closePass, phaseElapsed. dev_simpl.
  rewrite wrap32_elapsed by lia. repeat split; auto.
Qed.

Lemma apDevice_reachable : reachable neverConnects apDevice.
Proof. apply reach_setup with (p := ∅). vm_compute. reflexivity. Defined.

Lemma pulseDevice_reachable : reachable neverConnects pulseDevice.
Proof.
  apply (reachable_run neverConnects (repeat quietTick 21) apDevice pulseDevice
           apDevice_reachable).
  vm_compute. reflexivity.
Defined.

Lemma blockedDevice_reachable : reachable neverConnects blockedDevice.
Proof.
  apply (reach_loop neverConnects pulseDevice (saveTick "HomeNet" "12345678") blockedDevice
           pulseDevice_reachable).
  vm_compute. reflexivity.
Defined.

(** C8, as stated, fails: a save request that arrives during the second
    blink blocks the loop for the ten seconds of its connection attempt,
    and indicator B stays lit all that time. *)
Lemma setup_pulse_counterexample : ~ pulseWithinWindow neverConnects.
Proof.
  intros H.
  destruct (H blockedDevice blockedDevice_reachable) as [_ Hlt];
    [vm_compute; reflexivity | vm_compute; reflexivity |].
  vm_compute in Hlt. apply Hlt. reflexivity.
Qed.

(** C8, amended. In every reachable state in AP_SETUP indicator B
    (LED_02) is high only in phase BLINK2_ON. A call of [showSetupPattern]
    ends the current phase when it finds the phase's duration elapsed (200,
    200, 200, 200, 1200 ms) and moves on in the fixed order BLINK1_ON,
    BLINK1_OFF, BLINK2_ON, BLINK2_OFF, PAUSE, else it stays. So while the
    passes of [loop] follow each other every 20 ms (no request, no idle
    retry, button released), the pass at [r] ms into a 2000 ms cycle leaves
    indicator B high exactly when [400 <= r < 600]. [startCaptiveAP] always
    resets the phase to BLINK1_ON with the phase start set to now. *)
Theorem setup_blink_cycle w :
  (forall s,
     reachable w s -> runState s = AP_SETUP -> led02 s = HIGH -> setupPhase s = BLINK2_ON) /\
  (forall s,
     exists s1,
       showSetupPattern s = Ret tt s1 /\
       if phaseElapsed s >=? phaseDuration (setupPhase s)
       then setupPhase s1 = nextPhase (setupPhase s) /\ setupPhaseStartMs s1 = wrap32 (uptime s)
       else setupPhase s1 = setupPhase s /\ setupPhaseStartMs s1 = setupPhaseStartMs s) /\
  (forall s (m : nat),
     runState s = AP_SETUP -> setupPhase s = BLINK1_ON ->
     setupPhaseStartMs s = wrap32 (uptime s) ->
     wrap32 (wrap32 (uptime s) - lastHttpActivityMs s) + 20 * Z.of_nat (S m)
       <= AP_IDLE_TIMEOUT_MS ->
     exists s',
       run w (repeat quietTick (S m)) s = Ret tt s' /\
       uptime s' = uptime s + 20 * Z.of_nat (S m) /\
       setupPhase s' = phaseAtMs ((20 * Z.of_nat m) mod 2000) /\
       led02 s' = pulseAtMs ((20 * Z.of_nat m) mod 2000)) /\
  (forall s,
     exists s',
       startCaptiveAP w s = Ret tt s' /\ runState s' = AP_SETUP /\
       setupPhase s' = BLINK1_ON /\ setupPhaseStartMs s' = wrap32 (uptime s')).
Proof.
  split; [|split; [|split]].
  - intros s Hr _ Hled. destruct (reachable_invariants w s Hr) as [_ Hp]. exact (Hp Hled).
  - intros s. destruct (showSetupPattern_phase s) as (a1 & a2 & p & t & Heq & Hpt & _).
    eexists. split; [exact Heq|]. dev_simpl. exact Hpt.
  - intros s m Hrs Hp Hst Hidle.
    pose proof (wrap32_range (wrap32 (uptime s) - lastHttpActivityMs s)) as Hr.
    destruct (cycle_start w s Hrs Hp Hst) as (s1 & Heq1 & Hin1); [lia|].
    destruct (cycle_run w (uptime s) (lastHttpActivityMs s) 0 s1 ltac:(lia) Hin1 m)
      as (s' & Heq' & Hin').
    { destruct Hin1 as (_ & _ & Hu1 & _).
      replace (uptime s1) with (uptime s + 20) by lia.
      rewrite elapsed_advance; unfold AP_IDLE_TIMEOUT_MS in *; lia. }
    exists s'. split; [cbn [repeat run]; unfold bind; rewrite Heq1; exact Heq'|].
    destruct Hin' as (_ & _ & Hu & Hph & _ & Hled). rewrite Z.add_0_l in *.
    split; [lia|].
    replace ((20 * Z.of_nat m) mod 2000) with (20 * (Z.of_nat m mod 100))
      by (symmetry; apply (Zmult_mod_distr_l (Z.of_nat m) 100 20)).
    pose proof (Z.mod_pos_bound (Z.of_nat m) 100 ltac:(lia)) as Hq.
    rewrite Hph, Hled. unfold phaseOfPass, phaseAtMs, pulseAtMs.
    split; decide_tests; reflexivity.
  - intros s. destruct (startCaptiveAP_spec w s) as (s' & Heq & Hap & _).
    exists s'. unfold apStarted in Hap. tauto.
Qed.

Lemma setup_blink_cycle_witness :
  reachable neverConnects pulseDevice /\
  runState pulseDevice = AP_SETUP /\ led02 pulseDevice = HIGH /\
  setupPhase pulseDevice = BLINK2_ON /\
  runState apDevice = AP_SETUP /\ setupPhase apDevice = BLINK1_ON /\
  setupPhaseStartMs apDevice = wrap32 (uptime apDevice) /\
  wrap32 (wrap32 (uptime apDevice) - lastHttpActivityMs apDevice) + 20 * Z.of_nat 25
    <= AP_IDLE_TIMEOUT_MS /\
  exists s',
    run neverConnects (repeat quietTick 25) apDevice = Ret tt s' /\
    uptime s' = uptime apDevice + 20 * Z.of_nat 25 /\
    setupPhase s' = phaseAtMs ((20 * Z.of_nat 24) mod 2000) /\
    led02 s' = pulseAtMs ((20 * Z.of_nat 24) mod 2000).
Proof.
  destruct (setup_blink_cycle neverConnects) as (Hinv & _ & Hcycle & _).
  assert (H1 : runState pulseDevice = AP_SETUP) by (vm_compute; reflexivity).
  assert (H2 : led02 pulseDevice = HIGH) by (vm_compute; reflexivity).
  assert (H3 : runState apDevice = AP_SETUP) by (vm_compute; reflexivity).
  assert (H4 : setupPhase apDevice = BLINK1_ON) by (vm_compute; reflexivity).
  assert (H5 : setupPhaseStartMs apDevice = wrap32 (uptime apDevice))
    by (vm_compute; reflexivity).
  assert (H6 : wrap32 (wrap32 (uptime apDevice) - lastHttpActivityMs apDevice)
               + 20 * Z.of_nat 25 <= AP_IDLE_TIMEOUT_MS) by (vm_compute; discriminate).
  split; [exact pulseDevice_reachable|]. split; [exact H1|]. split; [exact H2|].
  split; [exact (Hinv pulseDevice pulseDevice_reachable H1 H2)|].
  split; [exact H3|]. split; [exact H4|]. split; [exact H5|]. split; [exact H6|].
  exact (Hcycle apDevice 24%nat H3 H4 H5 H6).
Defined.

(** ** C1: attempts and backoff waits of [tryConnectStation] *)

Section StationFailure.

Variable w : World.
Hypothesis never : forall n, wl_status w n = false.

Lemma pollStatus_times_out s :
  pollStatus w (pollFuel CONNECT_TIMEOUT_MS) (wrap32 (uptime s)) CONNECT_TIMEOUT_MS s =
  Ret false (afterPolls 100 false s).
Proof.
  destruct (pollStatus_fresh w CONNECT_TIMEOUT_MS s ltac:(unfold CONNECT_TIMEOUT_MS; lia))
    as (k & b & Heq & _ & Hb & Hk).
  destruct b.
  - destruct Hb as [Hb _]. rewrite never in Hb. discriminate.
  - unfold CONNECT_TIMEOUT_MS in Hb, Hk.
    assert (k = 100%nat) as -> by lia. exact Heq.
Qed.

Lemma failed_attempt fuel ssid pass maxRetries attempt s :
  attempt < maxRetries ->
  stationAttempts w (S fuel) ssid pass maxRetries CONNECT_TIMEOUT_MS attempt s =
  stationAttempts w fuel ssid pass maxRetries CONNECT_TIMEOUT_MS (attempt + 1)
    (radioUpdate WIFI_STA (polls s + 100) (uptime s + (10050 + backoffMs attempt))
       (trace s ++ attemptEvents ssid pass ++ [EvDelay (backoffMs attempt)]) s).
Proof.
  intros Hlt. rewrite stationAttempts_S.
  replace (attempt <? maxRetries) with true by (symmetry; apply Z.ltb_lt; exact Hlt).
  destruct s. sketch_run.
  match goal with |- context [pollStatus w _ _ _ ?s1] =>
    pose proof (pollStatus_times_out s1) as Hpoll; dev_simpl_in Hpoll; rewrite Hpoll; clear Hpoll
  end.
  unfold afterPolls. fold (backoffMs attempt). sketch_run.
  f_equal. unfold radioUpdate, attemptEvents. sketch_run.
  rewrite <- !app_assoc. cbn [app]. f_equal; lia.
Qed.

End StationFailure.

(** C1 fails on the code: each attempt that times out is followed by its
    backoff wait, the last one too. With [maxRetries = 5] and a radio that
    never connects, [tryConnectStation] makes exactly 5 attempts and waits
    5 times, for 1, 2, 4, 8 and 8 seconds; the last wait comes after the
    final attempt, and the call blocks for 5 x (50 ms + 10 s) + 23 s. *)
Theorem station_backoff_after_last_attempt w ssid pass s :
  (forall n, wl_status w n = false) ->
  tryConnectStation w ssid pass MAX_RETRIES CONNECT_TIMEOUT_MS s =
    Ret false (radioUpdate WIFI_STA (polls s + 500) (uptime s + 73250)
                 (trace s ++ failedStationTrace ssid pass) s) /\
  beginsOf (failedStationTrace ssid pass) = repeat (ssid, pass) 5 /\
  backoffWaits (failedStationTrace ssid pass) = [1000; 2000; 4000; 8000; 8000] /\
  last (failedStationTrace ssid pass) = Some (EvDelay 8000).
Proof.
  intros Hnever. split; [|split; [|split]]; [|vm_compute; reflexivity ..].
  unfold tryConnectStation. change (S (Z.to_nat MAX_RETRIES)) with 6%nat.
  unfold MAX_RETRIES.
  do 5 (rewrite (failed_attempt w Hnever) by lia).
  rewrite stationAttempts_S. change (0 + 1 + 1 + 1 + 1 + 1 <? 5) with false.
  unfold ret. rewrite !radioUpdate_twice. apply Ret_eq.
  unfold radioUpdate. dev_simpl.
  change (backoffMs 0) with 1000. change (backoffMs (0 + 1)) with 2000.
  change (backoffMs (0 + 1 + 1)) with 4000. change (backoffMs (0 + 1 + 1 + 1)) with 8000.
  change (backoffMs (0 + 1 + 1 + 1 + 1)) with 8000.
  unfold failedStationTrace. cbn [map concat]. rewrite <- !app_assoc, app_nil_r.
  replace (polls s + 100 + 100 + 100 + 100 + 100)%nat with (polls s + 500)%nat by lia.
  replace (uptime s + (10050 + 1000) + (10050 + 2000) + (10050 + 4000) +
           (10050 + 8000) + (10050 + 8000)) with (uptime s + 73250) by lia.
  reflexivity.
Qed.

Lemma station_backoff_after_last_attempt_witness :
  (forall n, wl_status neverConnects n = false) /\
  tryConnectStation neverConnects DUMMY_SSID DUMMY_PASS MAX_RETRIES CONNECT_TIMEOUT_MS
      (powerOn ∅ 0 []) =
    Ret false (radioUpdate WIFI_STA (polls (powerOn ∅ 0 []) + 500)
                 (uptime (powerOn ∅ 0 []) + 73250)
                 (trace (powerOn ∅ 0 []) ++ failedStationTrace DUMMY_SSID DUMMY_PASS)
                 (powerOn ∅ 0 [])) /\
  beginsOf (failedStationTrace DUMMY_SSID DUMMY_PASS) = repeat (DUMMY_SSID, DUMMY_PASS) 5 /\
  backoffWaits (failedStationTrace DUMMY_SSID DUMMY_PASS) = [1000; 2000; 4000; 8000; 8000] /\
  last (failedStationTrace DUMMY_SSID DUMMY_PASS) = Some (EvDelay 8000).
Proof.
  assert (H : forall n, wl_status neverConnects n = false) by (intros n; reflexivity).
  split; [exact H|].
  exact (station_backoff_after_last_attempt neverConnects DUMMY_SSID DUMMY_PASS
           (powerOn ∅ 0 []) H).
Defined.

(** ** C2: [tryConnectWhileAp] against the specified retry logic *)

(** C2 fails on the code: [tryConnectWhileAp] never reads [maxRetries]. It
    makes one attempt and has no backoff. Called with [maxRetries = 5] on a
    network that comes into reach during what would be the second attempt,
    it returns false where the specified logic returns true; on a network
    out of reach it begins one connection where the specified logic begins
    five. *)
Theorem coexisting_connect_ignores_retries :
  (forall w ssid pass m m' timeoutMs s,
     tryConnectWhileAp w ssid pass m timeoutMs s =
     tryConnectWhileAp w ssid pass m' timeoutMs s) /\
  valueOf (tryConnectWhileAp connectsLate "HomeNet" "12345678" 5 10000 (powerOn ∅ 0 []))
    = Some false /\
  valueOf (connectCoexisting_spec connectsLate "HomeNet" "12345678" 5 10000 (powerOn ∅ 0 []))
    = Some true /\
  beginsOf (trace (stateOf (tryConnectWhileAp neverConnects "HomeNet" "12345678" 5 10000
                              (powerOn ∅ 0 []))))
    = repeat ("HomeNet", "12345678") 1 /\
  beginsOf (trace (stateOf (connectCoexisting_spec neverConnects "HomeNet" "12345678" 5 10000
                              (powerOn ∅ 0 []))))
    = repeat ("HomeNet", "12345678") 5.
Proof.
  split; [intros; reflexivity|].
  repeat split; vm_compute; reflexivity.
Qed.

(** ** C4: the scheduled shutdown of the access point *)

Section SaveAndShutdown.

Variable w : World.

Lemma idleRetry_skip s :
  wrap32 (wrap32 (uptime s) - lastHttpActivityMs s) <= AP_IDLE_TIMEOUT_MS ->
  idleRetry w s = Ret tt s.
Proof.
  intros Hidle. unfold idleRetry. sketch_step.
  replace (_ >? AP_IDLE_TIMEOUT_MS) with false
    by (symmetry; rewrite Z.gtb_ltb; apply Z.ltb_ge; exact Hidle).
  reflexivity.
Qed.

(** A valid save whose first status poll finds the connection. *)
Lemma handleSave_connected ssid pass s :
  strlen ssid <> 0 -> 8 <= strlen pass ->
  wl_status w (polls s) = true ->
  exists s',
    handleSave w (saveRequest ssid pass) s = Ret tt s' /\
    runState s' = CONNECTED /\
    apShutdownAt s' = wrap32 (wrap32 (uptime s) + 40000) /\
    lastHttpActivityMs s' = wrap32 (uptime s) /\
    uptime s' = uptime s /\ serverUp s' = serverUp s /\ dnsUp s' = dnsUp s /\
    trace s' = trace s ++ [EvPutString "ssid" ssid; EvPutString "pass" pass;
                           EvPutUChar "prov" 1;
                           EvWifiMode WIFI_AP_STA; EvWifiBegin ssid pass; EvWifiStatus true;
                           EvSend 200 "text/html" (connectedBody w ssid)].
Proof.
  intros Hs Hp Hc. unfold handleSave.
  change (server_arg (req_args (saveRequest ssid pass)) "ssid") with ssid.
  change (server_arg (req_args (saveRequest ssid pass)) "pass") with pass.
  replace ((strlen ssid =? 0) || (strlen pass <? 8)) with false
    by (symmetry; apply orb_false_iff; split; lia).
  destruct s. dev_simpl_in Hc. dev_simpl.
  unfold saveCredentialsToNVS, touchHttpActivity, showConnected. sketch_run.
  match goal with |- context [tryConnectWhileAp w ?a ?b ?m _ ?s1] =>
    destruct (tryConnectWhileAp_spec w a b m s1) as (k & b' & Heq & Hno & Hk);
    rewrite Heq; clear Heq
  end.
  dev_simpl_in Hno. dev_simpl_in Hk.
  assert (k = 0%nat) as ->.
  { destruct k as [|k]; [reflexivity|].
    specialize (Hno 0%nat ltac:(lia)). rewrite Nat.add_0_r, Hc in Hno. discriminate. }
  destruct b'; [|discriminate].
  unfold afterPolls, beganWhileAp, connectedBody. sketch_run.
  eexists. split; [reflexivity|]. sketch_run.
  rewrite <- !app_assoc, Z.add_0_r. cbn [app].
  repeat split; reflexivity.
Qed.

(** The pass that serves such a save: the deadline it writes is serviced
    by the shutdown check of the same pass. *)
Lemma save_pass ssid pass s :
  strlen ssid <> 0 -> 8 <= strlen pass ->
  runState s = AP_SETUP -> serverUp s = true ->
  wl_status w (polls s) = true ->
  exists s',
    loop w (saveTick ssid pass) s = Ret tt s' /\
    runState s' = CONNECTED /\ uptime s' = uptime s + 20 /\
    In (EvSend 200 "text/html" (connectedBody w ssid)) (trace s') /\
    let deadline := wrap32 (wrap32 (uptime s) + 40000) in
    if negb (deadline =? 0) && (wrap32 (uptime s) >=? deadline)
    then apShutdownAt s' = 0 /\ serverUp s' = false /\ dnsUp s' = false
    else apShutdownAt s' = deadline /\ serverUp s' = true /\ dnsUp s' = dnsUp s.
Proof.
  intros Hs Hp Hrs Hup Hc.
  destruct (showPattern_setup s Hrs) as (a1 & a2 & p & t & Hshow).
  remember (set_setupPhaseStartMs t (set_setupPhase p (set_led02 a2 (set_led01 a1 s))))
    as s1 eqn:Es1.
  assert (F : runState s1 = runState s /\ serverUp s1 = serverUp s /\ dnsUp s1 = dnsUp s /\
              uptime s1 = uptime s /\ polls s1 = polls s /\ trace s1 = trace s)
    by (subst s1; dev_simpl; repeat split; reflexivity).
  clear Es1. destruct F as (F1 & F2 & F3 & F4 & F5 & F6).
  destruct (handleSave_connected ssid pass s1 Hs Hp ltac:(rewrite F5; exact Hc))
    as (s2 & Hsave & G1 & G2 & G3 & G4 & G5 & G6 & G7).
  assert (Hsvc : serviceAp w (saveTick ssid pass) s1 = Ret tt s2).
  { unfold serviceAp, server_handleClient.
    change (client (saveTick ssid pass)) with (Some (saveRequest ssid pass)).
    sketch_step. rewrite F1, Hrs, F2, Hup.
    change (route w (networks (saveTick ssid pass)) (saveRequest ssid pass))
      with (handleSave w (saveRequest ssid pass)).
    rewrite Hsave. apply idleRetry_skip.
    rewrite G3, G4, wrap32_elapsed_0. unfold AP_IDLE_TIMEOUT_MS. lia. }
  destruct (maybeShutdown_cases s2) as (s3 & Hshut & _).
  assert (Hshut' : maybeShutdown s2 =
            Ret tt (if negb (apShutdownAt s2 =? 0) && (wrap32 (uptime s2) >=? apShutdownAt s2)
                    then set_apShutdownAt 0
                           (set_dnsUp false
                              (set_trace (trace s2 ++ [EvServerStop; EvDnsStop])
                                 (set_serverUp false s2)))
                    else s2)).
  { unfold maybeShutdown, stopCaptiveAP. sketch_step. rewrite G1.
    destruct (_ && _); [|reflexivity]. apply Ret_eq.
    destruct s2; sketch_run. rewrite <- app_assoc. reflexivity. }
  clear s3 Hshut.
  unfold loop. unfold bind at 1. rewrite Hshow.
  unfold bind at 1. rewrite Hsvc.
  unfold bind at 1. rewrite Hshut'.
  change (push01 (saveTick ssid pass)) with HIGH.
  unfold bind. rewrite factoryResetCheck_HIGH. unfold delay, modify.
  eexists. split; [reflexivity|]. cbn zeta.
  rewrite G2, G4, F4.
  destruct (negb (wrap32 (wrap32 (uptime s) + 40000) =? 0) &&
            (wrap32 (uptime s) >=? wrap32 (wrap32 (uptime s) + 40000))); dev_simpl.
  - rewrite G1, G4, F4, G7, F6. repeat split; try reflexivity.
    rewrite <- !app_assoc. cbn [app]. apply in_or_app. right. cbn. tauto.
  - rewrite G1, G2, G4, F4, G5, F2, G6, F3, G7, F6. repeat split; try assumption.
    rewrite <- !app_assoc. cbn [app]. apply in_or_app. right. cbn. tauto.
Qed.

(** A pass that serves the page's status poll: 20 ms, and the idle timer
    starts afresh. *)
Lemma status_pass s :
  runState s = AP_SETUP -> serverUp s = true ->
  exists s',
    loop w statusTick s = Ret tt s' /\
    runState s' = AP_SETUP /\ serverUp s' = true /\ dnsUp s' = dnsUp s /\
    polls s' = polls s /\ uptime s' = uptime s + 20.
Proof.
  intros Hrs Hup.
  destruct (showPattern_setup s Hrs) as (a1 & a2 & p & t & Hshow).
  unfold loop. unfold bind at 1. rewrite Hshow.
  destruct s. dev_simpl_in Hrs. dev_simpl_in Hup. subst.
  unfold serviceAp, server_handleClient, maybeShutdown, factoryResetCheck.
  change (client statusTick) with (Some (mkRequest HTTP_GET "/status" [])).
  change (push01 statusTick) with HIGH.
  sketch_run.
  change (route w (networks statusTick) (mkRequest HTTP_GET "/status" []))
    with (handleStatus w).
  unfold handleStatus, touchHttpActivity. sketch_run.
  rewrite idleRetry_skip
    by (dev_simpl; rewrite wrap32_elapsed_0; unfold AP_IDLE_TIMEOUT_MS; lia).
  sketch_run. eexists. split; [reflexivity|]. sketch_run. repeat split; reflexivity.
Qed.

(** With the setup page open, the device stays in setup mode for as long
    as one likes. *)
Lemma status_passes (n : nat) : forall s,
  reachable w s -> runState s = AP_SETUP -> serverUp s = true ->
  exists s',
    reachable w s' /\ runState s' = AP_SETUP /\ serverUp s' = true /\
    dnsUp s' = dnsUp s /\ polls s' = polls s /\ uptime s' = uptime s + 20 * Z.of_nat n.
Proof.
  induction n as [|n IH]; intros s Hr Hrs Hup.
  - exists s. repeat split; auto. lia.
  - destruct (status_pass s Hrs Hup) as (s1 & Heq & H1 & H2 & H3 & H4 & H5).
    destruct (IH s1 (reach_loop w s statusTick s1 Hr Heq) H1 H2)
      as (s' & R & K1 & K2 & K3 & K4 & K5).
    exists s'. repeat split; auto; try congruence. lia.
Qed.

End SaveAndShutdown.

Lemma setupModeDevice_reachable : reachable connectsAfterSetup setupModeDevice.
Proof. apply reach_setup with (p := ∅). vm_compute. reflexivity. Defined.

(** C4 fails on the code when the 32-bit clock wraps within the 40
    seconds: [apShutdownAt = millis() + 40000] is then a small number, and
    [millis() >= apShutdownAt] holds at once. A device that has been in
    setup mode for 4294927300 ms (49.7 days, the setup page open and
    polling /status) and then receives a valid save that connects answers
    200, becomes CONNECTED and stops the HTTP and DNS services in the same
    pass of [loop], 20 ms later and not 40 s later. *)
Theorem save_shutdown_deadline_wraps :
  exists s s',
    reachable connectsAfterSetup s /\
    runState s = AP_SETUP /\ serverUp s = true /\ dnsUp s = true /\
    uptime s = 4294927300 /\
    loop connectsAfterSetup (saveTick "HomeNet" "12345678") s = Ret tt s' /\
    In (EvSend 200 "text/html" (connectedBody connectsAfterSetup "HomeNet")) (trace s') /\
    runState s' = CONNECTED /\
    uptime s' = uptime s + 20 /\
    serverUp s' = false /\ dnsUp s' = false.
Proof.
  destruct (status_passes connectsAfterSetup (Z.to_nat 214742702) setupModeDevice
              setupModeDevice_reachable)
    as (s & Hr & Hrs & Hup & Hdns & Hpolls & Hu);
    [vm_compute; reflexivity | vm_compute; reflexivity |].
  rewrite Z2Nat.id in Hu by lia.
  change (uptime setupModeDevice) with 73260 in Hu.
  change (dnsUp setupModeDevice) with true in Hdns.
  change (polls setupModeDevice) with 500%nat in Hpolls.
  assert (Hu' : uptime s = 4294927300) by (rewrite Hu; reflexivity).
  destruct (save_pass connectsAfterSetup "HomeNet" "12345678" s)
    as (s' & Heq & K1 & K2 & K3 & K4);
    [vm_compute; discriminate | vm_compute; discriminate | exact Hrs | exact Hup
    | rewrite Hpolls; reflexivity |].
  cbn zeta in K4. rewrite Hu' in K4.
  change (negb (wrap32 (wrap32 4294927300 + 40000) =? 0) &&
          (wrap32 4294927300 >=? wrap32 (wrap32 4294927300 + 40000))) with true in K4.
  cbv iota in K4. destruct K4 as (_ & K5 & K6).
  exists s, s'. repeat split; assumption.
Qed.

(** The claim's reading of the deadline holds while the clock does not
    wrap within the 40 seconds: the save pass leaves the services up and
    the deadline 40 s after the connection, and (by [loop_connected]) the
    first later pass that finds [millis()] at or past it stops them. *)
Lemma save_schedules_shutdown w ssid pass s :
  strlen ssid <> 0 -> 8 <= strlen pass ->
  runState s = AP_SETUP -> serverUp s = true ->
  wl_status w (polls s) = true ->
  0 <= uptime s -> 0 < uptime s mod 2 ^ 32 + 40000 < 2 ^ 32 ->
  exists s',
    loop w (saveTick ssid pass) s = Ret tt s' /\
    runState s' = CONNECTED /\
    In (EvSend 200 "text/html" (connectedBody w ssid)) (trace s') /\
    apShutdownAt s' = wrap32 (uptime s) + 40000 /\
    serverUp s' = true /\ dnsUp s' = dnsUp s.
Proof.
  intros Hs Hp Hrs Hup Hc Hu Hnowrap.
  destruct (save_pass w ssid pass s Hs Hp Hrs Hup Hc) as (s' & Heq & K1 & K2 & K3 & K4).
  cbn zeta in K4. fold (wrap32 (uptime s)) in Hnowrap.
  pose proof (wrap32_range (uptime s)) as Hr.
  rewrite (wrap32_small (wrap32 (uptime s) + 40000)) in K4 by lia.
  destruct (Z.geb_spec (wrap32 (uptime s)) (wrap32 (uptime s) + 40000)) as [Hge|_]; [lia|].
  rewrite andb_false_r in K4. destruct K4 as (K4 & K5 & K6).
  exists s'. repeat split; assumption.
Qed.

Lemma idle_retry_keeps_ap_witness :
  runState idleDevice = AP_SETUP /\
  (client quietTick = None \/ serverUp idleDevice = false) /\
  wrap32 (wrap32 (uptime idleDevice) - lastHttpActivityMs idleDevice) > AP_IDLE_TIMEOUT_MS /\
  exists (k : nat) (b : bool),
    (forall j, (j < k)%nat -> wl_status neverConnects (polls idleDevice + j) = false) /\
    (if b then wl_status neverConnects (polls idleDevice + k) = true /\ (k < 100)%nat
     else k = 100%nat) /\
    wp (loop neverConnects quietTick)
       (fun _ s' => idleRetried k b idleDevice s') (idleRetried k b idleDevice) idleDevice.
Proof.
  assert (H1 : runState idleDevice = AP_SETUP) by (vm_compute; reflexivity).
  assert (H2 : client quietTick = None \/ serverUp idleDevice = false) by (left; reflexivity).
  assert (H3 : wrap32 (wrap32 (uptime idleDevice) - lastHttpActivityMs idleDevice)
               > AP_IDLE_TIMEOUT_MS) by (vm_compute; reflexivity).
  split; [exact H1|]. split; [exact H2|]. split; [exact H3|].
  exact (idle_retry_keeps_ap neverConnects quietTick idleDevice H1 H2 H3).
Defined.

(** The retry of that pass fails, and the access point is as before. *)
Example idle_retry_example :
  exists s',
    loop neverConnects quietTick idleDevice = Ret tt s' /\
    runState s' = AP_SETUP /\ serverUp s' = true /\ dnsUp s' = true /\
    apShutdownAt s' = 0 /\ lastHttpActivityMs s' = wrap32 (uptime idleDevice) /\
    beginsOf (skipn (length (trace idleDevice)) (trace s')) = [(DUMMY_SSID, DUMMY_PASS)].
Proof. eexists. split; [vm_compute; reflexivity|]. vm_compute. repeat split; reflexivity. Qed.
(** * Further properties of the sketch *)

(** ** The name of the access point *)

Lemma substring_whole (x : string) : substring 0 (String.length x) x = x.
Proof. induction x as [|c x IH]; [reflexivity|]. cbn. rewrite IH. reflexivity. Qed.

Lemma substring_cut (x : string) : forall k,
  (k <= String.length x)%nat ->
  x = substring 0 k x +:+ substring k (String.length x - k) x.
Proof.
  induction x as [|c x IH]; intros k Hk.
  - destruct k; [reflexivity | cbn in Hk; lia].
  - destruct k as [|k].
    + cbn [substring String.append]. change (String.length (String c x) - 0)%nat
        with (S (String.length x)). cbn [substring]. rewrite substring_whole. reflexivity.
    + cbn [substring String.length Nat.sub]. change (String c (substring 0 k x) +:+ ?y)
        with (String c (substring 0 k x +:+ y)). f_equal. apply IH.
      cbn in Hk. lia.
Qed.

Lemma substring_tail_length (x : string) : forall k,
  (k <= String.length x)%nat ->
  String.length (substring k (String.length x - k) x) = (String.length x - k)%nat.
Proof.
  induction x as [|c x IH]; intros k Hk.
  - destruct k; reflexivity.
  - destruct k as [|k].
    + change (String.length (String c x) - 0)%nat with (S (String.length x)).
      cbn [substring String.length]. rewrite substring_whole. reflexivity.
    + cbn [substring String.length Nat.sub]. apply IH. cbn in Hk. lia.
Qed.

Lemma upperChar_idem c : upperChar (upperChar c) = upperChar c.
Proof. destruct c as [[] [] [] [] [] [] [] []]; vm_compute; reflexivity. Qed.

Lemma upperChar_colon c : Ascii.eqb (upperChar c) ":" = Ascii.eqb c ":".
Proof. destruct c as [[] [] [] [] [] [] [] []]; vm_compute; reflexivity. Qed.

Lemma toUpperCase_idem x : toUpperCase (toUpperCase x) = toUpperCase x.
Proof.
  induction x as [|c x IH]; [reflexivity|].
  cbn [toUpperCase]. rewrite upperChar_idem, IH. reflexivity.
Qed.

Lemma toUpperCase_substring x : forall n m,
  toUpperCase (substring n m x) = substring n m (toUpperCase x).
Proof.
  induction x as [|c x IH]; intros n m.
  - destruct n, m; reflexivity.
  - destruct n as [|n]; [destruct m as [|m]|]; cbn [substring toUpperCase].
    + reflexivity.
    + rewrite IH. reflexivity.
    + apply IH.
Qed.

Lemma stripColons_upper x :
  stripColons (toUpperCase (stripColons x)) = toUpperCase (stripColons x).
Proof.
  induction x as [|c x IH]; [reflexivity|].
  cbn [stripColons]. destruct (Ascii.eqb c ":") eqn:Hc; [exact IH|].
  cbn [toUpperCase stripColons]. rewrite upperChar_colon, Hc, IH. reflexivity.
Qed.

Lemma stripColons_length x : (String.length (stripColons x) <= String.length x)%nat.
Proof.
  induction x as [|c x IH]; [reflexivity|].
  cbn [stripColons]. destruct (Ascii.eqb c ":"); cbn [String.length]; lia.
Qed.

(** A string without colons has none in any of its substrings. *)
Lemma stripColons_substring x : forall n m,
  stripColons x = x -> stripColons (substring n m x) = substring n m x.
Proof.
  induction x as [|c x IH]; intros n m Hx.
  - destruct n, m; reflexivity.
  - cbn [stripColons] in Hx. destruct (Ascii.eqb c ":") eqn:Hc.
    + pose proof (stripColons_length x) as Hl. rewrite Hx in Hl. cbn in Hl. lia.
    + injection Hx as Hx.
      destruct n as [|n]; [destruct m as [|m]|]; cbn [substring stripColons].
      * reflexivity.
      * rewrite Hc, (IH 0%nat m Hx). reflexivity.
      * apply IH, Hx.
Qed.

(** X1. [last4MacHex] returns the last four characters of the address
    with its colons removed and its letters in upper case, or all of them
    when there are fewer than four; the result holds no colon and no
    lower-case letter. *)
Theorem last4MacHex_suffix w :
  let hex := toUpperCase (stripColons (mac_address w)) in
  (exists pre, hex = pre +:+ last4MacHex w) /\
  String.length (last4MacHex w) = Nat.min 4 (String.length hex) /\
  stripColons (last4MacHex w) = last4MacHex w /\
  toUpperCase (last4MacHex w) = last4MacHex w.
Proof.
  intros hex. unfold last4MacHex. fold hex.
  assert (Hs : stripColons hex = hex) by apply stripColons_upper.
  assert (Hu : toUpperCase hex = hex) by apply toUpperCase_idem.
  destruct (Nat.leb_spec 4 (String.length hex)) as [Hge|Hlt].
  - assert (Hk : (String.length hex - 4 <= String.length hex)%nat) by lia.
    assert (H4 : (String.length hex - (String.length hex - 4) = 4)%nat) by lia.
    pose proof (substring_cut hex _ Hk) as Hcut.
    pose proof (substring_tail_length hex _ Hk) as Hlen.
    rewrite H4 in Hcut, Hlen.
    split; [|split; [|split]].
    + eexists. exact Hcut.
    + rewrite Hlen. lia.
    + apply stripColons_substring, Hs.
    + rewrite toUpperCase_substring, Hu. reflexivity.
  - split; [exists EmptyString; reflexivity|]. split; [lia|]. split; assumption.
Qed.

(** With the address in the usual form the suffix is the last two octets. *)
Example last4MacHex_example :
  last4MacHex (mkWorld (fun _ => false) "10.0.0.7" "24:6f:28:aa:b1:c2" "<html>") = "B1C2".
Proof. reflexivity. Qed.

(** ** The connection attempts *)

Lemma div_ceil_100 t : 0 <= t -> 100 * ((t + 99) / 100) - 99 <= t <= 100 * ((t + 99) / 100).
Proof.
  intros Ht. pose proof (Z.div_mod (t + 99) 100 ltac:(lia)) as Hd.
  pose proof (Z.mod_pos_bound (t + 99) 100 ltac:(lia)) as Hm. lia.
Qed.

(** The polling loop returns at the first poll that reports the
    connection, and gives up after the polls that fit into the timeout. *)
Lemma pollStatus_first w timeoutMs s :
  0 <= timeoutMs <= 2 ^ 32 - 100 ->
  let N := Z.to_nat ((timeoutMs + 99) / 100) in
  ((forall j, (j < N)%nat -> wl_status w (polls s + j) = false) ->
   pollStatus w (pollFuel timeoutMs) (wrap32 (uptime s)) timeoutMs s =
     Ret false (afterPolls N false s)) /\
  (forall k, (k < N)%nat -> wl_status w (polls s + k) = true ->
     (forall j, (j < k)%nat -> wl_status w (polls s + j) = false) ->
     pollStatus w (pollFuel timeoutMs) (wrap32 (uptime s)) timeoutMs s =
       Ret true (afterPolls k true s)).
Proof.
  intros Ht N.
  destruct (pollStatus_fresh w timeoutMs s ltac:(lia)) as (k & b & Heq & Hno & Hb & Hk).
  pose proof (div_ceil_100 timeoutMs ltac:(lia)) as Hc.
  assert (HN : Z.of_nat N = (timeoutMs + 99) / 100)
    by (unfold N; apply Z2Nat.id, Z.div_pos; lia).
  split.
  - intros Hall. destruct b.
    + destruct Hb as [Hb Hlt]. rewrite Hall in Hb by lia. discriminate.
    + assert (k = N) as -> by lia. exact Heq.
  - intros k0 Hk0 Htrue Hfirst. destruct b.
    + destruct Hb as [Hb _].
      assert (k = k0) as ->; [|exact Heq].
      destruct (Nat.lt_trichotomy k k0) as [Hlt | [Heq' | Hgt]]; [|exact Heq'|].
      * rewrite Hfirst in Hb by exact Hlt. discriminate.
      * rewrite Hno in Htrue by exact Hgt. discriminate.
    + rewrite Hno in Htrue by lia. discriminate.
Qed.

(** X2. [tryConnectWhileAp], for a timeout of [timeoutMs]: it switches
    the radio to AP+STA, begins one connection and polls the status every
    100 ms. It returns true at the first poll that reports the connection,
    if that is among the first [ceil (timeoutMs / 100)] polls, and false
    after exactly that many polls otherwise; the elapsed time is measured
    by subtraction of 32-bit clock values and is right at every uptime. *)
Theorem coexisting_attempt_outcome w ssid pass maxRetries timeoutMs s :
  0 <= timeoutMs <= 2 ^ 32 - 100 ->
  let N := Z.to_nat ((timeoutMs + 99) / 100) in
  ((forall j, (j < N)%nat -> wl_status w (polls s + j) = false) ->
   tryConnectWhileAp w ssid pass maxRetries timeoutMs s =
     Ret false (afterPolls N false (beganWhileAp ssid pass s))) /\
  (forall k, (k < N)%nat -> wl_status w (polls s + k) = true ->
     (forall j, (j < k)%nat -> wl_status w (polls s + j) = false) ->
     tryConnectWhileAp w ssid pass maxRetries timeoutMs s =
       Ret true (afterPolls k true (beganWhileAp ssid pass s))).
Proof.
  intros Ht N.
  assert (Hrun : tryConnectWhileAp w ssid pass maxRetries timeoutMs s =
                 pollStatus w (pollFuel timeoutMs) (wrap32 (uptime (beganWhileAp ssid pass s)))
                   timeoutMs (beganWhileAp ssid pass s)).
  { unfold tryConnectWhileAp. sketch_step. f_equal.
    destruct s; unfold beganWhileAp; dev_unfold. rewrite <- app_assoc. reflexivity. }
  rewrite Hrun.
  destruct (pollStatus_first w timeoutMs (beganWhileAp ssid pass s) Ht) as [H1 H2].
  split; [exact H1 | exact H2].
Qed.

Lemma coexisting_attempt_outcome_witness :
  0 <= CONNECT_TIMEOUT_MS <= 2 ^ 32 - 100 /\
  (forall j, (j < 100)%nat -> wl_status neverConnects (polls (powerOn ∅ 0 []) + j) = false) /\
  tryConnectWhileAp neverConnects "HomeNet" "12345678" 1 CONNECT_TIMEOUT_MS (powerOn ∅ 0 []) =
    Ret false (afterPolls 100 false (beganWhileAp "HomeNet" "12345678" (powerOn ∅ 0 []))) /\
  (42 < 100)%nat /\
  wl_status (connectsAtPoll 42) (polls (powerOn ∅ 0 []) + 42) = true /\
  (forall j, (j < 42)%nat -> wl_status (connectsAtPoll 42) (polls (powerOn ∅ 0 []) + j) = false) /\
  tryConnectWhileAp (connectsAtPoll 42) "HomeNet" "12345678" 1 CONNECT_TIMEOUT_MS
      (powerOn ∅ 0 []) =
    Ret true (afterPolls 42 true (beganWhileAp "HomeNet" "12345678" (powerOn ∅ 0 []))).
Proof.
  assert (Ht : 0 <= CONNECT_TIMEOUT_MS <= 2 ^ 32 - 100) by (unfold CONNECT_TIMEOUT_MS; lia).
  assert (Hno : forall j, (j < 100)%nat ->
                  wl_status neverConnects (polls (powerOn ∅ 0 []) + j) = false)
    by (intros j _; reflexivity).
  assert (Hlt : (42 < 100)%nat) by lia.
  assert (Hyes : wl_status (connectsAtPoll 42) (polls (powerOn ∅ 0 []) + 42) = true)
    by reflexivity.
  assert (Hno' : forall j, (j < 42)%nat ->
                   wl_status (connectsAtPoll 42) (polls (powerOn ∅ 0 []) + j) = false)
    by (intros j Hj; apply Nat.leb_gt; exact Hj).
  split; [exact Ht|]. split; [exact Hno|]. split.
  - exact (proj1 (coexisting_attempt_outcome neverConnects "HomeNet" "12345678" 1
                    CONNECT_TIMEOUT_MS (powerOn ∅ 0 []) Ht) Hno).
  - split; [exact Hlt|]. split; [exact Hyes|]. split; [exact Hno'|].
    exact (proj2 (coexisting_attempt_outcome (connectsAtPoll 42) "HomeNet" "12345678" 1
                    CONNECT_TIMEOUT_MS (powerOn ∅ 0 []) Ht) 42%nat Hlt Hyes Hno').
Defined.

Lemma first_connected (f : nat -> bool) : forall N : nat,
  (forall j, (j < N)%nat -> f j = false) \/
  exists k, (k < N)%nat /\ f k = true /\ forall j, (j < k)%nat -> f j = false.
Proof.
  induction N as [|N [IH | (k & Hk & Ht & Hf)]].
  - left. intros j Hj. lia.
  - destruct (f N) eqn:HN.
    + right. exists N. split; [lia|]. split; [exact HN | exact IH].
    + left. intros j Hj. destruct (Nat.eq_dec j N) as [->|Hne]; [exact HN | apply IH; lia].
  - right. exists k. split; [lia|]. split; assumption.
Qed.

Lemma beginsOf_failedAttempts ssid pass : forall q attempt,
  beginsOf (failedAttempts ssid pass attempt q) = repeat (ssid, pass) q.
Proof.
  induction q as [|q IH]; intros attempt; [reflexivity|].
  cbn [failedAttempts]. unfold attemptEvents.
  rewrite !beginsOf_app, beginsOf_pollEvents, IH. reflexivity.
Qed.

Lemma backoffTotal_range q : (q <= 5)%nat -> 0 <= backoffTotal 0 q <= 23000.
Proof.
  intros Hq. do 6 (destruct q as [|q]; [vm_compute; split; discriminate|]). lia.
Qed.

Lemma backoffTotal_before_last q : (q <= 4)%nat -> 0 <= backoffTotal 0 q <= 15000.
Proof.
  intros Hq. do 5 (destruct q as [|q]; [vm_compute; split; discriminate|]). lia.
Qed.

Section StationAttempts.

Variable w : World.

(** One attempt during which no poll reports the connection. *)
Lemma attempt_times_out fuel ssid pass maxRetries attempt s :
  attempt < maxRetries ->
  (forall j, (j < 100)%nat -> wl_status w (polls s + j) = false) ->
  stationAttempts w (S fuel) ssid pass maxRetries CONNECT_TIMEOUT_MS attempt s =
  stationAttempts w fuel ssid pass maxRetries CONNECT_TIMEOUT_MS (attempt + 1)
    (radioUpdate WIFI_STA (polls s + 100) (uptime s + (10050 + backoffMs attempt))
       (trace s ++ attemptEvents ssid pass ++ [EvDelay (backoffMs attempt)]) s).
Proof.
  intros Hlt Hno. rewrite stationAttempts_S.
  replace (attempt <? maxRetries) with true by (symmetry; apply Z.ltb_lt; exact Hlt).
  destruct s. dev_simpl_in Hno. sketch_run.
  match goal with |- context [pollStatus w _ _ _ ?s1] =>
    destruct (pollStatus_first w CONNECT_TIMEOUT_MS s1 ltac:(unfold CONNECT_TIMEOUT_MS; lia))
      as [Hpoll _];
    dev_simpl_in Hpoll; rewrite Hpoll by exact Hno; clear Hpoll
  end.
  change (Z.to_nat ((CONNECT_TIMEOUT_MS + 99) / 100)) with 100%nat.
  unfold afterPolls. fold (backoffMs attempt). sketch_run.
  f_equal. unfold radioUpdate, attemptEvents. sketch_run.
  rewrite <- !app_assoc. cbn [app]. f_equal; lia.
Qed.

(** The attempt whose poll number [r] is the first to report it. *)
Lemma attempt_connects fuel ssid pass maxRetries attempt s (r : nat) :
  attempt < maxRetries -> (r < 100)%nat ->
  wl_status w (polls s + r) = true ->
  (forall j, (j < r)%nat -> wl_status w (polls s + j) = false) ->
  stationAttempts w (S fuel) ssid pass maxRetries CONNECT_TIMEOUT_MS attempt s =
  Ret true (radioUpdate WIFI_STA (polls s + r + 1) (uptime s + (50 + 100 * Z.of_nat r))
              (trace s ++ connectingAttempt ssid pass r) s).
Proof.
  intros Hlt Hr Hyes Hno. rewrite stationAttempts_S.
  replace (attempt <? maxRetries) with true by (symmetry; apply Z.ltb_lt; exact Hlt).
  destruct s. dev_simpl_in Hno. dev_simpl_in Hyes. sketch_run.
  match goal with |- context [pollStatus w _ _ _ ?s1] =>
    destruct (pollStatus_first w CONNECT_TIMEOUT_MS s1 ltac:(unfold CONNECT_TIMEOUT_MS; lia))
      as [_ Hpoll];
    dev_simpl_in Hpoll; rewrite (Hpoll r) by assumption; clear Hpoll
  end.
  unfold afterPolls. sketch_run.
  apply Ret_eq. unfold radioUpdate, connectingAttempt. sketch_run.
  rewrite <- !app_assoc. cbn [app]. f_equal; lia.
Qed.

Lemma attempts_then_connect ssid pass maxRetries (r : nat) :
  (r < 100)%nat ->
  forall (q fuel : nat) attempt s,
    (q <= fuel)%nat -> attempt + Z.of_nat q < maxRetries ->
    (forall j, (j < 100 * q + r)%nat -> wl_status w (polls s + j) = false) ->
    wl_status w (polls s + (100 * q + r)) = true ->
    stationAttempts w (S fuel) ssid pass maxRetries CONNECT_TIMEOUT_MS attempt s =
    Ret true
      (radioUpdate WIFI_STA (polls s + (100 * q + r) + 1)
         (uptime s + (10050 * Z.of_nat q + backoffTotal attempt q + 50 + 100 * Z.of_nat r))
         (trace s ++ failedAttempts ssid pass attempt q ++ connectingAttempt ssid pass r) s).
Proof.
  intros Hr. induction q as [|q IH]; intros fuel attempt s Hfuel Hlt Hno Hyes.
  - rewrite Nat.mul_0_r, Nat.add_0_l in Hyes.
    assert (Hno' : forall j, (j < r)%nat -> wl_status w (polls s + j) = false)
      by (intros j Hj; apply Hno; lia).
    rewrite (attempt_connects fuel ssid pass maxRetries attempt s r ltac:(lia) Hr Hyes Hno').
    apply Ret_eq. cbn [failedAttempts backoffTotal app].
    clear. destruct s; unfold radioUpdate; dev_unfold. f_equal; lia.
  - destruct fuel as [|fuel]; [lia|].
    rewrite attempt_times_out; [|lia|intros j Hj; apply Hno; lia].
    rewrite IH; [|lia|lia| |].
    + apply Ret_eq. rewrite radioUpdate_twice. clear. destruct s; unfold radioUpdate; dev_unfold.
      cbn [failedAttempts backoffTotal]. rewrite <- !app_assoc. f_equal; lia.
    + unfold radioUpdate. dev_simpl. intros j Hj.
      replace (polls s + 100 + j)%nat with (polls s + (100 + j))%nat by lia. apply Hno. lia.
    + unfold radioUpdate. dev_simpl.
      replace (polls s + 100 + (100 * q + r))%nat with (polls s + (100 * S q + r))%nat by lia.
      exact Hyes.
Qed.

Lemma attempts_all_fail ssid pass maxRetries :
  forall (q fuel : nat) attempt s,
    (q <= fuel)%nat -> attempt + Z.of_nat q = maxRetries ->
    (forall j, (j < 100 * q)%nat -> wl_status w (polls s + j) = false) ->
    stationAttempts w (S fuel) ssid pass maxRetries CONNECT_TIMEOUT_MS attempt s =
    Ret false
      (radioUpdate (match q with O => wifiMode s | S _ => WIFI_STA end) (polls s + 100 * q)
         (uptime s + (10050 * Z.of_nat q + backoffTotal attempt q))
         (trace s ++ failedAttempts ssid pass attempt q) s).
Proof.
  induction q as [|q IH]; intros fuel attempt s Hfuel Hlt Hno.
  - rewrite stationAttempts_S.
    replace (attempt <? maxRetries) with false by (symmetry; apply Z.ltb_ge; lia).
    unfold ret. apply Ret_eq. cbn [failedAttempts backoffTotal].
    rewrite Nat.mul_0_r, Nat.add_0_r, app_nil_r.
    replace (uptime s + (10050 * Z.of_nat 0 + 0)) with (uptime s) by lia.
    symmetry. apply radioUpdate_id.
  - destruct fuel as [|fuel]; [lia|].
    rewrite attempt_times_out; [|lia|intros j Hj; apply Hno; lia].
    rewrite IH; [|lia|lia|].
    + apply Ret_eq. rewrite radioUpdate_twice.
      replace (match q with O => wifiMode _ | S _ => WIFI_STA end) with WIFI_STA
        by (destruct q; reflexivity).
      clear. destruct s; unfold radioUpdate; dev_unfold.
      cbn [failedAttempts backoffTotal]. rewrite <- !app_assoc. f_equal; lia.
    + unfold radioUpdate. dev_simpl. intros j Hj.
      replace (polls s + 100 + j)%nat with (polls s + (100 + j))%nat by lia. apply Hno. lia.
Qed.

End StationAttempts.

(** X3. [tryConnectStation] with the sketch's timeout of 10 s: each attempt
    polls the status up to 100 times, 100 ms apart. When no poll of the
    [maxRetries] attempts reports the connection it returns false after a
    backoff wait behind every attempt; with [maxRetries = 0] it returns
    false at once and leaves the radio alone. When the first report comes
    in attempt [q + 1] at poll [r], it returns true right after that poll:
    [q] timed-out attempts with their waits, then 50 ms and [r] polling
    intervals, and no wait after the success. *)
Theorem station_connect_outcome w ssid pass maxRetries s :
  0 <= maxRetries <= 255 ->
  ((forall j, (j < 100 * Z.to_nat maxRetries)%nat -> wl_status w (polls s + j) = false) ->
   tryConnectStation w ssid pass maxRetries CONNECT_TIMEOUT_MS s =
     Ret false
       (radioUpdate (if maxRetries =? 0 then wifiMode s else WIFI_STA)
          (polls s + 100 * Z.to_nat maxRetries)
          (uptime s + (10050 * maxRetries + backoffTotal 0 (Z.to_nat maxRetries)))
          (trace s ++ failedAttempts ssid pass 0 (Z.to_nat maxRetries)) s)) /\
  (forall q r : nat,
     Z.of_nat q < maxRetries -> (r < 100)%nat ->
     (forall j, (j < 100 * q + r)%nat -> wl_status w (polls s + j) = false) ->
     wl_status w (polls s + (100 * q + r)) = true ->
     tryConnectStation w ssid pass maxRetries CONNECT_TIMEOUT_MS s =
       Ret true
         (radioUpdate WIFI_STA (polls s + (100 * q + r) + 1)
            (uptime s + (10050 * Z.of_nat q + backoffTotal 0 q + 50 + 100 * Z.of_nat r))
            (trace s ++ failedAttempts ssid pass 0 q ++ connectingAttempt ssid pass r) s)).
Proof.
  intros Hm. unfold tryConnectStation. split.
  - intros Hno.
    rewrite (attempts_all_fail w ssid pass maxRetries (Z.to_nat maxRetries)); [|lia|lia|exact Hno].
    apply Ret_eq. rewrite Z2Nat.id by lia. f_equal.
    destruct (Z.eqb_spec maxRetries 0) as [->|Hne]; [reflexivity|].
    destruct (Z.to_nat maxRetries) eqn:E; [lia | reflexivity].
  - intros q r Hq Hr Hno Hyes.
    apply (attempts_then_connect w ssid pass maxRetries r Hr q); [lia | lia | exact Hno | exact Hyes].
Qed.

Lemma station_connect_outcome_witness :
  0 <= MAX_RETRIES <= 255 /\
  (forall j, (j < 100 * Z.to_nat MAX_RETRIES)%nat ->
     wl_status neverConnects (polls (powerOn ∅ 0 []) + j) = false) /\
  tryConnectStation neverConnects DUMMY_SSID DUMMY_PASS MAX_RETRIES CONNECT_TIMEOUT_MS
      (powerOn ∅ 0 []) =
    Ret false
      (radioUpdate (if MAX_RETRIES =? 0 then wifiMode (powerOn ∅ 0 []) else WIFI_STA)
         (polls (powerOn ∅ 0 []) + 100 * Z.to_nat MAX_RETRIES)
         (uptime (powerOn ∅ 0 []) +
          (10050 * MAX_RETRIES + backoffTotal 0 (Z.to_nat MAX_RETRIES)))
         (trace (powerOn ∅ 0 []) ++ failedAttempts DUMMY_SSID DUMMY_PASS 0 (Z.to_nat MAX_RETRIES))
         (powerOn ∅ 0 [])) /\
  Z.of_nat 2 < MAX_RETRIES /\ (50 < 100)%nat /\
  (forall j, (j < 100 * 2 + 50)%nat ->
     wl_status (connectsAtPoll 250) (polls (powerOn ∅ 0 []) + j) = false) /\
  wl_status (connectsAtPoll 250) (polls (powerOn ∅ 0 []) + (100 * 2 + 50)) = true /\
  tryConnectStation (connectsAtPoll 250) DUMMY_SSID DUMMY_PASS MAX_RETRIES CONNECT_TIMEOUT_MS
      (powerOn ∅ 0 []) =
    Ret true
      (radioUpdate WIFI_STA (polls (powerOn ∅ 0 []) + (100 * 2 + 50) + 1)
         (uptime (powerOn ∅ 0 []) +
          (10050 * Z.of_nat 2 + backoffTotal 0 2 + 50 + 100 * Z.of_nat 50))
         (trace (powerOn ∅ 0 []) ++ failedAttempts DUMMY_SSID DUMMY_PASS 0 2
            ++ connectingAttempt DUMMY_SSID DUMMY_PASS 50)
         (powerOn ∅ 0 [])).
Proof.
  assert (Hm : 0 <= MAX_RETRIES <= 255) by (unfold MAX_RETRIES; lia).
  assert (Hno : forall j, (j < 100 * Z.to_nat MAX_RETRIES)%nat ->
                  wl_status neverConnects (polls (powerOn ∅ 0 []) + j) = false)
    by (intros j _; reflexivity).
  assert (Hq : Z.of_nat 2 < MAX_RETRIES) by (unfold MAX_RETRIES; lia).
  assert (Hr : (50 < 100)%nat) by lia.
  assert (Hno' : forall j, (j < 100 * 2 + 50)%nat ->
                   wl_status (connectsAtPoll 250) (polls (powerOn ∅ 0 []) + j) = false)
    by (intros j Hj; apply Nat.leb_gt; exact Hj).
  assert (Hyes : wl_status (connectsAtPoll 250) (polls (powerOn ∅ 0 []) + (100 * 2 + 50)) = true)
    by reflexivity.
  split; [exact Hm|]. split; [exact Hno|]. split.
  - exact (proj1 (station_connect_outcome neverConnects DUMMY_SSID DUMMY_PASS MAX_RETRIES
                    (powerOn ∅ 0 []) Hm) Hno).
  - split; [exact Hq|]. split; [exact Hr|]. split; [exact Hno'|]. split; [exact Hyes|].
    exact (proj2 (station_connect_outcome (connectsAtPoll 250) DUMMY_SSID DUMMY_PASS MAX_RETRIES
                    (powerOn ∅ 0 []) Hm) 2%nat 50%nat Hq Hr Hno' Hyes).
Defined.

(** With the radio reporting the connection from its poll 250 on, the call
    returns true in the third attempt, 28150 ms after it began. *)
Example station_connects_in_third_attempt :
  exists s',
    tryConnectStation (connectsAtPoll 250) DUMMY_SSID DUMMY_PASS MAX_RETRIES CONNECT_TIMEOUT_MS
      (powerOn ∅ 0 []) = Ret true s' /\
    uptime s' = 28150 /\ polls s' = 251%nat /\
    beginsOf (trace s') = repeat (DUMMY_SSID, DUMMY_PASS) 3 /\
    backoffWaits (trace s') = [1000; 2000].
Proof. eexists. split; [vm_compute; reflexivity|]. vm_compute. repeat split; reflexivity. Qed.

Lemma failedAttempts_station ssid pass : forall q attempt,
  Forall (stationEvent ssid pass) (failedAttempts ssid pass attempt q).
Proof.
  induction q as [|q IH]; intros attempt; cbn [failedAttempts]; [constructor|].
  unfold attemptEvents. repeat first [apply Forall_app; split | apply pollEvents_station | apply IH].
  - repeat constructor.
  - repeat constructor.
Qed.

Lemma connectingAttempt_station ssid pass r :
  Forall (stationEvent ssid pass) (connectingAttempt ssid pass r).
Proof.
  unfold connectingAttempt.
  repeat first [apply Forall_app; split | apply pollEvents_station]; repeat constructor.
Qed.

Lemma beginsOf_connectingAttempt ssid pass r :
  beginsOf (connectingAttempt ssid pass r) = [(ssid, pass)].
Proof.
  unfold connectingAttempt. rewrite !beginsOf_app, beginsOf_pollEvents. reflexivity.
Qed.

(** What the call of [tryConnectStation] in [setup] can do. *)
Lemma tryConnectStation_cases w ssid pass s :
  exists (b : bool) (n : nat) d evs,
    tryConnectStation w ssid pass MAX_RETRIES CONNECT_TIMEOUT_MS s =
      Ret b (radioUpdate WIFI_STA (polls s + n) (uptime s + d) (trace s ++ evs) s) /\
    (b = true <-> exists j, (j < 500)%nat /\ wl_status w (polls s + j) = true) /\
    (n <= 500)%nat /\
    (if b then 50 <= d <= 65150 else d = 73250) /\
    Forall (stationEvent ssid pass) evs /\
    exists a, (1 <= a <= 5)%nat /\ beginsOf evs = repeat (ssid, pass) a.
Proof.
  unfold tryConnectStation. change (S (Z.to_nat MAX_RETRIES)) with 6%nat.
  destruct (first_connected (fun j => wl_status w (polls s + j)) 500)
    as [Hno | (k & Hk & Hyes & Hno)].
  - exists false, 500%nat, 73250, (failedAttempts ssid pass 0 5).
    split; [|split; [|split; [|split; [|split]]]].
    + rewrite (attempts_all_fail w ssid pass MAX_RETRIES 5 5 0 s); try lia; try reflexivity.
      exact Hno.
    + split; [discriminate|]. intros (j & Hj & Ht). rewrite Hno in Ht by exact Hj. discriminate.
    + lia.
    + reflexivity.
    + apply failedAttempts_station.
    + exists 5%nat. split; [lia | apply beginsOf_failedAttempts].
  - pose proof (Nat.div_mod_eq k 100) as Hdm.
    pose proof (Nat.mod_upper_bound k 100 ltac:(lia)) as Hr.
    set (q := (k / 100)%nat) in *. set (r := (k mod 100)%nat) in *.
    assert (Hq : (q <= 4)%nat) by lia.
    pose proof (backoffTotal_before_last q Hq) as Hb.
    exists true, (k + 1)%nat,
      (10050 * Z.of_nat q + backoffTotal 0 q + 50 + 100 * Z.of_nat r),
      (failedAttempts ssid pass 0 q ++ connectingAttempt ssid pass r).
    split; [|split; [|split; [|split; [|split]]]].
    + rewrite (attempts_then_connect w ssid pass MAX_RETRIES r Hr q 5 0 s).
      * apply Ret_eq. f_equal. lia.
      * lia.
      * unfold MAX_RETRIES. lia.
      * intros j Hj. apply Hno. lia.
      * rewrite <- Hdm. exact Hyes.
    + split; [|reflexivity]. intros _. exists k. split; assumption.
    + lia.
    + lia.
    + apply Forall_app. split; [apply failedAttempts_station | apply connectingAttempt_station].
    + exists (S q). split; [lia|].
      rewrite beginsOf_app, beginsOf_failedAttempts, beginsOf_connectingAttempt.
      clear. induction q as [|q IH]; [reflexivity|]. cbn [repeat app]. rewrite IH. reflexivity.
Qed.

(** X4. As [setup] calls it (five attempts of ten seconds),
    [tryConnectStation] always returns, and returns true exactly when one
    of the next 500 status polls reports the connection. A success comes
    50 ms to 65150 ms after the call, a failure after 73250 ms. Between one
    and five connections are begun, all with the credentials given, and
    the radio is left in station mode. *)
Theorem station_connect_bounds w ssid pass s :
  exists (b : bool) (n : nat) d evs,
    tryConnectStation w ssid pass MAX_RETRIES CONNECT_TIMEOUT_MS s =
      Ret b (radioUpdate WIFI_STA (polls s + n) (uptime s + d) (trace s ++ evs) s) /\
    (b = true <-> exists j, (j < 500)%nat /\ wl_status w (polls s + j) = true) /\
    (n <= 500)%nat /\
    (if b then 50 <= d <= 65150 else d = 73250) /\
    exists a, (1 <= a <= 5)%nat /\ beginsOf evs = repeat (ssid, pass) a.
Proof.
  destruct (tryConnectStation_cases w ssid pass s)
    as (b & n & d & evs & Heq & Hiff & Hn & Hd & _ & Ha).
  exists b, n, d, evs. auto.
Qed.

(** ** Startup *)

(** [setup] from power-on, in full. *)
Lemma setup_from_power_on w p n tr :
  exists s' (b : bool) d evs,
    setup w (powerOn p n tr) = Ret tt s' /\
    (b = true <-> exists j, (j < 500)%nat /\ wl_status w (n + j) = true) /\
    trace s' = tr ++ [EvDelay 10] ++ evs ++
               (if b then []
                else [EvWifiMode WIFI_AP; EvSoftAP ("ModuLux-Setup-" +:+ last4MacHex w) AP_PASS;
                      EvDnsStart; EvServerBegin]) /\
    Forall (stationEvent (bootSsid p) (bootPass p)) evs /\
    uptime s' = 10 + d /\ (if b then 50 <= d <= 65150 else d = 73250) /\
    prefs s' = p /\ apShutdownAt s' = 0 /\ led02 s' = LOW /\
    (if b
     then runState s' = CONNECTED /\ wifiMode s' = WIFI_STA /\
          serverUp s' = false /\ dnsUp s' = false /\ led01 s' = HIGH
     else apStarted s' /\ wifiMode s' = WIFI_AP /\ led01 s' = LOW) /\
    currentSsid s' = bootSsid p /\ currentPass s' = bootPass p /\
    connectLedState s' = false /\ connectBlinkLastMs s' = 0 /\
    setupPhase s' <> IDLE.
Proof.
  unfold setup, powerOn, showConnectingPattern, showConnected. sketch_run.
  rewrite loadCredentialsFromNVS_eq. sketch_run.
  change (wrap32 (wrap32 (0 + 10) - 0) >=? 200) with false. cbv beta iota.
  match goal with |- context [tryConnectStation w ?a ?b _ _ ?s0] =>
    destruct (tryConnectStation_cases w a b s0) as (b' & k & d & evs & Heq & Hiff & _ & Hd & Hev & _);
    rewrite Heq; clear Heq; dev_simpl_in Hiff
  end.
  unfold radioUpdate. destruct b'.
  - sketch_run. eexists _, true, d, evs. split; [reflexivity|]. sketch_run.
    rewrite <- !app_assoc, app_nil_r. cbn [app].
    repeat split; try reflexivity; try tauto; try lia; try exact Hev; try discriminate.
  - unfold startCaptiveAP, touchHttpActivity. sketch_run.
    eexists _, false, d, evs. split; [reflexivity|]. unfold apStarted. sketch_run.
    rewrite <- !app_assoc. cbn [app].
    repeat split; try reflexivity; try tauto; try lia; try exact Hev; try discriminate.
Qed.

(** X5. [setup] from power-on always returns. It connects exactly when
    one of the first 500 status polls reports the connection, and is then
    CONNECTED in station mode with indicator A lit and no access point,
    HTTP server or DNS responder started. Otherwise it starts the access
    point ModuLux-Setup-XXXX once, 73260 ms after power-on, after the last
    station attempt and its wait; indicator A has stayed dark. *)
Theorem setup_outcome w p n tr :
  exists s' (b : bool) d evs,
    setup w (powerOn p n tr) = Ret tt s' /\
    (b = true <-> exists j, (j < 500)%nat /\ wl_status w (n + j) = true) /\
    trace s' = tr ++ [EvDelay 10] ++ evs ++
               (if b then []
                else [EvWifiMode WIFI_AP; EvSoftAP ("ModuLux-Setup-" +:+ last4MacHex w) AP_PASS;
                      EvDnsStart; EvServerBegin]) /\
    Forall (stationEvent (bootSsid p) (bootPass p)) evs /\
    uptime s' = 10 + d /\ (if b then 50 <= d <= 65150 else d = 73250) /\
    prefs s' = p /\ apShutdownAt s' = 0 /\ led02 s' = LOW /\
    if b
    then runState s' = CONNECTED /\ wifiMode s' = WIFI_STA /\
         serverUp s' = false /\ dnsUp s' = false /\ led01 s' = HIGH
    else apStarted s' /\ wifiMode s' = WIFI_AP /\ led01 s' = LOW.
Proof.
  destruct (setup_from_power_on w p n tr)
    as (s' & b & d & evs & H1 & H2 & H3 & H4 & H5 & H6 & H7 & H8 & H9 & H10 & _).
  exists s', b, d, evs. repeat (split; [assumption|]). exact H10.
Qed.

(** ** What holds between two passes *)

Ltac steady_open :=
  unfold steady, pastConnecting, serviceReady, ledsShowState, credentialsMirrorStore in *.

(** Opens a device into its fields under fixed names. *)
Ltac dev_open s :=
  destruct s as [rs ssid0 pass0 lastHttp btnStart btnHeld blinkLast blinkState phase phaseStart
                 shutAt up store l1 l2 srv dns mode np tr0].

Lemma showPattern_steady s :
  steady s -> exists s1, showPattern s = Ret tt s1 /\ steady s1 /\ runState s1 = runState s /\
    serverUp s1 = serverUp s /\ uptime s1 = uptime s /\ trace s1 = trace s /\
    lastHttpActivityMs s1 = lastHttpActivityMs s /\ polls s1 = polls s.
Proof.
  intros Hs. dev_open s. unfold showPattern, showSetupPattern, showConnected, showConnectingPattern.
  steady_open. dev_simpl_in Hs. sketch_run.
  destruct rs.
  - exfalso. tauto.
  - destruct phase; try destruct (_ >=? _); sketch_run;
      (eexists; split; [reflexivity|]); dev_simpl; intuition (first [congruence | discriminate]).
  - sketch_run. eexists; split; [reflexivity|]. dev_simpl.
    intuition (first [congruence | discriminate]).
Qed.

Lemma repliesOf_app e1 e2 : repliesOf (e1 ++ e2) = repliesOf e1 ++ repliesOf e2.
Proof.
  induction e1 as [|e e1 IH]; [reflexivity|].
  destruct e; cbn [repliesOf app]; rewrite ?IH; reflexivity.
Qed.

Lemma repliesOf_pollEvents k : repliesOf (pollEvents k) = [].
Proof. induction k; [reflexivity | exact IHk]. Qed.

Section Requests.

Variable w : World.

(** Every route but POST /save answers 200 and touches nothing but the
    trace and the idle timer. *)
Lemma route_plain nets rq s :
  req_method rq <> HTTP_POST \/ req_uri rq <> "/save" ->
  exists ctype body,
    route w nets rq s =
    Ret tt (set_lastHttpActivityMs (wrap32 (uptime s))
              (set_trace (trace s ++ [EvSend 200 ctype body]) s)).
Proof.
  intros Hrq.
  unfold route, handleRoot, handleNotFound, handleScan, handleStatus, handleNcsi, servePage,
    touchHttpActivity.
  destruct (req_method rq) eqn:Hm.
  - repeat (destruct (String.eqb (req_uri rq) _)); sketch_step; eexists _, _; reflexivity.
  - destruct (String.eqb_spec (req_uri rq) "/save") as [Hu|Hu].
    + exfalso. destruct Hrq as [Hrq|Hrq]; [apply Hrq; reflexivity | exact (Hrq Hu)].
    + sketch_step. eexists _, _. reflexivity.
  - sketch_step. eexists _, _. reflexivity.
Qed.

Lemma handleSave_served rq s :
  wp (handleSave w rq) (fun _ s' => served s s') (fun _ => False) s.
Proof.
  unfold wp, handleSave, touchHttpActivity, saveCredentialsToNVS, showConnected, served.
  destruct (_ || _).
  - sketch_step. dev_simpl. split; [reflexivity|]. split; [lia|].
    eexists. split; reflexivity.
  - sketch_step.
    match goal with |- context [tryConnectWhileAp w ?a ?b ?m _ ?s1] =>
      destruct (tryConnectWhileAp_spec w a b m s1) as (k & b' & Heq & _ & Hk);
      rewrite Heq; clear Heq
    end.
    destruct b'; sketch_step; unfold afterPolls, beganWhileAp; dev_simpl.
    + destruct Hk as [_ Hk]. split; [reflexivity|]. split; [lia|].
      eexists. split; [rewrite <- !app_assoc; reflexivity|].
      cbn [app repliesOf]. rewrite !repliesOf_app, repliesOf_pollEvents. reflexivity.
    + subst k. split; [reflexivity|]. split; [lia|].
      eexists. split; [rewrite <- !app_assoc; reflexivity|].
      cbn [app repliesOf]. rewrite !repliesOf_app, repliesOf_pollEvents. reflexivity.
Qed.

Lemma route_served nets rq s :
  wp (route w nets rq) (fun _ s' => served s s') (fun _ => False) s.
Proof.
  destruct (String.eqb_spec (req_uri rq) "/save") as [Hu|Hu].
  - destruct (req_method rq) eqn:Hm.
    + destruct (route_plain nets rq s) as (ctype & body & Heq); [left; congruence|].
      unfold wp. rewrite Heq. unfold served. dev_simpl. split; [reflexivity|]. split; [lia|].
      eexists. split; reflexivity.
    + unfold route. rewrite Hm, Hu. cbn [String.eqb Ascii.eqb Bool.eqb]. apply handleSave_served.
    + destruct (route_plain nets rq s) as (ctype & body & Heq); [left; congruence|].
      unfold wp. rewrite Heq. unfold served. dev_simpl. split; [reflexivity|]. split; [lia|].
      eexists. split; reflexivity.
  - destruct (route_plain nets rq s) as (ctype & body & Heq); [right; exact Hu|].
    unfold wp. rewrite Heq. unfold served. dev_simpl. split; [reflexivity|]. split; [lia|].
    eexists. split; reflexivity.
Qed.

End Requests.

Section Steady.

Variable w : World.

Lemma handleSave_steady rq s :
  steady s -> runState s = AP_SETUP ->
  wp (handleSave w rq) (fun _ s' => steady s') (fun _ => False) s.
Proof.
  intros Hs Hrs. dev_open s. dev_simpl_in Hrs. subst rs.
  unfold wp, handleSave, touchHttpActivity, saveCredentialsToNVS, showConnected.
  destruct (_ || _).
  - sketch_run. steady_open. dev_simpl_in Hs. dev_simpl.
    intuition (first [congruence | discriminate]).
  - sketch_run.
    match goal with |- context [tryConnectWhileAp w ?a ?b ?m _ ?s1] =>
      destruct (tryConnectWhileAp_spec w a b m s1) as (k & b' & Heq & _ & _);
      rewrite Heq; clear Heq
    end.
    destruct (saved_store_reads store (server_arg (req_args rq) "ssid")
                (server_arg (req_args rq) "pass")) as (R1 & R2 & R3).
    cbn zeta in R1, R2, R3.
    unfold afterPolls, beganWhileAp.
    destruct b'; sketch_run; steady_open; dev_simpl_in Hs; dev_simpl;
      unfold bootSsid, bootPass; change (1 mod 256) with 1; rewrite R1, R2, R3;
      change (1 =? 0) with false; cbv iota;
      intuition (first [congruence | discriminate]).
Qed.

Lemma route_steady nets rq s :
  steady s -> runState s = AP_SETUP ->
  wp (route w nets rq) (fun _ s' => steady s') (fun _ => False) s.
Proof.
  intros Hs Hrs.
  assert (Hplain : req_method rq <> HTTP_POST \/ req_uri rq <> "/save" ->
                   wp (route w nets rq) (fun _ s' => steady s') (fun _ => False) s).
  { intros Hrq. destruct (route_plain w nets rq s Hrq) as (ctype & body & Heq).
    unfold wp. rewrite Heq. clear Heq. dev_open s. steady_open. dev_simpl_in Hs. dev_simpl.
    exact Hs. }
  destruct (String.eqb_spec (req_uri rq) "/save") as [Hu|Hu]; [|apply Hplain; right; exact Hu].
  destruct (req_method rq) eqn:Hm; try (apply Hplain; left; congruence).
  unfold route. rewrite Hm, Hu. cbn [String.eqb Ascii.eqb Bool.eqb].
  apply handleSave_steady; assumption.
Qed.

Lemma idleRetry_steady s :
  steady s -> runState s = AP_SETUP ->
  wp (idleRetry w) (fun _ s' => steady s') (fun _ => False) s.
Proof.
  intros Hs Hrs. dev_open s. dev_simpl_in Hrs. subst rs.
  unfold wp, idleRetry, showConnected. sketch_run.
  destruct (_ >? _); [|exact Hs].
  sketch_run.
  match goal with |- context [tryConnectWhileAp w ?a ?b ?m _ ?s1] =>
    destruct (tryConnectWhileAp_spec w a b m s1) as (k & b' & Heq & _ & _);
    rewrite Heq; clear Heq
  end.
  unfold afterPolls, beganWhileAp.
  destruct b'; sketch_run; steady_open; dev_simpl_in Hs; dev_simpl;
    intuition (first [congruence | discriminate]).
Qed.

End Steady.

Lemma wp_conj {A} (m : M A) (Q Q' : A -> Device -> Prop) (R : Device -> Prop) s :
  wp m Q R s -> wp m Q' R s -> wp m (fun a s' => Q a s' /\ Q' a s') R s.
Proof. unfold wp. destruct (m s); auto. Qed.

Lemma wp_both {A} (m : M A) (Q Q' : A -> Device -> Prop) (R R' : Device -> Prop) s :
  wp m Q R s -> wp m Q' R' s ->
  wp m (fun a s' => Q a s' /\ Q' a s') (fun s0 => R s0 /\ R' s0) s.
Proof. unfold wp. destruct (m s); auto. Qed.

Section SteadyLoop.

Variable w : World.

Lemma served_skips_idle s s' : served s s' -> idleRetry w s' = Ret tt s'.
Proof.
  intros (Hl & _). apply idleRetry_skip.
  rewrite Hl, wrap32_elapsed_0. unfold AP_IDLE_TIMEOUT_MS. lia.
Qed.

Lemma serviceAp_steady i s :
  steady s -> wp (serviceAp w i) (fun _ s' => steady s') (fun _ => False) s.
Proof.
  intros Hs. unfold serviceAp. apply wp_bind. unfold wp at 1, gets.
  destruct (runState s) eqn:Hrs; try exact Hs.
  apply wp_bind. unfold wp at 1, dnsServer_processNextRequest, ret.
  apply wp_bind. unfold server_handleClient. apply wp_bind. unfold wp at 1, gets.
  destruct (client i) as [rq|]; [destruct (serverUp s)|].
  - eapply wp_mono; [| |apply (wp_conj _ _ _ _ _ (route_steady w (networks i) rq s Hs Hrs)
                                 (route_served w (networks i) rq s))]; cbn beta; [|tauto].
    intros _ s2 [Hs2 Hserved]. unfold wp. rewrite (served_skips_idle _ _ Hserved). exact Hs2.
  - unfold wp at 1, ret. apply idleRetry_steady; assumption.
  - unfold wp at 1, ret. apply idleRetry_steady; assumption.
Qed.

Lemma maybeShutdown_steady s :
  steady s -> wp maybeShutdown (fun _ s' => steady s') (fun _ => False) s.
Proof.
  intros Hs. dev_open s. unfold wp, maybeShutdown, stopCaptiveAP. sketch_run.
  destruct rs; try exact Hs.
  destruct (_ && _) eqn:Hc; [|exact Hs].
  sketch_run. steady_open. dev_simpl_in Hs. dev_simpl.
  intuition (first [congruence | discriminate]).
Qed.

Lemma button_tail_steady v s1 s' :
  steady s1 -> (factoryResetCheck v ;;; delay 20) s1 = Ret tt s' -> steady s'.
Proof.
  intros Hs. unfold bind. destruct v.
  - destruct (factoryBtnHeld s1) eqn:Hh.
    + rewrite factoryResetCheck_held by exact Hh.
      destruct (_ >=? _); [discriminate|].
      intros [= <-]. dev_open s1. exact Hs.
    + rewrite factoryResetCheck_press by exact Hh.
      intros [= <-]. dev_open s1. exact Hs.
  - rewrite factoryResetCheck_HIGH. intros [= <-]. dev_open s1. exact Hs.
Qed.

Lemma loop_steady i s s' : steady s -> loop w i s = Ret tt s' -> steady s'.
Proof.
  intros Hs Hloop.
  destruct (showPattern_steady s Hs) as (s1 & Hshow & Hs1 & _).
  unfold loop in Hloop. unfold bind at 1 in Hloop. rewrite Hshow in Hloop.
  unfold bind at 1 in Hloop.
  pose proof (serviceAp_steady i s1 Hs1) as Hsvc. unfold wp in Hsvc.
  destruct (serviceAp w i s1) as [[] s2| |]; [|contradiction|contradiction].
  unfold bind at 1 in Hloop.
  pose proof (maybeShutdown_steady s2 Hsvc) as Hshut. unfold wp in Hshut.
  destruct (maybeShutdown s2) as [[] s3| |]; [|contradiction|contradiction].
  exact (button_tail_steady _ _ _ Hshut Hloop).
Qed.

Lemma setup_steady p n tr s' : setup w (powerOn p n tr) = Ret tt s' -> steady s'.
Proof.
  intros Hsetup.
  destruct (setup_from_power_on w p n tr)
    as (s'' & b & d & evs & Heq & _ & _ & _ & _ & _ & Hp & Hat & Hl2 & Hb & Hss & Hpp &
        Hcl & Hcb & Hph).
  rewrite Heq in Hsetup. injection Hsetup as ->.
  steady_open. rewrite Hp.
  destruct b.
  - destruct Hb as (B1 & B2 & B3 & B4 & B5).
    intuition (first [congruence | discriminate]).
  - destruct Hb as ((B1 & B2 & B3 & B4 & B5 & B6) & B7 & B8).
    intuition (first [congruence | discriminate]).
Qed.

Lemma reachable_steady s : reachable w s -> steady s.
Proof.
  induction 1 as [p s Hs | s i s' _ IH Hl | s i s0 s' _ _ Hl Hs].
  - exact (setup_steady p 0%nat [] s Hs).
  - exact (loop_steady i s s' IH Hl).
  - exact (setup_steady _ _ _ s' Hs).
Qed.

End SteadyLoop.

(** X6. Between two passes of [loop] the HTTP server and the DNS
    responder are either both running or both stopped. They run whenever
    the device is in AP_SETUP and whenever a shutdown deadline is pending,
    and then the radio is in AP or AP+STA mode; they are stopped only in
    CONNECTED. *)
Theorem setup_service_available w s :
  reachable w s ->
  serverUp s = dnsUp s /\
  (runState s = AP_SETUP -> serverUp s = true /\ dnsUp s = true) /\
  (apShutdownAt s <> 0 -> serverUp s = true /\ dnsUp s = true) /\
  (serverUp s = true -> wifiMode s = WIFI_AP \/ wifiMode s = WIFI_AP_STA) /\
  (serverUp s = false -> runState s = CONNECTED).
Proof.
  intros Hr. destruct (reachable_steady w s Hr) as (_ & (H1 & H2 & H3 & H4 & H5) & _).
  split; [exact H1|]. split; [|split; [|split; [exact H4 | exact H5]]].
  - intros H. split; [|rewrite <- H1]; exact (H2 H).
  - intros H. split; [|rewrite <- H1]; exact (H3 H).
Qed.

Lemma setup_service_available_witness :
  reachable neverConnects apDevice /\
  serverUp apDevice = dnsUp apDevice /\
  (runState apDevice = AP_SETUP -> serverUp apDevice = true /\ dnsUp apDevice = true) /\
  (apShutdownAt apDevice <> 0 -> serverUp apDevice = true /\ dnsUp apDevice = true) /\
  (serverUp apDevice = true -> wifiMode apDevice = WIFI_AP \/ wifiMode apDevice = WIFI_AP_STA) /\
  (serverUp apDevice = false -> runState apDevice = CONNECTED).
Proof.
  split; [exact apDevice_reachable|].
  exact (setup_service_available neverConnects apDevice apDevice_reachable).
Defined.

(** X7. Between two passes of [loop]: a CONNECTED device shows indicator
    A lit and indicator B dark. In AP_SETUP indicator A is lit only in the
    phases BLINK1_ON and BLINK2_ON, and in BLINK2_ON both indicators are
    lit. The phase is never IDLE, so the default branch of
    [showSetupPattern] is never taken. *)
Theorem indicators_show_state w s :
  reachable w s ->
  (runState s = CONNECTED -> led01 s = HIGH /\ led02 s = LOW) /\
  (runState s = AP_SETUP ->
   (led01 s = HIGH -> setupPhase s = BLINK1_ON \/ setupPhase s = BLINK2_ON) /\
   (setupPhase s = BLINK2_ON -> led01 s = HIGH /\ led02 s = HIGH)) /\
  setupPhase s <> IDLE.
Proof.
  intros Hr. destruct (reachable_steady w s Hr) as (_ & _ & (H1 & H2 & H3) & _).
  split; [exact H2|]. split; [exact H3 | exact H1].
Qed.

Lemma indicators_show_state_witness :
  reachable connectsAfterSetup savedDevice /\
  (runState savedDevice = CONNECTED -> led01 savedDevice = HIGH /\ led02 savedDevice = LOW) /\
  (runState savedDevice = AP_SETUP ->
   (led01 savedDevice = HIGH ->
    setupPhase savedDevice = BLINK1_ON \/ setupPhase savedDevice = BLINK2_ON) /\
   (setupPhase savedDevice = BLINK2_ON -> led01 savedDevice = HIGH /\ led02 savedDevice = HIGH)) /\
  setupPhase savedDevice <> IDLE.
Proof.
  split; [exact savedDevice_reachable|].
  exact (indicators_show_state connectsAfterSetup savedDevice savedDevice_reachable).
Defined.

(** X8. Between two passes of [loop] the working copy of the credentials
    ([currentSsid], [currentPass]) is what [loadCredentialsFromNVS] reads
    from the store: loading again would change nothing, and a restart
    connects with the credentials the idle retry uses. *)
Theorem credentials_mirror_store w s :
  reachable w s ->
  currentSsid s = bootSsid (prefs s) /\ currentPass s = bootPass (prefs s) /\
  loadCredentialsFromNVS s = Ret tt s.
Proof.
  intros Hr. destruct (reachable_steady w s Hr) as (_ & _ & _ & (H1 & H2)).
  split; [exact H1|]. split; [exact H2|].
  rewrite loadCredentialsFromNVS_eq, <- H1, <- H2. apply Ret_eq. destruct s; reflexivity.
Qed.

Lemma credentials_mirror_store_witness :
  reachable connectsAfterSetup savedDevice /\
  currentSsid savedDevice = bootSsid (prefs savedDevice) /\
  currentPass savedDevice = bootPass (prefs savedDevice) /\
  loadCredentialsFromNVS savedDevice = Ret tt savedDevice.
Proof.
  split; [exact savedDevice_reachable|].
  exact (credentials_mirror_store connectsAfterSetup savedDevice savedDevice_reachable).
Defined.

(** X9. Between two passes of [loop] the run state is AP_SETUP or
    CONNECTED, never CONNECTING, and a pass never takes a CONNECTED device
    back to AP_SETUP. The connecting pattern has never toggled indicator A:
    its only call that runs comes 10 ms after power-on, before its 200 ms
    interval has passed. *)
Theorem run_state_progress w s :
  reachable w s ->
  (runState s = AP_SETUP \/ runState s = CONNECTED) /\
  connectLedState s = false /\ connectBlinkLastMs s = 0 /\
  forall i s',
    loop w i s = Ret tt s' ->
    (runState s' = AP_SETUP \/ runState s' = CONNECTED) /\
    (runState s = CONNECTED -> runState s' = CONNECTED).
Proof.
  assert (Hrs : forall s0, reachable w s0 -> runState s0 = AP_SETUP \/ runState s0 = CONNECTED).
  { intros s0 Hr0. destruct (reachable_steady w s0 Hr0) as ((H1 & _) & _).
    destruct (runState s0); [contradiction H1; reflexivity | left | right]; reflexivity. }
  intros Hr. destruct (reachable_steady w s Hr) as ((_ & H2 & H3) & _).
  split; [exact (Hrs s Hr)|]. split; [exact H2|]. split; [exact H3|].
  intros i s' Hl. split; [exact (Hrs s' (reach_loop w s i s' Hr Hl))|].
  intros Hc. exact (proj1 (wp_Ret _ _ _ _ _ _ (loop_connected w i s Hc) Hl)).
Qed.

Lemma run_state_progress_witness :
  reachable neverConnects apDevice /\
  (runState apDevice = AP_SETUP \/ runState apDevice = CONNECTED) /\
  connectLedState apDevice = false /\ connectBlinkLastMs apDevice = 0 /\
  forall i s',
    loop neverConnects i apDevice = Ret tt s' ->
    (runState s' = AP_SETUP \/ runState s' = CONNECTED) /\
    (runState apDevice = CONNECTED -> runState s' = CONNECTED).
Proof.
  split; [exact apDevice_reachable|].
  exact (run_state_progress neverConnects apDevice apDevice_reachable).
Defined.

(** ** The connected device *)

Section Connected.

Variable w : World.

Lemma connected_pass i s :
  runState s = CONNECTED ->
  wp (loop w i) (fun _ s' => stillConnected s s') (fun _ => True) s.
Proof.
  intros Hrs. unfold wp. rewrite loop_split. unfold bind at 1.
  rewrite (beforeButton_connected w i s Hrs).
  assert (Hpre : stillConnected s (connectedPass s)).
  { unfold stillConnected, connectedPass.
    destruct (Z.eqb_spec (apShutdownAt s) 0) as [H0|H0]; cbn [negb andb].
    - dev_simpl. repeat split; try assumption; try reflexivity.
      exists []. split; [symmetry; apply app_nil_r|]. split; [constructor | reflexivity].
    - destruct (_ >=? _); dev_simpl; repeat split; try assumption; try reflexivity;
        try (intros; contradiction).
      + exists [EvServerStop; EvDnsStop].
        split; [reflexivity|]. split; [repeat constructor | intros; contradiction].
      + exists []. split; [symmetry; apply app_nil_r|]. split; [constructor | reflexivity]. }
  assert (Hstep : forall s1 s2,
            stillConnected s s1 ->
            runState s2 = runState s1 -> polls s2 = polls s1 -> wifiMode s2 = wifiMode s1 ->
            prefs s2 = prefs s1 -> currentSsid s2 = currentSsid s1 ->
            currentPass s2 = currentPass s1 -> led01 s2 = led01 s1 -> led02 s2 = led02 s1 ->
            apShutdownAt s2 = apShutdownAt s1 -> serverUp s2 = serverUp s1 ->
            dnsUp s2 = dnsUp s1 ->
            trace s2 = trace s1 ++ [EvDelay 20] -> stillConnected s s2).
  { intros s1 s2 (K1 & K2 & K3 & K4 & K5 & K6 & K7 & K8 & K0 & evs & K9 & K10 & K11)
      E1 E2 E3 E4 E5 E6 E7 E8 E10 E11 E12 E9.
    unfold stillConnected. rewrite E1, E2, E3, E4, E5, E6, E7, E8, E9, E10, E11, E12.
    repeat split; try assumption; try (apply K0; assumption).
    exists (evs ++ [EvDelay 20]). rewrite K9, <- app_assoc. split; [reflexivity|].
    split; [apply Forall_app; split; [exact K10 | repeat constructor]|].
    intros H0. rewrite stopsService_app, (K11 H0). reflexivity. }
  generalize dependent (connectedPass s). intros s1 Hs1.
  unfold bind. destruct (push01 i).
  - destruct (factoryBtnHeld s1) eqn:Hh.
    + rewrite factoryResetCheck_held by exact Hh.
      destruct (_ >=? _); [exact I|].
      unfold delay, modify. apply (Hstep s1); try reflexivity. exact Hs1.
    + rewrite factoryResetCheck_press by exact Hh.
      unfold delay, modify. apply (Hstep s1); try reflexivity. exact Hs1.
  - rewrite factoryResetCheck_HIGH. unfold delay, modify.
    apply (Hstep s1); try reflexivity. exact Hs1.
Qed.

Lemma stillConnected_trans s1 s2 s3 :
  stillConnected s1 s2 -> stillConnected s2 s3 -> stillConnected s1 s3.
Proof.
  intros (K1 & K2 & K3 & K4 & K5 & K6 & K7 & K8 & K0 & e1 & K9 & K10 & K11)
         (G1 & G2 & G3 & G4 & G5 & G6 & G7 & G8 & G0 & e2 & G9 & G10 & G11).
  unfold stillConnected. repeat split; try congruence.
  - apply G0, K0. assumption.
  - destruct (K0 H) as (A1 & A2 & A3). destruct (G0 A1) as (B1 & B2 & B3). congruence.
  - destruct (K0 H) as (A1 & A2 & A3). destruct (G0 A1) as (B1 & B2 & B3). congruence.
  - exists (e1 ++ e2). rewrite G9, K9, app_assoc. split; [reflexivity|].
    split; [apply Forall_app; split; assumption|].
    intros H0. destruct (K0 H0) as (A1 & _).
    rewrite stopsService_app, (K11 H0), (G11 A1). reflexivity.
Qed.

Lemma connected_run inputs : forall s,
  runState s = CONNECTED ->
  led01 s = HIGH -> led02 s = LOW ->
  wp (run w inputs) (fun _ s' => stillConnected s s') (fun _ => True) s.
Proof.
  induction inputs as [|i rest IH]; intros s Hrs Hl1 Hl2.
  - unfold wp, run, ret, stillConnected. repeat split; try assumption; try reflexivity.
    exists []. split; [symmetry; apply app_nil_r|]. split; [constructor | reflexivity].
  - cbn [run]. apply wp_bind.
    eapply wp_mono; [| |apply (connected_pass i s Hrs)]; cbn beta; [|auto].
    intros _ s1 Hs1.
    eapply wp_mono; [| |apply (IH s1)]; cbn beta; [|auto| | |]; try apply Hs1.
    intros _ s2 Hs2. exact (stillConnected_trans _ _ _ Hs1 Hs2).
Qed.

(** A pass over a connected device looks at the button only. *)
Lemma connected_pass_blind w' i i' s :
  runState s = CONNECTED -> push01 i = push01 i' -> loop w i s = loop w' i' s.
Proof.
  intros Hrs Hp. rewrite !loop_split. unfold bind at 1 3.
  rewrite (beforeButton_connected w i s Hrs), (beforeButton_connected w' i' s Hrs), Hp.
  reflexivity.
Qed.

End Connected.

(** X10. Once CONNECTED the device stays CONNECTED until a restart. Its
    passes of [loop] keep indicator A lit and B dark, never poll the radio
    status, never begin a connection or change the radio mode, never write
    the store and never answer an HTTP request: they call nothing but
    [delay(20)] and, when a deadline is pending, the two service stops.
    Without a pending deadline the HTTP and DNS services stay as they are,
    running or stopped. *)
Theorem connected_is_final w inputs s :
  reachable w s -> runState s = CONNECTED ->
  wp (run w inputs) (fun _ s' => stillConnected s s') (fun _ => True) s.
Proof.
  intros Hr Hrs. destruct (reachable_steady w s Hr) as (_ & _ & (_ & Hled & _) & _).
  destruct (Hled Hrs) as [H1 H2]. apply connected_run; assumption.
Qed.

Lemma connected_is_final_witness :
  reachable connectsAfterSetup savedDevice /\ runState savedDevice = CONNECTED /\
  wp (run connectsAfterSetup (repeat statusTick 3))
     (fun _ s' => stillConnected savedDevice s') (fun _ => True) savedDevice.
Proof.
  assert (H : runState savedDevice = CONNECTED) by (vm_compute; reflexivity).
  split; [exact savedDevice_reachable|]. split; [exact H|].
  exact (connected_is_final connectsAfterSetup (repeat statusTick 3) savedDevice
           savedDevice_reachable H).
Defined.

(** X11. A connected device looks at nothing but the button: whatever
    the radio would answer and whatever requests and scan results are
    pending, runs of [loop] with the same button samples end in the same
    state. *)
Theorem connected_ignores_network w w' (inputs : list TickInput) rq nets s :
  runState s = CONNECTED ->
  run w inputs s = run w' (map (withRequest rq nets) inputs) s.
Proof.
  revert s. induction inputs as [|i rest IH]; intros s Hrs; [reflexivity|].
  cbn [run map]. unfold bind.
  rewrite (connected_pass_blind w w' i (withRequest rq nets i) s Hrs) by reflexivity.
  pose proof (connected_pass w' (withRequest rq nets i) s Hrs) as Hpass. unfold wp in Hpass.
  destruct (loop w' (withRequest rq nets i) s) as [[] s1| |]; try reflexivity.
  apply IH, Hpass.
Qed.

Lemma connected_ignores_network_witness :
  runState savedDevice = CONNECTED /\
  run connectsAfterSetup (repeat quietTick 3) savedDevice =
  run neverConnects
    (map (withRequest (saveRequest "OtherNet" "87654321") []) (repeat quietTick 3)) savedDevice.
Proof.
  assert (H : runState savedDevice = CONNECTED) by (vm_compute; reflexivity).
  split; [exact H|].
  exact (connected_ignores_network connectsAfterSetup neverConnects (repeat quietTick 3)
           (saveRequest "OtherNet" "87654321") [] savedDevice H).
Defined.

(** ** One pass of [loop] *)

Lemma repliesOf_resetEvents : repliesOf resetEvents = [].
Proof. reflexivity. Qed.

Section Pass.

Variable w : World.

Lemma showPattern_quiet s :
  exists s1,
    showPattern s = Ret tt s1 /\ runState s1 = runState s /\ serverUp s1 = serverUp s /\
    trace s1 = trace s /\ uptime s1 = uptime s /\
    lastHttpActivityMs s1 = lastHttpActivityMs s /\ polls s1 = polls s.
Proof.
  dev_open s. unfold showPattern, showSetupPattern, showConnected, showConnectingPattern.
  sketch_run. destruct rs.
  - destruct (_ >=? _); sketch_run; eexists; (split; [reflexivity|]); dev_simpl;
      repeat split; reflexivity.
  - destruct phase; try destruct (_ >=? _); sketch_run; eexists; (split; [reflexivity|]);
      dev_simpl; repeat split; reflexivity.
  - sketch_run. eexists. split; [reflexivity|]. dev_simpl. repeat split; reflexivity.
Qed.

Lemma serviceAp_cases i s1 :
  (runState s1 <> AP_SETUP /\ serviceAp w i s1 = Ret tt s1) \/
  (runState s1 = AP_SETUP /\ (client i = None \/ serverUp s1 = false) /\
   serviceAp w i s1 = idleRetry w s1) \/
  (runState s1 = AP_SETUP /\ serverUp s1 = true /\
   exists rq, client i = Some rq /\
              serviceAp w i s1 = (route w (networks i) rq ;;; idleRetry w) s1).
Proof.
  unfold serviceAp, server_handleClient. sketch_step.
  destruct (runState s1) eqn:Hrs.
  - left. split; [discriminate | reflexivity].
  - right. destruct (client i) as [rq|] eqn:Hc; [destruct (serverUp s1) eqn:Hup|].
    + right. split; [reflexivity|]. split; [reflexivity|]. exists rq. split; reflexivity.
    + left. split; [reflexivity|]. split; [right; reflexivity | reflexivity].
    + left. split; [reflexivity|]. split; [left; reflexivity | reflexivity].
  - left. split; [discriminate | reflexivity].
Qed.

(** The idle check sends nothing and takes ten seconds at most. *)
Lemma idleRetry_quiet s :
  wp (idleRetry w)
     (fun _ s' => uptime s <= uptime s' <= uptime s + 10000 /\
                  exists evs, trace s' = trace s ++ evs /\ repliesOf evs = [])
     (fun _ => False) s.
Proof.
  unfold wp, idleRetry, showConnected. sketch_step.
  destruct (_ >? _).
  - sketch_step.
    match goal with |- context [tryConnectWhileAp w ?a ?b ?m _ ?s1] =>
      destruct (tryConnectWhileAp_spec w a b m s1) as (k & b' & Heq & _ & Hk);
      rewrite Heq; clear Heq
    end.
    destruct b'; sketch_step; unfold afterPolls, beganWhileAp; dev_simpl.
    + destruct Hk as [_ Hk]. split; [lia|].
      eexists. split; [rewrite <- !app_assoc; reflexivity|].
      cbn [app repliesOf]. rewrite !repliesOf_app, repliesOf_pollEvents. reflexivity.
    + subst k. split; [lia|].
      eexists. split; [rewrite <- !app_assoc; reflexivity|].
      cbn [app repliesOf]. rewrite !repliesOf_app, repliesOf_pollEvents. reflexivity.
  - split; [lia|]. exists []. split; [symmetry; apply app_nil_r | reflexivity].
Qed.

(** The part of a pass behind [serviceAp]: it sends nothing; the pass ends
    20 ms later, or in a restart 1800 ms later. *)
Lemma pass_rest v s2 :
  wp (maybeShutdown ;;; factoryResetCheck v ;;; delay 20)
     (fun _ s' => uptime s' = uptime s2 + 20 /\
                  exists evs, trace s' = trace s2 ++ evs /\ repliesOf evs = [])
     (fun s0 => uptime s0 = uptime s2 + 1800 /\
                exists evs, trace s0 = trace s2 ++ evs /\ repliesOf evs = [])
     s2.
Proof.
  destruct (maybeShutdown_cases s2) as (s3 & Hshut & _ & _ & _ & _ & Hu & Htr & _).
  assert (Hpre : exists evs, trace s3 = trace s2 ++ evs /\ repliesOf evs = []).
  { destruct Htr as [Htr | Htr]; rewrite Htr.
    - exists []. split; [symmetry; apply app_nil_r | reflexivity].
    - eexists. split; reflexivity. }
  destruct Hpre as (e3 & He3 & Hr3).
  unfold wp. unfold bind at 1. rewrite Hshut.
  destruct ((factoryResetCheck v ;;; delay 20) s3) as [[] s'| s0 |] eqn:Htail.
  - apply button_tail_same in Htail.
    destruct Htail as (_ & _ & _ & _ & _ & _ & _ & H8 & H9 & _).
    split; [lia|]. exists (e3 ++ [EvDelay 20]).
    rewrite H9, He3, <- app_assoc, repliesOf_app, Hr3. split; reflexivity.
  - apply button_tail_reboot in Htail. subst s0. unfold afterFactoryReset. dev_simpl.
    split; [lia|]. exists (e3 ++ resetEvents).
    rewrite He3, <- app_assoc, repliesOf_app, Hr3. split; reflexivity.
  - exact (button_tail_returns _ _ Htail).
Qed.

(** A pass, put together: what [serviceAp] adds to the trace and to the
    clock, and nothing else but the closing wait. *)
Lemma pass_summary i s (Rp : list (Z * string * string) -> Prop) :
  (forall s1,
     runState s1 = runState s -> serverUp s1 = serverUp s ->
     wp (serviceAp w i)
        (fun _ s2 => uptime s1 <= uptime s2 <= uptime s1 + 10000 /\
                     exists evs, trace s2 = trace s1 ++ evs /\ Rp (repliesOf evs))
        (fun _ => False) s1) ->
  wp (loop w i)
     (fun _ s' => uptime s + 20 <= uptime s' <= uptime s + 10020 /\
                  exists evs, trace s' = trace s ++ evs /\ Rp (repliesOf evs))
     (fun s0 => uptime s + 1800 <= uptime s0 <= uptime s + 11800 /\
                exists evs, trace s0 = trace s ++ evs /\ Rp (repliesOf evs))
     s.
Proof.
  intros Hsvc.
  destruct (showPattern_quiet s) as (s1 & Hshow & H1 & H2 & H3 & H4 & _ & _).
  specialize (Hsvc s1 H1 H2).
  unfold loop. apply wp_bind. unfold wp at 1. rewrite Hshow.
  apply wp_bind. eapply wp_mono; [| |exact Hsvc]; cbn beta; [|tauto].
  intros _ s2 (Hu2 & e2 & He2 & Hr2).
  eapply wp_mono; [| |apply pass_rest]; cbn beta.
  - intros _ s' (Hu' & e' & He' & Hr'). split; [lia|].
    exists (e2 ++ e'). rewrite He', He2, H3, <- app_assoc, repliesOf_app, Hr', app_nil_r.
    split; [reflexivity | exact Hr2].
  - intros s0 (Hu' & e' & He' & Hr'). split; [lia|].
    exists (e2 ++ e'). rewrite He', He2, H3, <- app_assoc, repliesOf_app, Hr', app_nil_r.
    split; [reflexivity | exact Hr2].
Qed.

(** [serviceAp] serves the pending request, if it owes an answer, and
    then skips the idle check; else it answers nothing. *)
Lemma serviceAp_answers i s1 :
  wp (serviceAp w i)
     (fun _ s2 => uptime s1 <= uptime s2 <= uptime s1 + 10000 /\
                  exists evs, trace s2 = trace s1 ++ evs /\
                              length (repliesOf evs) = answersDue i s1)
     (fun _ => False) s1.
Proof.
  unfold answersDue.
  destruct (serviceAp_cases i s1) as [[Hrs Heq] | [(Hrs & Hc & Heq) | (Hrs & Hup & rq & Hc & Heq)]];
    unfold wp; rewrite Heq.
  - split; [lia|]. exists []. split; [symmetry; apply app_nil_r|].
    destruct (runState s1); try reflexivity. contradiction Hrs. reflexivity.
  - pose proof (idleRetry_quiet s1) as Hidle. unfold wp in Hidle.
    destruct (idleRetry w s1) as [[] s2| |]; try contradiction.
    destruct Hidle as (Hu & evs & He & Hr). split; [exact Hu|].
    exists evs. split; [exact He|]. rewrite Hr, Hrs.
    destruct Hc as [-> | ->]; [destruct (serverUp s1)|]; reflexivity.
  - pose proof (route_served w (networks i) rq s1) as Hroute. unfold wp in Hroute.
    unfold bind. destruct (route w (networks i) rq s1) as [[] s2| |]; try contradiction.
    rewrite (served_skips_idle w _ _ Hroute).
    destruct Hroute as (_ & Hu & evs & He & Hr). split; [exact Hu|].
    exists evs. split; [exact He|]. rewrite Hr, Hrs, Hup, Hc. reflexivity.
Qed.

End Pass.

(** X12. Every pass of [loop] ends: it returns 20 ms to 10020 ms after
    it began, or, when the button check starts the factory reset, restarts
    the device 1800 ms to 11800 ms after it began. So the button is sampled
    and the indicators are updated at least every 10.02 s, and at least
    every 20 ms. *)
Theorem pass_duration w i s :
  wp (loop w i)
     (fun _ s' => uptime s + 20 <= uptime s' <= uptime s + 10020)
     (fun s0 => uptime s + 1800 <= uptime s0 <= uptime s + 11800)
     s.
Proof.
  eapply wp_mono; [| |apply (pass_summary w i s (fun _ => True))]; cbn beta.
  - intros _ s' [H _]. exact H.
  - intros s0 [H _]. exact H.
  - intros s1 _ _. eapply wp_mono; [| |apply (serviceAp_answers w i s1)]; cbn beta; [|tauto].
    intros _ s2 (Hu & evs & He & _). split; [exact Hu|]. exists evs. auto.
Qed.

(** X13. A pass of [loop] sends exactly one HTTP answer when it begins in
    AP_SETUP with the server running and a request pending, and none
    otherwise; this holds up to the end of the pass and up to the restart
    if the pass ends in a factory reset. *)
Theorem pass_answers_once w i s :
  wp (loop w i)
     (fun _ s' => exists evs, trace s' = trace s ++ evs /\
                              length (repliesOf evs) = answersDue i s)
     (fun s0 => exists evs, trace s0 = trace s ++ evs /\
                            length (repliesOf evs) = answersDue i s)
     s.
Proof.
  eapply wp_mono;
    [| |apply (pass_summary w i s (fun rs => length rs = answersDue i s))]; cbn beta.
  - intros _ s' [_ H]. exact H.
  - intros s0 [_ H]. exact H.
  - intros s1 H1 H2. eapply wp_mono; [| |apply (serviceAp_answers w i s1)]; cbn beta; [|tauto].
    intros _ s2 (Hu & evs & He & Hr). split; [exact Hu|]. exists evs. split; [exact He|].
    rewrite Hr. unfold answersDue. rewrite H1, H2. reflexivity.
Qed.

(** ** Requests *)

(** X14. GET /status, served by [loop], always answers with the state
    AP_ACTIVE: requests are served in AP_SETUP only, so the CONNECTING and
    CONNECTED answers of [handleStatus] are never sent. *)
Theorem status_reports_setup_only w i s rq :
  client i = Some rq -> req_method rq = HTTP_GET -> req_uri rq = "/status" ->
  wp (loop w i)
     (fun _ s' => exists evs, trace s' = trace s ++ evs /\
                              repliesOf evs = repeat apActiveReply (answersDue i s))
     (fun s0 => exists evs, trace s0 = trace s ++ evs /\
                            repliesOf evs = repeat apActiveReply (answersDue i s))
     s.
Proof.
  intros Hc Hm Hu.
  eapply wp_mono;
    [| |apply (pass_summary w i s (fun rs => rs = repeat apActiveReply (answersDue i s)))];
    cbn beta.
  - intros _ s' [_ H]. exact H.
  - intros s0 [_ H]. exact H.
  - intros s1 H1 H2. unfold answersDue. rewrite <- H1, <- H2, Hc.
    destruct (serviceAp_cases w i s1)
      as [[Hrs Heq] | [(Hrs & Hq & Heq) | (Hrs & Hup & rq' & Hc' & Heq)]];
      unfold wp; rewrite Heq.
    + split; [lia|]. exists []. split; [symmetry; apply app_nil_r|].
      destruct (runState s1); try reflexivity. contradiction Hrs. reflexivity.
    + destruct Hq as [Hq | Hq]; [congruence|].
      pose proof (idleRetry_quiet w s1) as Hidle. unfold wp in Hidle.
      destruct (idleRetry w s1) as [[] s2| |]; try contradiction.
      destruct Hidle as (Hu2 & evs & He & Hr). split; [exact Hu2|].
      exists evs. split; [exact He|]. rewrite Hr, Hrs, Hq. reflexivity.
    + assert (rq' = rq) as -> by congruence.
      assert (Hroute : route w (networks i) rq s1 =
                Ret tt (set_lastHttpActivityMs (wrap32 (uptime s1))
                          (set_trace (trace s1 ++ [EvSend 200 "application/json"
                                                     (snd apActiveReply)]) s1))).
      { unfold route. rewrite Hm, Hu. cbn [String.eqb Ascii.eqb Bool.eqb].
        unfold handleStatus, touchHttpActivity. sketch_step. rewrite Hrs. reflexivity. }
      unfold bind. rewrite Hroute.
      rewrite idleRetry_skip
        by (dev_simpl; rewrite wrap32_elapsed_0; unfold AP_IDLE_TIMEOUT_MS; lia).
      dev_simpl. split; [lia|]. eexists. split; [reflexivity|].
      rewrite Hrs, Hup. reflexivity.
Qed.

Lemma status_reports_setup_only_witness :
  client statusTick = Some (mkRequest HTTP_GET "/status" []) /\
  req_method (mkRequest HTTP_GET "/status" []) = HTTP_GET /\
  req_uri (mkRequest HTTP_GET "/status" []) = "/status" /\
  wp (loop neverConnects statusTick)
     (fun _ s' => exists evs, trace s' = trace apDevice ++ evs /\
                              repliesOf evs = repeat apActiveReply (answersDue statusTick apDevice))
     (fun s0 => exists evs, trace s0 = trace apDevice ++ evs /\
                            repliesOf evs = repeat apActiveReply (answersDue statusTick apDevice))
     apDevice.
Proof.
  split; [reflexivity|]. split; [reflexivity|]. split; [reflexivity|].
  exact (status_reports_setup_only neverConnects statusTick apDevice
           (mkRequest HTTP_GET "/status" []) eq_refl eq_refl eq_refl).
Defined.

(** X15. The captive portal's catch-all: a request that is not GET /scan,
    GET /status, GET /ncsi.txt or POST /save is answered with status 200
    and the setup page, whatever its method and path, and changes nothing
    but the idle timer. *)
Theorem route_serves_page_by_default w nets rq s :
  apiRoute rq = false ->
  route w nets rq s =
  Ret tt (set_lastHttpActivityMs (wrap32 (uptime s))
            (set_trace (trace s ++ [EvSend 200 "text/html" (index_page w)]) s)).
Proof.
  unfold apiRoute, route, handleRoot, handleNotFound, servePage, touchHttpActivity.
  destruct (req_method rq).
  - intros H. apply orb_false_iff in H. destruct H as [H H3].
    apply orb_false_iff in H. destruct H as [H1 H2]. rewrite H1, H2, H3.
    repeat (destruct (String.eqb (req_uri rq) _)); reflexivity.
  - intros ->. reflexivity.
  - intros _. reflexivity.
Qed.

Lemma route_serves_page_by_default_witness :
  apiRoute (mkRequest HTTP_GET "/save" [("ssid", "HomeNet"); ("pass", "12345678")]) = false /\
  route neverConnects []
    (mkRequest HTTP_GET "/save" [("ssid", "HomeNet"); ("pass", "12345678")]) apDevice =
  Ret tt (set_lastHttpActivityMs (wrap32 (uptime apDevice))
            (set_trace (trace apDevice ++ [EvSend 200 "text/html" (index_page neverConnects)])
               apDevice)).
Proof.
  split; [reflexivity|].
  exact (route_serves_page_by_default neverConnects []
           (mkRequest HTTP_GET "/save" [("ssid", "HomeNet"); ("pass", "12345678")]) apDevice
           eq_refl).
Defined.

(** X16. In AP_SETUP with the server running, a pass of [loop] that
    serves a request other than POST /save keeps the device in AP_SETUP
    with the server running and polls no radio status, so no idle retry is
    made in that pass however long the device has been idle. Unless the
    request is GET /scan, the pass takes, on the clock of the model, where
    time passes in [delay] only, the 20 ms of its closing wait, and
    restarts the idle timer at the time the pass began. Of a GET /scan
    pass, which waits for the scan in [WiFi.scanNetworks()], no time is
    stated. *)
Theorem request_keeps_setup_alive w i s rq :
  runState s = AP_SETUP -> serverUp s = true -> client i = Some rq ->
  req_method rq <> HTTP_POST \/ req_uri rq <> "/save" ->
  wp (loop w i)
     (fun _ s' => runState s' = AP_SETUP /\ serverUp s' = true /\ polls s' = polls s /\
                  (scanRequest rq = false ->
                   uptime s' = uptime s + 20 /\ lastHttpActivityMs s' = wrap32 (uptime s)))
     (fun s0 => runState s0 = AP_SETUP /\ serverUp s0 = true /\ polls s0 = polls s /\
                (scanRequest rq = false ->
                 uptime s0 = uptime s + 1800 /\ lastHttpActivityMs s0 = wrap32 (uptime s)))
     s.
Proof.
  intros Hrs Hup Hc Hrq.
  destruct (showPattern_quiet s) as (s1 & Hshow & H1 & H2 & H3 & H4 & H5 & H6).
  destruct (route_plain w (networks i) rq s1 Hrq) as (ctype & body & Hroute).
  set (s2 := set_lastHttpActivityMs (wrap32 (uptime s1))
               (set_trace (trace s1 ++ [EvSend 200 ctype body]) s1)) in *.
  assert (Hsvc : serviceAp w i s1 = Ret tt s2).
  { unfold serviceAp, server_handleClient. sketch_step.
    rewrite H1, Hrs, H2, Hup, Hc, Hroute.
    apply idleRetry_skip. subst s2. dev_simpl.
    rewrite wrap32_elapsed_0. unfold AP_IDLE_TIMEOUT_MS. lia. }
  assert (F : runState s2 = AP_SETUP /\ serverUp s2 = true /\ polls s2 = polls s /\
              uptime s2 = uptime s /\ lastHttpActivityMs s2 = wrap32 (uptime s)).
  { subst s2. dev_simpl. rewrite H1, H2, H4, H6. auto. }
  clearbody s2. destruct F as (F1 & F2 & F3 & F4 & F5).
  destruct (maybeShutdown_cases s2) as (s3 & Hshut & _ & _ & _ & _ & _ & _ & Hsame).
  rewrite Hsame in Hshut by (rewrite F1; discriminate). clear s3 Hsame.
  unfold wp, loop. unfold bind at 1. rewrite Hshow.
  unfold bind at 1. rewrite Hsvc. unfold bind at 1. rewrite Hshut.
  destruct ((factoryResetCheck (push01 i) ;;; delay 20) s2) as [[] s'| s0 |] eqn:Htail.
  - apply button_tail_same in Htail.
    destruct Htail as (T1 & _ & _ & _ & T5 & _ & T7 & T8 & _ & T10 & _).
    rewrite T1, T5, T7, T8, T10.
    split; [exact F1|]. split; [exact F2|]. split; [exact F3|].
    intros _. split; congruence.
  - apply button_tail_reboot in Htail. subst s0. unfold afterFactoryReset. dev_simpl.
    split; [exact F1|]. split; [exact F2|]. split; [exact F3|].
    intros _. split; congruence.
  - exact (button_tail_returns _ _ Htail).
Qed.

Lemma request_keeps_setup_alive_witness :
  runState idleDevice = AP_SETUP /\ serverUp idleDevice = true /\
  client statusTick = Some (mkRequest HTTP_GET "/status" []) /\
  (req_method (mkRequest HTTP_GET "/status" []) <> HTTP_POST \/
   req_uri (mkRequest HTTP_GET "/status" []) <> "/save") /\
  scanRequest (mkRequest HTTP_GET "/status" []) = false /\
  wp (loop neverConnects statusTick)
     (fun _ s' => runState s' = AP_SETUP /\ serverUp s' = true /\ polls s' = polls idleDevice /\
                  (scanRequest (mkRequest HTTP_GET "/status" []) = false ->
                   uptime s' = uptime idleDevice + 20 /\
                   lastHttpActivityMs s' = wrap32 (uptime idleDevice)))
     (fun s0 => runState s0 = AP_SETUP /\ serverUp s0 = true /\ polls s0 = polls idleDevice /\
                (scanRequest (mkRequest HTTP_GET "/status" []) = false ->
                 uptime s0 = uptime idleDevice + 1800 /\
                 lastHttpActivityMs s0 = wrap32 (uptime idleDevice)))
     idleDevice.
Proof.
  assert (H1 : runState idleDevice = AP_SETUP) by (vm_compute; reflexivity).
  assert (H2 : serverUp idleDevice = true) by (vm_compute; reflexivity).
  assert (H3 : req_method (mkRequest HTTP_GET "/status" []) <> HTTP_POST \/
               req_uri (mkRequest HTTP_GET "/status" []) <> "/save") by (left; discriminate).
  split; [exact H1|]. split; [exact H2|]. split; [reflexivity|]. split; [exact H3|].
  split; [reflexivity|].
  exact (request_keeps_setup_alive neverConnects statusTick idleDevice
           (mkRequest HTTP_GET "/status" []) H1 H2 eq_refl H3).
Defined.

Lemma string_app_cons x (a b : string) : String x a +:+ b = String x (a +:+ b).
Proof. reflexivity. Qed.

Lemma string_app_assoc (a b c : string) : (a +:+ b) +:+ c = a +:+ (b +:+ c).
Proof.
  induction a as [|x a IH]; [reflexivity|]. rewrite !string_app_cons, IH. reflexivity.
Qed.

Lemma string_app_nil_r (a : string) : a +:+ EmptyString = a.
Proof. induction a as [|x a IH]; [reflexivity|]. rewrite string_app_cons, IH. reflexivity. Qed.

Lemma scanEntries_join nets : scanEntries nets = String.concat "," (map scanEntry nets).
Proof.
  induction nets as [|n rest IH]; [reflexivity|].
  cbn [scanEntries map]. rewrite IH. unfold scanEntry.
  destruct rest as [|n' rest].
  - cbn [map String.concat]. rewrite !string_app_assoc. reflexivity.
  - cbn [map]. change (String.concat "," (?x :: ?y :: ?l))
      with (x +:+ "," +:+ String.concat "," (y :: l)).
    rewrite !string_app_assoc. reflexivity.
Qed.

(** X17. [handleScan] answers 200, application/json, with the networks
    in scan order, one object each, joined by commas and enclosed in
    brackets: no comma follows the last object, and an empty scan gives the
    empty list. It changes nothing but the idle timer. *)
Theorem handleScan_lists_networks nets s :
  handleScan nets s =
  Ret tt (set_lastHttpActivityMs (wrap32 (uptime s))
            (set_trace (trace s ++ [EvSend 200 "application/json"
                                      ("[" +:+ String.concat "," (map scanEntry nets) +:+ "]")])
               s)).
Proof.
  unfold handleScan, touchHttpActivity. sketch_step. rewrite scanEntries_join. reflexivity.
Qed.

(** ** The idle retry that connects *)

(** The device after an idle retry that connected at poll [k]. *)
Lemma afterIdleRetry_connected (k : nat) s1 :
  0 < wrap32 (uptime s1 + 100 * Z.of_nat k) + 40000 < 2 ^ 32 ->
  let s2 := afterIdleRetry k true s1 in
  runState s2 = CONNECTED /\ led01 s2 = HIGH /\ led02 s2 = LOW /\
  apShutdownAt s2 = wrap32 (uptime s1 + 100 * Z.of_nat k) + 40000 /\
  serverUp s2 = serverUp s1 /\ dnsUp s2 = dnsUp s1 /\
  polls s2 = (polls s1 + k + 1)%nat /\
  uptime s2 = uptime s1 + 100 * Z.of_nat k /\
  lastHttpActivityMs s2 = wrap32 (uptime s1).
Proof.
  intros Hwrap. cbv zeta. unfold afterIdleRetry, afterPolls, beganWhileAp. dev_simpl.
  pose proof (wrap32_range (uptime s1 + 100 * Z.of_nat k)) as Hr.
  rewrite (wrap32_small (wrap32 (uptime s1 + 100 * Z.of_nat k) + 40000)) by lia.
  do 8 (split; [reflexivity|]). reflexivity.
Qed.

(** A deadline that lies ahead is left pending. *)
Lemma maybeShutdown_pending s2 :
  wrap32 (uptime s2) < apShutdownAt s2 -> maybeShutdown s2 = Ret tt s2.
Proof.
  intros Hlt. unfold maybeShutdown. sketch_step.
  destruct (Z.geb_spec (wrap32 (uptime s2)) (apShutdownAt s2)) as [Hge|_]; [lia|].
  rewrite andb_false_r. destruct (runState s2); reflexivity.
Qed.

(** X18. A pass of [loop] in AP_SETUP that serves no request and finds
    the idle deadline elapsed, with the radio reporting the connection at
    poll [k] of the one attempt: the device becomes CONNECTED with
    indicator A lit and B dark, and the shutdown of the setup service is
    scheduled 40 s after the successful poll; the HTTP and DNS services are
    as before when the pass ends, 100 ms per failed poll and 20 ms after it
    began. (The clock is taken not to wrap within those 40 s.) *)
Theorem idle_retry_connects w i s (k : nat) :
  runState s = AP_SETUP ->
  client i = None \/ serverUp s = false ->
  wrap32 (wrap32 (uptime s) - lastHttpActivityMs s) > AP_IDLE_TIMEOUT_MS ->
  (k < 100)%nat -> wl_status w (polls s + k) = true ->
  (forall j, (j < k)%nat -> wl_status w (polls s + j) = false) ->
  0 < wrap32 (uptime s + 100 * Z.of_nat k) + 40000 < 2 ^ 32 ->
  wp (loop w i)
     (fun _ s' =>
        runState s' = CONNECTED /\ led01 s' = HIGH /\ led02 s' = LOW /\
        apShutdownAt s' = wrap32 (uptime s + 100 * Z.of_nat k) + 40000 /\
        serverUp s' = serverUp s /\ dnsUp s' = dnsUp s /\
        polls s' = (polls s + k + 1)%nat /\
        uptime s' = uptime s + 100 * Z.of_nat k + 20 /\
        lastHttpActivityMs s' = wrap32 (uptime s))
     (fun _ => True) s.
Proof.
  intros Hrs Hreq Hidle Hk Hyes Hno Hwrap.
  destruct (showPattern_setup s Hrs) as (a1 & a2 & p & t & Hshow).
  remember (set_setupPhaseStartMs t (set_setupPhase p (set_led02 a2 (set_led01 a1 s))))
    as s1 eqn:Es1.
  assert (F : runState s1 = runState s /\ serverUp s1 = serverUp s /\ dnsUp s1 = dnsUp s /\
              uptime s1 = uptime s /\ lastHttpActivityMs s1 = lastHttpActivityMs s /\
              polls s1 = polls s)
    by (subst s1; dev_simpl; repeat split; reflexivity).
  clear Es1. destruct F as (F1 & F2 & F3 & F4 & F5 & F6).
  destruct (serviceAp_idle w i s1) as (k' & b' & Hno' & Hb' & Hsvc).
  { congruence. }
  { rewrite F2. exact Hreq. }
  { rewrite F4, F5. exact Hidle. }
  rewrite F6 in Hno', Hb'.
  assert (b' = true /\ k' = k) as [-> ->].
  { destruct b'.
    - split; [reflexivity|]. destruct Hb' as [Hb' _].
      destruct (Nat.lt_trichotomy k' k) as [Hlt | [Heq | Hgt]]; [|exact Heq|].
      + rewrite Hno in Hb' by exact Hlt. discriminate.
      + rewrite Hno' in Hyes by exact Hgt. discriminate.
    - subst k'. rewrite Hno' in Hyes by exact Hk. discriminate. }
  pose proof (afterIdleRetry_connected k s1 ltac:(rewrite F4; exact Hwrap)) as G.
  cbv zeta in G. rewrite F2, F3, F4, F6 in G.
  generalize dependent (afterIdleRetry k true s1). intros s2 Hsvc G.
  destruct G as (G1 & G2 & G3 & G4 & G5 & G6 & G7 & G8 & G9).
  assert (Hshut : maybeShutdown s2 = Ret tt s2).
  { apply maybeShutdown_pending. rewrite G4, G8. lia. }
  unfold wp, loop. unfold bind at 1. rewrite Hshow.
  unfold bind at 1. rewrite Hsvc. unfold bind at 1. rewrite Hshut.
  destruct ((factoryResetCheck (push01 i) ;;; delay 20) s2) as [[] s'| s0 |] eqn:Htail.
  - assert (Hl1 : led01 s' = led01 s2).
    { revert Htail. unfold bind. destruct (push01 i).
      - destruct (factoryBtnHeld s2) eqn:Hh.
        + rewrite factoryResetCheck_held by exact Hh.
          destruct (_ >=? _); [discriminate|]. intros [= <-]. reflexivity.
        + rewrite factoryResetCheck_press by exact Hh. intros [= <-]. reflexivity.
      - rewrite factoryResetCheck_HIGH. intros [= <-]. reflexivity. }
    apply button_tail_same in Htail.
    destruct Htail as (T1 & T2 & T3 & _ & T5 & T6 & T7 & T8 & _ & T10 & _).
    rewrite T1, Hl1, T2, T3, T5, T6, T7, T8, T10, G1, G2, G3, G4, G5, G6, G7, G8, G9.
    do 8 (split; [reflexivity|]). reflexivity.
  - exact I.
  - exact (button_tail_returns _ _ Htail).
Qed.

Lemma idle_retry_connects_witness :
  runState idleDevice = AP_SETUP /\
  (client quietTick = None \/ serverUp idleDevice = false) /\
  wrap32 (wrap32 (uptime idleDevice) - lastHttpActivityMs idleDevice) > AP_IDLE_TIMEOUT_MS /\
  (7 < 100)%nat /\
  wl_status (connectsAtPoll 507) (polls idleDevice + 7) = true /\
  (forall j, (j < 7)%nat -> wl_status (connectsAtPoll 507) (polls idleDevice + j) = false) /\
  0 < wrap32 (uptime idleDevice + 100 * Z.of_nat 7) + 40000 < 2 ^ 32 /\
  wp (loop (connectsAtPoll 507) quietTick)
     (fun _ s' =>
        runState s' = CONNECTED /\ led01 s' = HIGH /\ led02 s' = LOW /\
        apShutdownAt s' = wrap32 (uptime idleDevice + 100 * Z.of_nat 7) + 40000 /\
        serverUp s' = serverUp idleDevice /\ dnsUp s' = dnsUp idleDevice /\
        polls s' = (polls idleDevice + 7 + 1)%nat /\
        uptime s' = uptime idleDevice + 100 * Z.of_nat 7 + 20 /\
        lastHttpActivityMs s' = wrap32 (uptime idleDevice))
     (fun _ => True) idleDevice.
Proof.
  assert (H1 : runState idleDevice = AP_SETUP) by (vm_compute; reflexivity).
  assert (H2 : client quietTick = None \/ serverUp idleDevice = false) by (left; reflexivity).
  assert (H3 : wrap32 (wrap32 (uptime idleDevice) - lastHttpActivityMs idleDevice)
               > AP_IDLE_TIMEOUT_MS) by (vm_compute; reflexivity).
  assert (H4 : (7 < 100)%nat) by lia.
  assert (H5 : wl_status (connectsAtPoll 507) (polls idleDevice + 7) = true)
    by (vm_compute; reflexivity).
  assert (H6 : forall j, (j < 7)%nat ->
                 wl_status (connectsAtPoll 507) (polls idleDevice + j) = false).
  { intros j Hj. change (polls idleDevice) with 500%nat. apply Nat.leb_gt. lia. }
  assert (H7 : 0 < wrap32 (uptime idleDevice + 100 * Z.of_nat 7) + 40000 < 2 ^ 32)
    by (vm_compute; split; reflexivity).
  split; [exact H1|]. split; [exact H2|]. split; [exact H3|]. split; [exact H4|].
  split; [exact H5|]. split; [exact H6|]. split; [exact H7|].
  exact (idle_retry_connects (connectsAtPoll 507) quietTick idleDevice 7 H1 H2 H3 H4 H5 H6 H7).
Defined.

(** ** Indicator A in the blink cycle *)

Section BlinkA.

Variable w : World.

(** What one call of [showSetupPattern] does to indicator A. *)
Lemma showSetupPattern_led01 s :
  exists s1,
    showSetupPattern s = Ret tt s1 /\
    led01 s1 = match setupPhase s, phaseElapsed s >=? 200 with
               | BLINK1_ON, true => LOW
               | BLINK1_ON, false => HIGH
               | BLINK1_OFF, true => HIGH
               | BLINK2_ON, true => LOW
               | _, _ => led01 s
               end.
Proof.
  dev_open s. unfold showSetupPattern, phaseElapsed. sketch_run.
  destruct phase; try destruct (_ >=? 200) eqn:E; try destruct (_ >=? 1200);
    sketch_run; eexists; (split; [reflexivity|]); reflexivity.
Qed.

Lemma blink_step u0 last n s s' :
  0 <= n ->
  inCycle u0 last n s -> led01 s = blinkAfterPass n ->
  wrap32 (wrap32 (uptime s) - last) <= AP_IDLE_TIMEOUT_MS ->
  loop w quietTick s = Ret tt s' ->
  led01 s' = blinkAfterPass (n + 1).
Proof.
  intros Hn (Hrs & Hl & Hu & Hp & He & _) Hled Hidle Hloop.
  destruct (showSetupPattern_led01 s) as (s1 & Hshow & Hled1).
  rewrite (quiet_pass w s s1 Hrs) in Hloop; [|rewrite Hl; exact Hidle|exact Hshow].
  injection Hloop as <-. unfold closePass. dev_simpl.
  rewrite Hled1, Hp, He, Hled. clear Hled1 Hp He Hled Hshow.
  unfold blinkAfterPass. rewrite (next_pass_mod n Hn).
  pose proof (Z.mod_pos_bound n 100 ltac:(lia)) as Hq.
  destruct (Z.eqb_spec (n + 1) 0) as [H0|_]; [lia|].
  destruct (Z.eqb_spec n 0) as [->|Hn0].
  - reflexivity.
  - set (q := n mod 100) in *. clearbody q.
    unfold phaseOfPass, phaseStartPass, blinkAtMs.
    destruct (Z.eqb_spec q 99) as [->|Hne]; [reflexivity|].
    destruct (Z.ltb_spec q 10); [|destruct (Z.ltb_spec q 20); [|destruct (Z.ltb_spec q 30);
      [|destruct (Z.ltb_spec q 40)]]].
    all: decide_tests; reflexivity.
Qed.

Lemma blink_run u0 last : forall (m : nat) n s,
  0 <= n ->
  inCycle u0 last n s -> led01 s = blinkAfterPass n ->
  wrap32 (wrap32 (uptime s) - last) + 20 * Z.of_nat m <= AP_IDLE_TIMEOUT_MS ->
  exists s', run w (repeat quietTick m) s = Ret tt s' /\
             inCycle u0 last (n + Z.of_nat m) s' /\ led01 s' = blinkAfterPass (n + Z.of_nat m).
Proof.
  induction m as [|m IH]; intros n s Hn Hin Hled Hidle.
  - exists s. split; [reflexivity|]. rewrite Z.add_0_r. split; assumption.
  - destruct (cycle_step w u0 last n s Hn Hin) as (s1 & Heq & Hin1); [lia|].
    pose proof (blink_step u0 last n s s1 Hn Hin Hled ltac:(lia) Heq) as Hled1.
    destruct (IH (n + 1) s1) as (s' & Heq' & Hin' & Hled'); [lia | exact Hin1 | exact Hled1 | |].
    + destruct Hin as (_ & _ & Hu & _). destruct Hin1 as (_ & _ & Hu1 & _).
      replace (uptime s1) with (uptime s + 20) by lia.
      pose proof (wrap32_range (wrap32 (uptime s) - last)).
      rewrite elapsed_advance; unfold AP_IDLE_TIMEOUT_MS in *; lia.
    + exists s'. cbn [repeat run]. unfold bind. rewrite Heq. split; [exact Heq'|].
      replace (n + Z.of_nat (S m)) with (n + 1 + Z.of_nat m) by lia. split; assumption.
Qed.

End BlinkA.

(** X19. Indicator A's double blink. From the start of the access point,
    while the passes of [loop] follow each other every 20 ms (no request,
    no idle retry, button released), the pass at [r] ms into a 2000 ms
    cycle leaves indicator A lit exactly when [20 <= r < 200] or
    [400 <= r < 600]; only the very first pass, at [r = 0], lights it at
    once. The pass that begins BLINK1_ON after the pause does not write the
    indicator, so the first blink of a cycle is lit for 180 ms and the
    second for 200 ms. *)
Theorem setup_double_blink w s (m : nat) :
  runState s = AP_SETUP -> setupPhase s = BLINK1_ON ->
  setupPhaseStartMs s = wrap32 (uptime s) ->
  wrap32 (wrap32 (uptime s) - lastHttpActivityMs s) + 20 * Z.of_nat (S m)
    <= AP_IDLE_TIMEOUT_MS ->
  exists s',
    run w (repeat quietTick (S m)) s = Ret tt s' /\
    uptime s' = uptime s + 20 * Z.of_nat (S m) /\
    led01 s' = match m with
               | O => HIGH
               | S _ => blinkAtMs ((20 * Z.of_nat m) mod 2000)
               end.
Proof.
  intros Hrs Hp Hst Hidle.
  pose proof (wrap32_range (wrap32 (uptime s) - lastHttpActivityMs s)) as Hr.
  destruct (cycle_start w s Hrs Hp Hst) as (s1 & Heq1 & Hin1); [lia|].
  assert (Hled1 : led01 s1 = blinkAfterPass 0).
  { destruct (showSetupPattern_led01 s) as (s0 & Hshow & Hled0).
    rewrite (quiet_pass w s s0 Hrs) in Heq1; [|lia|exact Hshow].
    injection Heq1 as <-. unfold closePass. dev_simpl.
    rewrite Hled0, Hp. unfold phaseElapsed. rewrite Hst, wrap32_elapsed_0. reflexivity. }
  destruct (blink_run w (uptime s) (lastHttpActivityMs s) m 0 s1 ltac:(lia) Hin1 Hled1)
    as (s' & Heq' & Hin' & Hled').
  { destruct Hin1 as (_ & _ & Hu1 & _).
    replace (uptime s1) with (uptime s + 20) by lia.
    rewrite elapsed_advance; unfold AP_IDLE_TIMEOUT_MS in *; lia. }
  exists s'. split; [cbn [repeat run]; unfold bind; rewrite Heq1; exact Heq'|].
  destruct Hin' as (_ & _ & Hu & _). rewrite Z.add_0_l in *.
  split; [lia|]. rewrite Hled'. unfold blinkAfterPass.
  destruct m as [|m]; [reflexivity|].
  destruct (Z.eqb_spec (Z.of_nat (S m)) 0) as [H0|_]; [lia|].
  f_equal. symmetry. apply (Zmult_mod_distr_l (Z.of_nat (S m)) 100 20).
Qed.

Lemma setup_double_blink_witness :
  runState apDevice = AP_SETUP /\ setupPhase apDevice = BLINK1_ON /\
  setupPhaseStartMs apDevice = wrap32 (uptime apDevice) /\
  wrap32 (wrap32 (uptime apDevice) - lastHttpActivityMs apDevice) + 20 * Z.of_nat 101
    <= AP_IDLE_TIMEOUT_MS /\
  exists s',
    run neverConnects (repeat quietTick 101) apDevice = Ret tt s' /\
    uptime s' = uptime apDevice + 20 * Z.of_nat 101 /\
    led01 s' = blinkAtMs ((20 * Z.of_nat 100) mod 2000).
Proof.
  assert (H1 : runState apDevice = AP_SETUP) by (vm_compute; reflexivity).
  assert (H2 : setupPhase apDevice = BLINK1_ON) by (vm_compute; reflexivity).
  assert (H3 : setupPhaseStartMs apDevice = wrap32 (uptime apDevice))
    by (vm_compute; reflexivity).
  assert (H4 : wrap32 (wrap32 (uptime apDevice) - lastHttpActivityMs apDevice)
               + 20 * Z.of_nat 101 <= AP_IDLE_TIMEOUT_MS) by (vm_compute; discriminate).
  split; [exact H1|]. split; [exact H2|]. split; [exact H3|]. split; [exact H4|].
  exact (setup_double_blink neverConnects apDevice 100 H1 H2 H3 H4).
Defined.

(** The first pass lights indicator A; a hundred passes later, at the
    start of the second cycle, the pass leaves it dark. *)
Example double_blink_example :
  led01 (stateOf (run neverConnects (repeat quietTick 1) apDevice)) = HIGH /\
  led01 (stateOf (run neverConnects (repeat quietTick 101) apDevice)) = LOW /\
  led01 (stateOf (run neverConnects (repeat quietTick 102) apDevice)) = HIGH.
Proof. vm_compute. repeat split; reflexivity. Qed.

(** ** Leaving the setup mode *)

Section Reports.

Variable w : World.

Lemma tryConnectWhileAp_reports ssid pass m s :
  exists (k : nat) (b : bool),
    tryConnectWhileAp w ssid pass m CONNECT_TIMEOUT_MS s =
      Ret b (afterPolls k b (beganWhileAp ssid pass s)).
Proof.
  destruct (tryConnectWhileAp_spec w ssid pass m s) as (k & b & Heq & _). eauto.
Qed.

Lemma idleRetry_reports s :
  wp (idleRetry w)
     (fun _ s' => exists evs, trace s' = trace s ++ evs /\
                  (runState s' = runState s \/
                   runState s' = CONNECTED /\ In (EvWifiStatus true) evs))
     (fun _ => False) s.
Proof.
  unfold wp, idleRetry, showConnected. sketch_step.
  destruct (_ >? _).
  - sketch_step.
    match goal with |- context [tryConnectWhileAp w ?a ?b ?m _ ?s1] =>
      destruct (tryConnectWhileAp_reports a b m s1) as (k & b' & Heq); rewrite Heq; clear Heq
    end.
    destruct b'; sketch_step; unfold afterPolls, beganWhileAp; dev_simpl.
    + eexists. split; [rewrite <- !app_assoc; reflexivity|]. right. split; [reflexivity|].
      cbn [app]. do 2 right. apply in_or_app. right. left. reflexivity.
    + eexists. split; [rewrite <- !app_assoc; reflexivity|]. left. reflexivity.
  - exists []. split; [symmetry; apply app_nil_r | left; reflexivity].
Qed.

Lemma handleSave_reports rq s :
  runState s = AP_SETUP ->
  wp (handleSave w rq)
     (fun _ s' => exists evs, trace s' = trace s ++ evs /\
                  (runState s' = runState s \/
                   runState s' = CONNECTED /\ In (EvWifiStatus true) evs))
     (fun _ => False) s.
Proof.
  intros Hrs. unfold wp, handleSave, touchHttpActivity, saveCredentialsToNVS, showConnected.
  destruct (_ || _).
  - sketch_step. dev_simpl. eexists. split; [reflexivity | left; reflexivity].
  - sketch_step.
    match goal with |- context [tryConnectWhileAp w ?a ?b ?m _ ?s1] =>
      destruct (tryConnectWhileAp_reports a b m s1) as (k & b' & Heq); rewrite Heq; clear Heq
    end.
    destruct b'; sketch_step; unfold afterPolls, beganWhileAp; dev_simpl.
    + eexists. split; [rewrite <- !app_assoc; reflexivity|]. right. split; [reflexivity|].
      cbn [app]. do 5 right. apply in_or_app. right. left. reflexivity.
    + eexists. split; [rewrite <- !app_assoc; reflexivity|]. left. symmetry. exact Hrs.
Qed.

Lemma route_reports nets rq s :
  runState s = AP_SETUP ->
  wp (route w nets rq)
     (fun _ s' => exists evs, trace s' = trace s ++ evs /\
                  (runState s' = runState s \/
                   runState s' = CONNECTED /\ In (EvWifiStatus true) evs))
     (fun _ => False) s.
Proof.
  intros Hrs.
  assert (Hplain : req_method rq <> HTTP_POST \/ req_uri rq <> "/save" ->
            wp (route w nets rq)
               (fun _ s' => exists evs, trace s' = trace s ++ evs /\
                            (runState s' = runState s \/
                             runState s' = CONNECTED /\ In (EvWifiStatus true) evs))
               (fun _ => False) s).
  { intros Hrq. destruct (route_plain w nets rq s Hrq) as (ctype & body & Heq).
    unfold wp. rewrite Heq. dev_simpl. eexists. split; [reflexivity | left; reflexivity]. }
  destruct (String.eqb_spec (req_uri rq) "/save") as [Hu|Hu]; [|apply Hplain; right; exact Hu].
  destruct (req_method rq) eqn:Hm; try (apply Hplain; left; congruence).
  unfold route. rewrite Hm, Hu. cbn [String.eqb Ascii.eqb Bool.eqb].
  apply handleSave_reports, Hrs.
Qed.

Lemma maybeShutdown_runState s :
  exists s', maybeShutdown s = Ret tt s' /\ runState s' = runState s /\
             exists evs, trace s' = trace s ++ evs.
Proof.
  unfold maybeShutdown, stopCaptiveAP. sketch_step.
  destruct (runState s) eqn:Hrs; try destruct (_ && _);
    eexists; (split; [reflexivity|]); dev_simpl; (split; [auto|]).
  all: try (exists []; symmetry; apply app_nil_r).
  eexists. rewrite <- app_assoc. reflexivity.
Qed.

End Reports.

(** X20. The device leaves AP_SETUP for CONNECTED only in a pass of
    [loop] in which a status poll reported the connection: never on a
    timeout, and never by a request alone. *)
Theorem connected_only_after_report w i s s' :
  runState s = AP_SETUP -> loop w i s = Ret tt s' -> runState s' = CONNECTED ->
  exists evs, trace s' = trace s ++ evs /\ In (EvWifiStatus true) evs.
Proof.
  intros Hrs Hloop Hc.
  destruct (showPattern_quiet s) as (s1 & Hshow & H1 & _ & H3 & _).
  unfold loop in Hloop. unfold bind at 1 in Hloop. rewrite Hshow in Hloop.
  unfold bind at 1 in Hloop.
  assert (Hsvc : wp (serviceAp w i)
            (fun _ s2 => exists evs, trace s2 = trace s1 ++ evs /\
                         (runState s2 = runState s1 \/
                          runState s2 = CONNECTED /\ In (EvWifiStatus true) evs))
            (fun _ => False) s1).
  { destruct (serviceAp_cases w i s1)
      as [[Hn _] | [(_ & _ & Heq) | (Hrs1 & _ & rq & _ & Heq)]].
    - contradiction Hn. congruence.
    - unfold wp. rewrite Heq. apply idleRetry_reports.
    - unfold wp. rewrite Heq. unfold bind.
      pose proof (route_reports w (networks i) rq s1 Hrs1) as Hroute.
      pose proof (route_served w (networks i) rq s1) as Hserved.
      unfold wp in Hroute, Hserved.
      destruct (route w (networks i) rq s1) as [[] s2| |]; try contradiction.
      rewrite (served_skips_idle w _ _ Hserved). exact Hroute. }
  unfold wp in Hsvc.
  destruct (serviceAp w i s1) as [[] s2| |]; try contradiction.
  destruct Hsvc as (e2 & He2 & Hrun).
  unfold bind at 1 in Hloop.
  destruct (maybeShutdown_runState s2) as (s3 & Hshut & Hr3 & e3 & He3).
  rewrite Hshut in Hloop.
  apply button_tail_same in Hloop.
  destruct Hloop as (T1 & _ & _ & _ & _ & _ & _ & _ & T9 & _).
  destruct Hrun as [Hsame | [_ Hin]]; [congruence|].
  exists (e2 ++ e3 ++ [EvDelay 20]).
  rewrite T9, He3, He2, H3, <- !app_assoc. split; [reflexivity|].
  apply in_or_app. left. exact Hin.
Qed.

Lemma connected_only_after_report_witness :
  runState idleDevice = AP_SETUP /\
  loop (connectsAtPoll 507) quietTick idleDevice =
    Ret tt (stateOf (loop (connectsAtPoll 507) quietTick idleDevice)) /\
  runState (stateOf (loop (connectsAtPoll 507) quietTick idleDevice)) = CONNECTED /\
  exists evs,
    trace (stateOf (loop (connectsAtPoll 507) quietTick idleDevice)) = trace idleDevice ++ evs /\
    In (EvWifiStatus true) evs.
Proof.
  assert (H1 : runState idleDevice = AP_SETUP) by (vm_compute; reflexivity).
  assert (H2 : loop (connectsAtPoll 507) quietTick idleDevice =
               Ret tt (stateOf (loop (connectsAtPoll 507) quietTick idleDevice)))
    by (vm_compute; reflexivity).
  assert (H3 : runState (stateOf (loop (connectsAtPoll 507) quietTick idleDevice)) = CONNECTED)
    by (vm_compute; reflexivity).
  split; [exact H1|]. split; [exact H2|]. split; [exact H3|].
  exact (connected_only_after_report (connectsAtPoll 507) quietTick idleDevice _ H1 H2 H3).
Defined.

(** ** What a pass begins and writes *)

Section Writes.

Variable w : World.

Lemma showPattern_store s :
  exists s1,
    showPattern s = Ret tt s1 /\ trace s1 = trace s /\ prefs s1 = prefs s /\
    currentSsid s1 = currentSsid s /\ currentPass s1 = currentPass s.
Proof.
  dev_open s. unfold showPattern, showSetupPattern, showConnected, showConnectingPattern.
  sketch_run. destruct rs.
  - destruct (_ >=? _); sketch_run; eexists; (split; [reflexivity|]); dev_simpl;
      repeat split; reflexivity.
  - destruct phase; try destruct (_ >=? _); sketch_run; eexists; (split; [reflexivity|]);
      dev_simpl; repeat split; reflexivity.
  - sketch_run. eexists. split; [reflexivity|]. dev_simpl. repeat split; reflexivity.
Qed.

Lemma idleRetry_writes i s :
  wp (idleRetry w)
     (fun _ s' =>
        (exists evs, trace s' = trace s ++ evs /\
           (beginsOf evs = [] \/ beginsOf evs = [(currentSsid s', currentPass s')])) /\
        (prefs s' = prefs s \/ savedBy i (prefs s) (prefs s')))
     (fun _ => False) s.
Proof.
  unfold wp, idleRetry, showConnected. sketch_step.
  destruct (_ >? _).
  - sketch_step.
    match goal with |- context [tryConnectWhileAp w ?a ?b ?m _ ?s1] =>
      destruct (tryConnectWhileAp_reports w a b m s1) as (k & b' & Heq); rewrite Heq; clear Heq
    end.
    destruct b'; sketch_step; unfold afterPolls, beganWhileAp; dev_simpl.
    + split; [|left; reflexivity].
      eexists. split; [rewrite <- !app_assoc; reflexivity|]. right.
      cbn [app beginsOf]. rewrite !beginsOf_app, beginsOf_pollEvents. reflexivity.
    + split; [|left; reflexivity].
      eexists. split; [rewrite <- !app_assoc; reflexivity|]. right.
      cbn [app beginsOf]. rewrite !beginsOf_app, beginsOf_pollEvents. reflexivity.
  - split; [|left; reflexivity].
    exists []. split; [symmetry; apply app_nil_r | left; reflexivity].
Qed.

Lemma handleSave_writes i rq s :
  client i = Some rq -> req_method rq = HTTP_POST -> req_uri rq = "/save" ->
  wp (handleSave w rq)
     (fun _ s' =>
        (exists evs, trace s' = trace s ++ evs /\
           (beginsOf evs = [] \/ beginsOf evs = [(currentSsid s', currentPass s')])) /\
        (prefs s' = prefs s \/ savedBy i (prefs s) (prefs s')))
     (fun _ => False) s.
Proof.
  intros Hc Hm Hu.
  unfold wp, handleSave, touchHttpActivity, saveCredentialsToNVS, showConnected.
  destruct (_ || _) eqn:Hvalid.
  - sketch_step. dev_simpl. split; [|left; reflexivity].
    eexists. split; [reflexivity | left; reflexivity].
  - apply orb_false_iff in Hvalid. destruct Hvalid as [Hv1 Hv2].
    apply Z.eqb_neq in Hv1. apply Z.ltb_ge in Hv2.
    assert (Hsaved : forall p, savedBy i p
              (<["prov" := NvsUChar (1 mod 256)]>
                 (<["pass" := NvsString (server_arg (req_args rq) "pass")]>
                    (<["ssid" := NvsString (server_arg (req_args rq) "ssid")]> p)))).
    { intros p. exists rq. repeat split; assumption. }
    sketch_step.
    match goal with |- context [tryConnectWhileAp w ?a ?b ?m _ ?s1] =>
      destruct (tryConnectWhileAp_reports w a b m s1) as (k & b' & Heq); rewrite Heq; clear Heq
    end.
    destruct b'; sketch_step; unfold afterPolls, beganWhileAp; dev_simpl.
    + split; [|right; apply Hsaved].
      eexists. split; [rewrite <- !app_assoc; reflexivity|]. right.
      cbn [app beginsOf]. rewrite !beginsOf_app, beginsOf_pollEvents. reflexivity.
    + split; [|right; apply Hsaved].
      eexists. split; [rewrite <- !app_assoc; reflexivity|]. right.
      cbn [app beginsOf]. rewrite !beginsOf_app, beginsOf_pollEvents. reflexivity.
Qed.

Lemma serviceAp_writes i s1 :
  wp (serviceAp w i)
     (fun _ s2 =>
        (exists evs, trace s2 = trace s1 ++ evs /\
           (beginsOf evs = [] \/ beginsOf evs = [(currentSsid s2, currentPass s2)])) /\
        (prefs s2 = prefs s1 \/ savedBy i (prefs s1) (prefs s2)))
     (fun _ => False) s1.
Proof.
  destruct (serviceAp_cases w i s1)
    as [[_ Heq] | [(_ & _ & Heq) | (_ & _ & rq & Hc & Heq)]]; unfold wp; rewrite Heq.
  - split; [|left; reflexivity].
    exists []. split; [symmetry; apply app_nil_r | left; reflexivity].
  - apply idleRetry_writes.
  - unfold bind.
    pose proof (route_served w (networks i) rq s1) as Hserved. unfold wp in Hserved.
    assert (Hroute : wp (route w (networks i) rq)
              (fun _ s2 =>
                 (exists evs, trace s2 = trace s1 ++ evs /\
                    (beginsOf evs = [] \/ beginsOf evs = [(currentSsid s2, currentPass s2)])) /\
                 (prefs s2 = prefs s1 \/ savedBy i (prefs s1) (prefs s2)))
              (fun _ => False) s1).
    { assert (Hplain : req_method rq <> HTTP_POST \/ req_uri rq <> "/save" ->
                wp (route w (networks i) rq)
                  (fun _ s2 =>
                     (exists evs, trace s2 = trace s1 ++ evs /\
                        (beginsOf evs = [] \/
                         beginsOf evs = [(currentSsid s2, currentPass s2)])) /\
                     (prefs s2 = prefs s1 \/ savedBy i (prefs s1) (prefs s2)))
                  (fun _ => False) s1).
      { intros Hrq. destruct (route_plain w (networks i) rq s1 Hrq) as (ctype & body & Hr).
        unfold wp. rewrite Hr. dev_simpl. split; [|left; reflexivity].
        eexists. split; [reflexivity | left; reflexivity]. }
      destruct (String.eqb_spec (req_uri rq) "/save") as [Hu|Hu];
        [|apply Hplain; right; exact Hu].
      destruct (req_method rq) eqn:Hm; try (apply Hplain; left; congruence).
      unfold route. rewrite Hm, Hu. cbn [String.eqb Ascii.eqb Bool.eqb].
      apply handleSave_writes; assumption. }
    unfold wp in Hroute.
    destruct (route w (networks i) rq s1) as [[] s2| |]; try contradiction.
    rewrite (served_skips_idle w _ _ Hserved). exact Hroute.
Qed.

Lemma maybeShutdown_keeps s :
  exists s', maybeShutdown s = Ret tt s' /\ prefs s' = prefs s /\
             currentSsid s' = currentSsid s /\ currentPass s' = currentPass s /\
             exists evs, trace s' = trace s ++ evs /\ beginsOf evs = [].
Proof.
  unfold maybeShutdown, stopCaptiveAP. sketch_step.
  destruct (runState s) eqn:Hrs; try destruct (_ && _);
    eexists; (split; [reflexivity|]); dev_simpl; (do 3 (split; [reflexivity|])).
  all: try (exists []; split; [symmetry; apply app_nil_r | reflexivity]).
  eexists. rewrite <- app_assoc. split; reflexivity.
Qed.

(** A pass from beginning to end: the connection it begins, if any, and
    what it writes to the store. *)
Lemma pass_writes i s :
  wp (loop w i)
     (fun _ s' =>
        (exists evs, trace s' = trace s ++ evs /\
           (beginsOf evs = [] \/ beginsOf evs = [(currentSsid s', currentPass s')])) /\
        (prefs s' = prefs s \/ savedBy i (prefs s) (prefs s')))
     (fun s0 =>
        (exists evs, trace s0 = trace s ++ evs /\
           (beginsOf evs = [] \/ beginsOf evs = [(currentSsid s0, currentPass s0)])) /\
        prefs s0 = {[ "prov" := NvsUChar 0 ]})
     s.
Proof.
  destruct (showPattern_store s) as (s1 & Hshow & H1 & H2 & H3 & H4).
  unfold loop. apply wp_bind. unfold wp at 1. rewrite Hshow.
  apply wp_bind. eapply wp_mono; [| |apply serviceAp_writes]; cbn beta; [|tauto].
  intros _ s2 ((e2 & He2 & Hb2) & Hp2).
  destruct (maybeShutdown_keeps s2) as (s3 & Hshut & K1 & K2 & K3 & e3 & He3 & Hb3).
  apply wp_bind. unfold wp at 1. rewrite Hshut.
  assert (Hbegins : beginsOf (e2 ++ e3) = [] \/
                    beginsOf (e2 ++ e3) = [(currentSsid s3, currentPass s3)]).
  { rewrite beginsOf_app, Hb3, app_nil_r, K2, K3. exact Hb2. }
  assert (Htrace : trace s3 = trace s ++ (e2 ++ e3))
    by (rewrite He3, He2, H1, <- app_assoc; reflexivity).
  rewrite <- K1, H2 in Hp2. clear Hb2 Hb3 He2 He3 Hshut Hshow.
  unfold wp.
  destruct ((factoryResetCheck (push01 i) ;;; delay 20) s3) as [[] s'| s0 |] eqn:Htail.
  - apply button_tail_same in Htail.
    destruct Htail as (_ & _ & _ & _ & _ & _ & _ & _ & T9 & _ & T11 & T12 & T13).
    rewrite T11, T12, T13. split; [|exact Hp2].
    exists ((e2 ++ e3) ++ [EvDelay 20]). rewrite T9, Htrace, <- app_assoc.
    split; [reflexivity|]. rewrite beginsOf_app, app_nil_r. exact Hbegins.
  - apply button_tail_reboot in Htail. subst s0. unfold afterFactoryReset. dev_simpl.
    split; [|reflexivity].
    exists ((e2 ++ e3) ++ resetEvents). rewrite Htrace, <- app_assoc.
    split; [reflexivity|]. rewrite beginsOf_app, app_nil_r. exact Hbegins.
  - exact (button_tail_returns _ _ Htail).
Qed.

End Writes.

(** X21. A pass of [loop] begins at most one connection, and begins it
    with the working credentials ([currentSsid], [currentPass]) as the pass
    leaves them: a save request and the idle retry never both connect in
    one pass. This holds up to the end of the pass and up to the restart if
    the pass ends in a factory reset. *)
Theorem pass_begins_one_connection w i s :
  wp (loop w i)
     (fun _ s' => exists evs, trace s' = trace s ++ evs /\
        (beginsOf evs = [] \/ beginsOf evs = [(currentSsid s', currentPass s')]))
     (fun s0 => exists evs, trace s0 = trace s ++ evs /\
        (beginsOf evs = [] \/ beginsOf evs = [(currentSsid s0, currentPass s0)]))
     s.
Proof.
  eapply wp_mono; [| |apply (pass_writes w i s)]; cbn beta.
  - intros _ s' [H _]. exact H.
  - intros s0 [H _]. exact H.
Qed.

(** X22. The store is written in two ways only. A pass of [loop] that
    returns leaves the store as it was, unless the pass served a POST /save
    with a non-empty SSID and a password of eight characters or more: then
    the store is the old one with [ssid], [pass] and [prov = 1] written. A
    pass that ends in the factory reset leaves [prov = 0] and nothing
    else. *)
Theorem store_written_by_save_or_reset w i s :
  wp (loop w i)
     (fun _ s' => prefs s' = prefs s \/ savedBy i (prefs s) (prefs s'))
     (fun s0 => prefs s0 = {[ "prov" := NvsUChar 0 ]})
     s.
Proof.
  eapply wp_mono; [| |apply (pass_writes w i s)]; cbn beta.
  - intros _ s' [_ H]. exact H.
  - intros s0 [_ H]. exact H.
Qed.

(** ** C6: the factory reset long press *)

(** The store through a run of passes that all return. *)
Lemma run_store w : forall inputs s,
  wp (run w inputs)
     (fun _ s' => storeThrough inputs (prefs s) (prefs s'))
     (fun _ => True) s.
Proof.
  induction inputs as [|i rest IH]; intros s.
  - unfold wp, run, ret. reflexivity.
  - cbn [run]. apply wp_bind.
    eapply wp_mono; [| |apply (pass_writes w i s)]; cbn beta; [|auto].
    intros _ s1 [_ H1].
    eapply wp_mono; [| |apply (IH s1)]; cbn beta; [|auto].
    intros _ s2 H2. cbn [storeThrough]. exists (prefs s1). split; [|exact H2].
    destruct H1 as [H1|H1]; [left; exact H1 | right; exact H1].
Qed.

(** Passes that serve no request leave the store as it was. *)
Lemma storeThrough_quiet : forall inputs p p',
  Forall (fun i => client i = None) inputs -> storeThrough inputs p p' -> p' = p.
Proof.
  induction inputs as [|i rest IH]; intros p p' Hall H; [exact H|].
  apply Forall_cons in Hall. destruct Hall as [Hi Hall].
  destruct H as (p1 & [->|(rq & Hc & _)] & H); [|congruence].
  exact (IH _ _ Hall H).
Qed.

(** C6. Let the button be read LOW in consecutive passes of [loop],
    starting from not-held. The first pass records the press. In the
    passes after it, as long as each sample comes less than ten seconds
    after the first one, nothing is wiped: no pass clears the Preferences
    or restarts, and the store is the one the press found, but for the
    credentials that valid save requests served in these passes wrote to
    it. A pass that then finds the button released returns the monitor to
    not-held, still without a wipe: it clears nothing, does not restart,
    and leaves the store as it found it unless it serves a valid save
    request itself. The pass whose sample comes ten seconds or more after
    the first one clears the Preferences, writes [prov = 0] and then
    restarts the device, and the load after the restart yields the
    placeholder pair. No run of held passes reaches ten seconds without
    that restart. *)
Theorem factory_reset_long_press w s i0 rest :
  factoryBtnHeld s = false ->
  push01 i0 = LOW ->
  Forall (fun i => push01 i = LOW) rest ->
  exists s1,
    loop w i0 s = Ret tt s1 /\ factoryBtnHeld s1 = true /\
    wp (run w rest)
       (fun _ sn =>
          factoryBtnHeld sn = true /\
          uptime sn - uptime s1 < 10000 /\
          noWipeBetween s sn /\
          storeThrough (i0 :: rest) (prefs s) (prefs sn) /\
          forall iR, push01 iR = HIGH ->
            exists s', loop w iR sn = Ret tt s' /\ factoryBtnHeld s' = false /\
                       noWipeBetween s s' /\
                       (prefs s' = prefs sn \/ savedBy iR (prefs sn) (prefs s')))
       (fun s0 =>
          10000 <= (uptime s0 - 1800) - (uptime s1 - 20) /\
          prefs s0 = {[ "prov" := NvsUChar 0 ]} /\
          (exists pre, trace s0 = pre ++ resetEvents) /\
          loadCredentialsFromNVS (restart s0) =
            Ret tt (set_currentPass DUMMY_PASS (set_currentSsid DUMMY_SSID (restart s0))))
       s1.
Proof.
  intros Hh Hi0 Hrest.
  destruct (loop_pressed w i0 s Hi0 Hh) as (s1 & Heq & Hs1 & Hn1).
  assert (Hp1 : prefs s1 = prefs s \/ savedBy i0 (prefs s) (prefs s1)).
  { pose proof (pass_writes w i0 s) as H. unfold wp in H. rewrite Heq in H. apply H. }
  exists s1. split; [exact Heq|]. split; [apply Hs1|].
  eapply wp_mono;
    [| |apply (wp_both _ _ _ _ _ _ (run_held w (uptime s1 - 20) rest s1 Hrest Hs1)
                 (run_store w rest s1))]; cbn beta.
  - intros _ sn [[(Hhn & _ & Htn) Hnn] Hst].
    split; [exact Hhn|]. split; [lia|].
    assert (Hsn : noWipeBetween s sn) by (eapply noWipeBetween_trans; eassumption).
    split; [exact Hsn|].
    split; [cbn [storeThrough]; exists (prefs s1); split; [exact Hp1 | exact Hst]|].
    intros iR HiR. destruct (loop_released w iR sn HiR) as (s' & Heq' & Hh' & Hn').
    exists s'. split; [exact Heq'|]. split; [exact Hh'|].
    split; [eapply noWipeBetween_trans; eassumption|].
    pose proof (pass_writes w iR sn) as H. unfold wp in H. rewrite Heq' in H. apply H.
  - intros s0 [(H1 & H2 & H3) _]. split; [exact H1|]. split; [exact H2|]. split; [exact H3|].
    rewrite loadCredentialsFromNVS_eq. cbn [restart powerOn prefs]. rewrite H2. reflexivity.
Qed.

Lemma all_pressed n : Forall (fun i => push01 i = LOW) (repeat pressedTick n).
Proof. apply List.Forall_forall. intros x Hx. apply repeat_spec in Hx. subst. reflexivity. Qed.

Lemma factory_reset_long_press_witness :
  factoryBtnHeld apDevice = false /\
  push01 pressedTick = LOW /\
  Forall (fun i => push01 i = LOW) (repeat pressedTick 500) /\
  exists s1,
    loop neverConnects pressedTick apDevice = Ret tt s1 /\ factoryBtnHeld s1 = true /\
    wp (run neverConnects (repeat pressedTick 500))
       (fun _ sn =>
          factoryBtnHeld sn = true /\
          uptime sn - uptime s1 < 10000 /\
          noWipeBetween apDevice sn /\
          storeThrough (pressedTick :: repeat pressedTick 500) (prefs apDevice) (prefs sn) /\
          forall iR, push01 iR = HIGH ->
            exists s', loop neverConnects iR sn = Ret tt s' /\ factoryBtnHeld s' = false /\
                       noWipeBetween apDevice s' /\
                       (prefs s' = prefs sn \/ savedBy iR (prefs sn) (prefs s')))
       (fun s0 =>
          10000 <= (uptime s0 - 1800) - (uptime s1 - 20) /\
          prefs s0 = {[ "prov" := NvsUChar 0 ]} /\
          (exists pre, trace s0 = pre ++ resetEvents) /\
          loadCredentialsFromNVS (restart s0) =
            Ret tt (set_currentPass DUMMY_PASS (set_currentSsid DUMMY_SSID (restart s0))))
       s1.
Proof.
  assert (H1 : factoryBtnHeld apDevice = false) by (vm_compute; reflexivity).
  assert (H2 : push01 pressedTick = LOW) by reflexivity.
  split; [exact H1|]. split; [exact H2|]. split; [apply all_pressed|].
  exact (factory_reset_long_press neverConnects apDevice pressedTick (repeat pressedTick 500)
           H1 H2 (all_pressed 500)).
Defined.

(** Held through 501 passes, 20 ms apart, the button restarts the device
    in the last of them; released after 499, it does not, and the store is
    the one the press found. *)
Example long_press_restarts :
  exists s0,
    run neverConnects (repeat pressedTick 501) apDevice = Reboot s0 /\
    nvs_getUChar (prefs s0) "prov" 0 = 0 /\ prefs s0 !! "ssid" = None /\
    prefs s0 !! "pass" = None /\ bootSsid (prefs (restart s0)) = DUMMY_SSID.
Proof. eexists. split; [vm_compute; reflexivity|]. vm_compute. repeat split; reflexivity. Qed.

Example short_press_returns :
  exists s',
    run neverConnects (repeat pressedTick 499 ++ [quietTick]) apDevice = Ret tt s' /\
    factoryBtnHeld s' = false /\ prefs s' = prefs apDevice.
Proof. eexists. split; [vm_compute; reflexivity|]. vm_compute. split; reflexivity. Qed.

(** A device that holds saved credentials keeps them through a press of
    9.98 s: the store is untouched and the next startup reads the pair. *)
Example short_press_keeps_credentials :
  exists s',
    run connectsAfterSetup (repeat pressedTick 499 ++ [quietTick]) savedDevice = Ret tt s' /\
    factoryBtnHeld s' = false /\ prefs s' = prefs savedDevice /\
    nvs_getUChar (prefs s') "prov" 0 = 1 /\
    bootSsid (prefs (restart s')) = "HomeNet" /\ bootPass (prefs (restart s')) = "12345678".
Proof.
  eexists. split; [vm_compute; reflexivity|]. vm_compute.
  split; [reflexivity|]. split; [reflexivity|]. split; [reflexivity|]. split; reflexivity.
Qed.

(** ** Restarts *)

(** What the button check at the end of a pass decides. *)
Lemma pass_button_outcome w i s :
  wp (loop w i)
     (fun _ s' =>
        factoryBtnHeld s' = match push01 i with LOW => true | HIGH => false end /\
        exists evs, trace s' = trace s ++ evs /\ Forall notWipe evs)
     (fun s0 =>
        push01 i = LOW /\ factoryBtnHeld s = true /\
        10000 <= wrap32 (wrap32 (uptime s0 - 1800) - factoryBtnPressStartMs s) /\
        exists evs, trace s0 = trace s ++ evs ++ resetEvents /\ Forall notWipe evs)
     s.
Proof.
  destruct (loop_anatomy w i s) as (s1 & _ & (Hh & Hp & _ & (evs & Htr & Hev) & _) & Heq).
  unfold wp. rewrite Heq. unfold bind. destruct (push01 i).
  - destruct (factoryBtnHeld s1) eqn:Hh1.
    + rewrite factoryResetCheck_held by exact Hh1.
      destruct (Z.geb_spec (wrap32 (wrap32 (uptime s1) - factoryBtnPressStartMs s1)) 10000)
        as [Hge|Hlt].
      * unfold afterFactoryReset. dev_simpl.
        split; [reflexivity|]. split; [congruence|].
        replace (uptime s1 + 1800 - 1800) with (uptime s1) by lia.
        split; [rewrite <- Hp; exact Hge|].
        exists evs. rewrite Htr, <- app_assoc. split; [reflexivity | exact Hev].
      * unfold delay, modify. dev_simpl. split; [exact Hh1|].
        exists (evs ++ [EvDelay 20]). rewrite Htr, <- app_assoc. split; [reflexivity|].
        apply Forall_app. split; [exact Hev | repeat constructor].
    + rewrite factoryResetCheck_press by exact Hh1.
      unfold delay, modify. dev_simpl. split; [reflexivity|].
      exists (evs ++ [EvDelay 20]). rewrite Htr, <- app_assoc. split; [reflexivity|].
      apply Forall_app. split; [exact Hev | repeat constructor].
  - rewrite factoryResetCheck_HIGH. unfold delay, modify. dev_simpl. split; [reflexivity|].
    exists (evs ++ [EvDelay 20]). rewrite Htr, <- app_assoc. split; [reflexivity|].
    apply Forall_app. split; [exact Hev | repeat constructor].
Qed.

(** X23. The device restarts only from the button check. A pass of
    [loop] that returns has wiped nothing: it has neither cleared the
    Preferences nor restarted, and it leaves the store as it was, or, if it
    served a valid save request, as it was with the credentials of the
    request written; it leaves the held flag equal to its button sample. A
    pass ends in the factory reset, with [prov = 0] alone in the store,
    only when it reads the button LOW, the pass before it had read it LOW
    too, and the sample comes ten seconds or more (in 32-bit clock
    arithmetic) after the recorded press. No request, radio answer or
    timeout restarts or wipes the device. *)
Theorem restart_only_by_button w i s :
  wp (loop w i)
     (fun _ s' =>
        factoryBtnHeld s' = match push01 i with LOW => true | HIGH => false end /\
        (exists evs, trace s' = trace s ++ evs /\ Forall notWipe evs) /\
        (prefs s' = prefs s \/ savedBy i (prefs s) (prefs s')))
     (fun s0 =>
        push01 i = LOW /\ factoryBtnHeld s = true /\
        10000 <= wrap32 (wrap32 (uptime s0 - 1800) - factoryBtnPressStartMs s) /\
        (exists evs, trace s0 = trace s ++ evs ++ resetEvents /\ Forall notWipe evs) /\
        prefs s0 = {[ "prov" := NvsUChar 0 ]})
     s.
Proof.
  eapply wp_mono;
    [| |apply (wp_both _ _ _ _ _ _ (pass_button_outcome w i s) (pass_writes w i s))];
    cbn beta.
  - intros _ s' [(H1 & H2) (_ & H3)]. auto.
  - intros s0 [(H1 & H2 & H3 & H4) (_ & H5)]. auto.
Qed.
